(** * disk_puri.py: schema store, command synthesis and run loop

    A shallow embedding of [src/disk_puri.py].  The script keeps its schema,
    repeat count and list of scratch files in module-level globals, talks to
    the operator through [input]/[print] and runs every schema entry through
    [subprocess.run].  Here the globals, the console, the filesystem and the
    history of subprocess invocations are the fields of one [state] record;
    every Python function becomes a computation in a state-and-exception monad
    [M] over that record.

    Python values are modelled as follows:
    - [int] is [Z]; [str] is [string], read as a sequence of code points
      below 256 (text outside that range is not covered);
    - a [list] is a Rocq list, indexed by [Z] with Python's rules for negative
      and out-of-range indices;
    - a schema entry (a [dict] with the four keys device, type, flags and
      command) is a record [source] carried together with the identity of the
      dict object that holds it.  No function of the script assigns to a key
      of an entry once it is built, so the contents can travel with the
      identity. *)

From stdpp Require Import gmap strings list pretty.
From Stdlib Require Import ZArith Ascii.

Open Scope string_scope.
Open Scope list_scope.
Open Scope Z_scope.

(** ** Python builtins *)

(** The exceptions the script can meet.  [KeyboardInterrupt] and [SystemExit]
    derive from [BaseException] only, so [except Exception] lets them through.
    [OSError] stands for its subclasses too ([FileNotFoundError],
    [PermissionError], [IsADirectoryError]). *)
Inductive exn : Type :=
  | ValueError
  | IndexError
  | EOFError
  | OSError
  | OverflowError
  | MemoryError
  | KeyboardInterrupt
  | SystemExit (code : Z).

Definition is_Exception (e : exn) : bool :=
  match e with
  | KeyboardInterrupt | SystemExit _ => false
  | _ => true
  end.

Definition is_ValueError (e : exn) : bool :=
  match e with
  | ValueError => true
  | _ => false
  end.

Definition LF : string := String "010"%char "".
Definition ESC : string := String "027"%char "".

(** [str.isspace] on one character: tab to carriage return, the four
    separators 0x1c to 0x1f, the blank, next-line (0x85) and the no-break
    space (0xa0). *)
Definition isspace (c : ascii) : bool :=
  let n := nat_of_ascii c in
  ((9 <=? n)%nat && (n <=? 13)%nat) || ((28 <=? n)%nat && (n <=? 32)%nat)
  || (n =? 133)%nat || (n =? 160)%nat.

Fixpoint lstrip (s : string) : string :=
  match s with
  | "" => ""
  | String c r => if isspace c then lstrip r else s
  end.

Fixpoint rstrip (s : string) : string :=
  match s with
  | "" => ""
  | String c r =>
      match rstrip r with
      | "" => if isspace c then "" else String c ""
      | r' => String c r'
      end
  end.

(** [s.strip()] *)
Definition strip (s : string) : string := rstrip (lstrip s).

Definition digit_value (c : ascii) : option Z :=
  let n := nat_of_ascii c in
  if ((48 <=? n)%nat && (n <=? 57)%nat) then Some (Z.of_nat n - 48) else None.

(** The digits of a decimal literal after its first digit: single underscores
    are allowed between digits. *)
Fixpoint int_digits (acc : Z) (after_underscore : bool) (s : string) : option Z :=
  match s with
  | "" => if after_underscore then None else Some acc
  | String c r =>
      match digit_value c with
      | Some d => int_digits (10 * acc + d) false r
      | None =>
          if Ascii.eqb c "_" && negb after_underscore
          then int_digits acc true r
          else None
      end
  end.

Definition int_unsigned (s : string) : option Z :=
  match s with
  | "" => None
  | String c r =>
      match digit_value c with
      | Some d => int_digits d false r
      | None => None
      end
  end.

(** [int(s)] in base ten: surrounding white space is dropped, one sign may
    come first, the rest is a decimal literal.  [None] stands for the
    [ValueError] Python raises.  (Interpreters that limit the length of the
    literal raise [ValueError] on inputs of several thousand digits; that limit
    is not modelled.) *)
Definition py_int (s : string) : option Z :=
  match strip s with
  | String "+" r => int_unsigned r
  | String "-" r => Z.opp <$> int_unsigned r
  | t => int_unsigned t
  end.

(** [str(n)], as an f-string formats an [int]. *)
Definition str (n : Z) : string := pretty n.

(** [needle in hay] on strings. *)
Fixpoint str_in (needle hay : string) : bool :=
  String.prefix needle hay ||
  match hay with
  | "" => false
  | String _ rest => str_in needle rest
  end.

(** [len(l)] *)
Definition len {A} (l : list A) : Z := Z.of_nat (length l).

(** The position a Python index denotes in a list of that length: negative
    indices count from the end, anything outside is an [IndexError]. *)
Definition list_index {A} (l : list A) (i : Z) : option nat :=
  if (0 <=? i) && (i <? len l) then Some (Z.to_nat i)
  else if (- len l <=? i) && (i <? 0) then Some (Z.to_nat (len l + i))
  else None.

(** ** The data of the script *)

Definition DEFAULT_DD_FLAGS : string :=
  "bs=4M iflag=fullblock oflag=direct conv=fdatasync status=progress".

(** A schema entry: the dict [{"device": .., "type": .., "flags": ..,
    "command": ..}] built by [add_source_to_schema] and [create_data_file]. *)
Record source : Type := Source {
  device : string;
  type : string;
  flags : string;
  command : string;
}.

(** A dict object: its identity and its contents. *)
Record dict_obj : Type := DictObj {
  obj_id : nat;
  obj_val : source;
}.

(** What [subprocess.run(..., text=True, stderr=subprocess.PIPE)] hands back. *)
Record CompletedProcess : Type := Process {
  returncode : Z;
  stderr : string;
}.

(** One call of [subprocess.run]: it returns a [CompletedProcess] or raises. *)
Inductive run_outcome : Type :=
  | Exited (process : CompletedProcess)
  | Raised (e : exn).

Inductive file_kind : Type :=
  | RegularFile
  | Directory
  | BlockDevice.

Record state : Type := State {
  schema_sources : list dict_obj;          (* global [schema_sources] *)
  schema_repeat_count : Z;                 (* global [schema_repeat_count] *)
  temp_files : list string;                (* global [temp_files] *)
  fs : gmap string file_kind;              (* the filesystem, by path *)
  stdin : list string;                     (* the lines the operator will type *)
  stdout : string;                         (* everything the script has written *)
  invocations : list (string * run_outcome); (* calls of [subprocess.run] so far *)
  next_id : nat;                           (* identity of the next object built *)
}.

Definition set_schema_sources (v : list dict_obj) (st : state) : state :=
  State v (schema_repeat_count st) (temp_files st) (fs st) (stdin st)
        (stdout st) (invocations st) (next_id st).

Definition set_schema_repeat_count (v : Z) (st : state) : state :=
  State (schema_sources st) v (temp_files st) (fs st) (stdin st)
        (stdout st) (invocations st) (next_id st).

Definition set_fs (v : gmap string file_kind) (st : state) : state :=
  State (schema_sources st) (schema_repeat_count st) (temp_files st) v (stdin st)
        (stdout st) (invocations st) (next_id st).

Definition set_stdin (v : list string) (st : state) : state :=
  State (schema_sources st) (schema_repeat_count st) (temp_files st) (fs st) v
        (stdout st) (invocations st) (next_id st).

Definition set_stdout (v : string) (st : state) : state :=
  State (schema_sources st) (schema_repeat_count st) (temp_files st) (fs st)
        (stdin st) v (invocations st) (next_id st).

Definition set_invocations (v : list (string * run_outcome)) (st : state) : state :=
  State (schema_sources st) (schema_repeat_count st) (temp_files st) (fs st)
        (stdin st) (stdout st) v (next_id st).

Definition set_next_id (v : nat) (st : state) : state :=
  State (schema_sources st) (schema_repeat_count st) (temp_files st) (fs st)
        (stdin st) (stdout st) (invocations st) v.

(** ** The monad of the script *)

(** A call returns a value, leaves by an exception, or (for the model of a
    [while] loop only) is cut off because the fuel ran out. *)
Inductive result (A : Type) : Type :=
  | Ret (a : A)
  | Exc (e : exn)
  | OutOfFuel.

Arguments Ret {A} a.
Arguments Exc {A} e.
Arguments OutOfFuel {A}.

Definition M (A : Type) : Type := state -> result A * state.

Definition ret {A} (a : A) : M A := fun st => (Ret a, st).

Definition bind {A B} (m : M A) (k : A -> M B) : M B :=
  fun st =>
    match m st with
    | (Ret a, st') => k a st'
    | (Exc e, st') => (Exc e, st')
    | (OutOfFuel, st') => (OutOfFuel, st')
    end.

Definition raise {A} (e : exn) : M A := fun st => (Exc e, st).

(** [try: body except <class>: handler] *)
Definition try_except {A} (body : M A) (catches : exn -> bool) (handler : M A) : M A :=
  fun st =>
    match body st with
    | (Exc e, st') => if catches e then handler st' else (Exc e, st')
    | r => r
    end.

Definition gets {A} (f : state -> A) : M A := fun st => (Ret (f st), st).
Definition modify (f : state -> state) : M unit := fun st => (Ret tt, f st).

Declare Scope py_scope.
Delimit Scope py_scope with py.
Notation "x <- c1 ;; c2" := (bind c1 (fun x => c2))
  (at level 100, c1 at next level, right associativity) : py_scope.
Notation "c1 ;; c2" := (bind c1 (fun _ => c2))
  (at level 100, right associativity) : py_scope.
Open Scope py_scope.

(** [print(s)]: the text and a newline. *)
Definition print (s : string) : M unit :=
  modify (fun st => set_stdout (stdout st +:+ s +:+ LF) st).

(** [input(prompt)]: writes the prompt, then reads one line; [EOFError] when
    the operator's input is exhausted. *)
Definition input (prompt : string) : M string :=
  modify (fun st => set_stdout (stdout st +:+ prompt) st) ;;
  fun st =>
    match stdin st with
    | [] => (Exc EOFError, st)
    | line :: rest => (Ret line, set_stdin rest st)
    end.

(** [int(s)] *)
Definition int (s : string) : M Z :=
  match py_int s with
  | Some n => ret n
  | None => raise ValueError
  end.

(** [l[i]] *)
Definition getitem {A} (l : list A) (i : Z) : M A :=
  match list_index l i with
  | Some n => match l !! n with Some x => ret x | None => raise IndexError end
  | None => raise IndexError
  end.

(** [del l[i]], as the list that remains. *)
Definition delitem {A} (l : list A) (i : Z) : M (list A) :=
  match list_index l i with
  | Some n => ret (delete n l)
  | None => raise IndexError
  end.

(** [d.copy()]: a new dict object with the same contents. *)
Definition dict_copy (d : dict_obj) : M dict_obj :=
  fun st => (Ret (DictObj (next_id st) (obj_val d)), set_next_id (S (next_id st)) st).

(** [os.path.isfile(p)] *)
Definition os_path_isfile (p : string) : M bool :=
  gets (fun st => match fs st !! p with Some RegularFile => true | _ => false end).

(** [os.remove(p)]: unlinks anything but a directory ([OSError] covers
    [FileNotFoundError] and [IsADirectoryError]; permissions are not
    modelled). *)
Definition os_remove (p : string) : M unit :=
  fun st =>
    match fs st !! p with
    | Some Directory | None => (Exc OSError, st)
    | Some _ => (Ret tt, set_fs (delete p (fs st)) st)
    end.

(** [sys.exit(code)] *)
Definition sys_exit {A} (code : Z) : M A := raise (SystemExit code).

(** ** The functions of the script *)

(** [build_dd_command]: the two f-strings. *)
Definition build_dd_command (if_device of_device flags : string)
    (continuous_write : bool) : string :=
  if continuous_write
  then "while :; do cat " +:+ if_device +:+ "; done | dd of=" +:+ of_device
       +:+ " " +:+ flags
  else "dd if=" +:+ if_device +:+ " of=" +:+ of_device +:+ " " +:+ flags.

(** [delete_source] *)
Definition delete_source : M unit :=
  srcs <- gets schema_sources ;;
  match srcs with
  | [] => print "No sources to delete."
  | _ =>
      try_except
        (line <- input "Enter source number to delete: " ;;
         n <- int (strip line) ;;
         let source_number := n - 1 in
         srcs <- gets schema_sources ;;
         if (0 <=? source_number) && (source_number <? len srcs)
         then
           srcs' <- delitem srcs source_number ;;
           modify (set_schema_sources srcs') ;;
           print "Source deleted."
         else print "Invalid source number.")
        is_ValueError
        (print "Please enter a valid number.")
  end.

(** [copy_source] *)
Definition copy_source : M unit :=
  srcs <- gets schema_sources ;;
  match srcs with
  | [] => print "No sources to copy."
  | _ =>
      try_except
        (line <- input "Enter source number to copy: " ;;
         n <- int (strip line) ;;
         let source_number := n - 1 in
         srcs <- gets schema_sources ;;
         if (0 <=? source_number) && (source_number <? len srcs)
         then
           d <- getitem srcs source_number ;;
           d' <- dict_copy d ;;
           modify (fun st => set_schema_sources (schema_sources st ++ [d']) st) ;;
           print "Source copied."
         else print "Invalid source number.")
        is_ValueError
        (print "Please enter a valid number.")
  end.

(** [set_repeat_count] *)
Definition set_repeat_count : M unit :=
  try_except
    (line <- input "Enter the number of times to repeat the schema (0 for infinitely): " ;;
     repeat_count <- int (strip line) ;;
     repeat_count <-
       (if repeat_count <? 0
        then print "Invalid input. Setting repeat count to 1 by default." ;; ret 1
        else ret repeat_count) ;;
     modify (set_schema_repeat_count repeat_count))
    is_ValueError
    (print "Invalid input. Setting repeat count to 1 by default." ;;
     modify (set_schema_repeat_count 1)).

(** The [for temp_file in temp_files] loop of [cleanup]. *)
Fixpoint cleanup_loop (files : list string) : M unit :=
  match files with
  | [] => ret tt
  | temp_file :: rest =>
      is_file <- os_path_isfile temp_file ;;
      (if is_file then os_remove temp_file else ret tt) ;;
      cleanup_loop rest
  end.

(** [cleanup], the SIGINT handler; neither the signal number nor the frame it
    receives is used. *)
Definition cleanup (signum : Z) (frame : unit) : M unit :=
  files <- gets temp_files ;;
  cleanup_loop files ;;
  print (LF +:+ "Process interrupted. Exiting.") ;;
  sys_exit 0.

Section Engine.

(** The process-execution collaborator: what running a shell command yields,
    given the calls made before it. *)
Variable os_run : list (string * run_outcome) -> string -> run_outcome.

(** [subprocess.run(command, shell=True, text=True, stderr=subprocess.PIPE)];
    the call is recorded in [invocations]. *)
Definition subprocess_run (command : string) : M CompletedProcess :=
  fun st =>
    let o := os_run (invocations st) command in
    let st' := set_invocations (invocations st ++ [(command, o)]) st in
    match o with
    | Exited process => (Ret process, st')
    | Raised e => (Exc e, st')
    end.

(** [execute_command] *)
Definition execute_command (command : string) : M bool :=
  try_except
    (process <- subprocess_run command ;;
     if returncode process =? 0 then ret true
     else if str_in "No space left on device" (stderr process) then ret true
     else ret false)
    is_Exception
    (ret false).

(** The [for i, source_info in enumerate(schema_sources, start=1)] loop of
    [run_schema]; the result tells whether the body executed [return]. *)
Fixpoint run_pass (i : Z) (sources : list dict_obj) : M bool :=
  match sources with
  | [] => ret false
  | source_info :: rest =>
      print (LF +:+ ESC +:+ "[1m" +:+ str i +:+ "." +:+ ESC +:+ "[0m "
             +:+ command (obj_val source_info) +:+ LF) ;;
      ok <- execute_command (command (obj_val source_info)) ;;
      if ok
      then print "Pass completed successfully." ;; run_pass (i + 1) rest
      else print "Error during execution." ;; ret true
  end.

(** The [while] loop of [run_schema], at most [fuel] iterations of it; the
    result tells whether the function returned from inside the loop. *)
Fixpoint run_loop (fuel : nat) (run_count : Z) : M bool :=
  schema_repeat_count_ <- gets schema_repeat_count ;;
  if (schema_repeat_count_ =? 0) || (run_count <? schema_repeat_count_)
  then
    match fuel with
    | O => fun st => (OutOfFuel, st)
    | S fuel' =>
        let run_count := run_count + 1 in
        print (LF +:+ ESC +:+ "[1m --- Starting Schema Run " +:+ str run_count
               +:+ " ---" +:+ ESC +:+ "[0m") ;;
        sources <- gets schema_sources ;;
        returned <- run_pass 1 sources ;;
        if returned then ret true
        else
          schema_repeat_count_ <- gets schema_repeat_count ;;
          (if schema_repeat_count_ >? 0
           then print ("--- Completed run " +:+ str run_count +:+ " of "
                       +:+ str schema_repeat_count_ +:+ " ---")
           else ret tt) ;;
          run_loop fuel' run_count
    end
  else ret false.

(** [run_schema] *)
Definition run_schema (fuel : nat) : M unit :=
  returned <- run_loop fuel 0 ;;
  if returned then ret tt
  else print "Disk preparation completed.".

End Engine.

(** ** The prompting layer of the script *)

(** More builtins.  [s.lower()] on code points below 256: the capitals A to Z
    and the accented capitals 0xc0 to 0xde (the sign 0xd7 apart) move up by
    32. *)
Definition lower_char (c : ascii) : ascii :=
  let n := nat_of_ascii c in
  if ((65 <=? n)%nat && (n <=? 90)%nat)
     || ((192 <=? n)%nat && (n <=? 222)%nat && negb (n =? 215)%nat)
  then ascii_of_nat (n + 32) else c.

Fixpoint lower (s : string) : string :=
  match s with
  | "" => ""
  | String c r => String (lower_char c) (lower r)
  end.

(** [s.upper()] on code points below 256; [None] when the result leaves that
    range (the micro sign and y with diaeresis have their capitals beyond it).
    The sharp s becomes "SS". *)
Definition upper_char (c : ascii) : option string :=
  let n := nat_of_ascii c in
  if ((97 <=? n)%nat && (n <=? 122)%nat)
     || ((224 <=? n)%nat && (n <=? 254)%nat && negb (n =? 247)%nat)
  then Some (String (ascii_of_nat (n - 32)) "")
  else if (n =? 223)%nat then Some "SS"
  else if (n =? 181)%nat || (n =? 255)%nat then None
  else Some (String c "").

Fixpoint upper (s : string) : option string :=
  match s with
  | "" => Some ""
  | String c r =>
      match upper_char c, upper r with
      | Some u, Some v => Some (u +:+ v)
      | _, _ => None
      end
  end.

(** [s.encode()]: the UTF-8 bytes of a text of code points below 256. *)
Fixpoint encode (s : string) : string :=
  match s with
  | "" => ""
  | String c r =>
      let n := nat_of_ascii c in
      if (n <? 128)%nat then String c (encode r)
      else String (ascii_of_nat (192 + n / 64))
             (String (ascii_of_nat (128 + n mod 64)) (encode r))
  end.

(** [content * n] on bytes: nothing for [n <= 0]. *)
Fixpoint bytes_repeat (content : string) (n : nat) : string :=
  match n with
  | O => ""
  | S n' => content +:+ bytes_repeat content n'
  end.

Definition bytes_mul (content : string) (n : Z) : string :=
  bytes_repeat content (Z.to_nat n).

(** [len(s)] on strings and bytes. *)
Definition str_len (s : string) : Z := Z.of_nat (String.length s).

(** The format specification [: <6] and its like: left-aligned, padded with
    blanks to the width. *)
Definition ljust (width : nat) (s : string) : string :=
  s +:+ bytes_repeat " " (width - String.length s).

(** [s or default] on strings: the empty string is falsy. *)
Definition str_or (s default : string) : string :=
  match s with
  | "" => default
  | _ => s
  end.

(** How an f-string shows [None] or a string. *)
Definition format_opt (o : option string) : string :=
  match o with
  | Some s => s
  | None => "None"
  end.

Definition set_temp_files (v : list string) (st : state) : state :=
  State (schema_sources st) (schema_repeat_count st) v (fs st) (stdin st)
        (stdout st) (invocations st) (next_id st).

(** [os.path.exists(p)] *)
Definition os_path_exists (p : string) : M bool :=
  gets (fun st => match fs st !! p with Some _ => true | None => false end).

(** [stat.S_ISBLK(os.stat(p).st_mode)], for a path that exists. *)
Definition S_ISBLK_stat (p : string) : M bool :=
  fun st =>
    match fs st !! p with
    | Some BlockDevice => (Ret true, st)
    | Some _ => (Ret false, st)
    | None => (Exc OSError, st)
    end.

(** A dict display [{...}]: a new dict object. *)
Definition dict_new (d : source) : M dict_obj :=
  fun st => (Ret (DictObj (next_id st) d), set_next_id (S (next_id st)) st).

(** [is_block_device] *)
Definition is_block_device (path : string) : M bool :=
  found <- os_path_exists path ;;
  if found then S_ISBLK_stat path else ret false.

(** [get_device] *)
Definition get_device : M (option string) :=
  line <- input "Enter target drive (e.g., /dev/sdb): " ;;
  let device := strip line in
  ok <- is_block_device device ;;
  if negb ok
  then print "Invalid device path. Ensure it is a valid block device in /dev/." ;;
       ret None
  else ret (Some device).

(** The [for i, s in enumerate(schema_sources, start=1)] loop of
    [print_schema]. *)
Fixpoint print_schema_loop (i : Z) (sources : list dict_obj) : M unit :=
  match sources with
  | [] => ret tt
  | s :: rest =>
      print (ESC +:+ "[1m" +:+ str i +:+ "." +:+ ESC +:+ "[0m "
             +:+ command (obj_val s)) ;;
      print "" ;;
      print_schema_loop (i + 1) rest
  end.

(** [print_schema] *)
Definition print_schema : M unit :=
  print (LF +:+ ESC +:+ "[1mCurrent Schema:" +:+ ESC +:+ "[0m") ;;
  schema_repeat_count_ <- gets schema_repeat_count ;;
  print ("Repeat count: "
         +:+ (if schema_repeat_count_ >? 0 then str schema_repeat_count_
              else "infinite")) ;;
  print "" ;;
  sources <- gets schema_sources ;;
  match sources with
  | [] => print "  (No sources added yet)"
  | _ => print_schema_loop 1 sources
  end.

(** One value of [source_types_metadata]: the keys "description",
    "if_device" (absent for "path"), "requires_input_path" (absent, hence
    falsy, for "random" and "zeros") and "continuous_write" ([None] for
    "path" until a choice is stored there).  The key "content" is never
    read. *)
Record source_meta : Type := SourceMeta {
  description : string;
  meta_if_device : option string;
  requires_input_path : bool;
  meta_continuous_write : option bool;
}.

(** The table [source_types_metadata] as the module builds it, but for the
    choice stored under "path", which [add_source_to_schema] overwrites. *)
Definition metadata_table (path_choice : option bool) : list (string * source_meta) :=
  [("random", SourceMeta "random data" (Some "/dev/urandom") false (Some false));
   ("zeros", SourceMeta "zeros" (Some "/dev/zero") false (Some false));
   ("path", SourceMeta "content from system path" None true path_choice)].

(** What the prompting functions use beyond [state]: the metadata table,
    which [add_source_to_schema] updates in place, and the bytes the script
    last wrote at each path. *)
Record session : Type := Session {
  core : state;
  source_types_metadata : list (string * source_meta);
  file_data : gmap string string;
}.

Definition set_core (v : state) (s : session) : session :=
  Session v (source_types_metadata s) (file_data s).

Definition set_source_types_metadata (v : list (string * source_meta))
    (s : session) : session :=
  Session (core s) v (file_data s).

Definition set_file_data (v : gmap string string) (s : session) : session :=
  Session (core s) (source_types_metadata s) v.

(** The monad of the prompting layer, over [session]. *)
Definition Menu (A : Type) : Type := session -> result A * session.

Definition retS {A} (a : A) : Menu A := fun s => (Ret a, s).

Definition bindS {A B} (m : Menu A) (k : A -> Menu B) : Menu B :=
  fun s =>
    match m s with
    | (Ret a, s') => k a s'
    | (Exc e, s') => (Exc e, s')
    | (OutOfFuel, s') => (OutOfFuel, s')
    end.

(** A computation on [state], run on the [core] of the session. *)
Definition lift {A} (m : M A) : Menu A :=
  fun s =>
    match m (core s) with
    | (r, st') => (r, set_core st' s)
    end.

Definition try_exceptS {A} (body : Menu A) (catches : exn -> bool) (handler : Menu A) : Menu A :=
  fun s =>
    match body s with
    | (Exc e, s') => if catches e then handler s' else (Exc e, s')
    | r => r
    end.

Declare Scope menu_scope.
Delimit Scope menu_scope with menu.
Notation "x <- c1 ;; c2" := (bindS c1 (fun x => c2))
  (at level 100, c1 at next level, right associativity) : menu_scope.
Notation "c1 ;; c2" := (bindS c1 (fun _ => c2))
  (at level 100, right associativity) : menu_scope.

(** [key[0]]: [IndexError] on the empty string. *)
Definition first_char (key : string) : Menu string :=
  match key with
  | "" => fun s => (Exc IndexError, s)
  | String c _ => retS (String c "")
  end.

(** [key[1:]] *)
Definition str_tail (key : string) : string :=
  match key with
  | "" => ""
  | String _ r => r
  end.

(** The [for key, meta in source_types_metadata.items()] loop of
    [add_source_to_schema]. *)
Fixpoint print_source_types (items : list (string * source_meta)) : Menu unit :=
  match items with
  | [] => retS tt
  | (key, meta) :: rest =>
      (k0 <- first_char key ;;
       lift (print ("(" +:+ k0 +:+ ")" +:+ ljust 6 (str_tail key) +:+ " - "
                    +:+ description meta)) ;;
       print_source_types rest)%menu
  end.

(** [next((key for key in source_types_metadata if source_type_key ==
    key[0]), None)], together with the value the table holds under the key
    found (a dict holds each key once, so that value is
    [source_types_metadata[source_type]]). *)
Fixpoint find_source_type (source_type_key : string)
    (items : list (string * source_meta)) : Menu (option (string * source_meta)) :=
  match items with
  | [] => retS None
  | (key, meta) :: rest =>
      (k0 <- first_char key ;;
       if String.eqb source_type_key k0 then retS (Some (key, meta))
       else find_source_type source_type_key rest)%menu
  end.

(** A metadata dict after [metadata["continuous_write"] = v]. *)
Definition with_continuous_write (v : bool) (meta : source_meta) : source_meta :=
  SourceMeta (description meta) (meta_if_device meta) (requires_input_path meta)
             (Some v).

(** The table after that assignment, [metadata] being the dict the table
    holds under [source_type]. *)
Fixpoint store_continuous_write (source_type : string) (v : bool)
    (items : list (string * source_meta)) : list (string * source_meta) :=
  match items with
  | [] => []
  | (key, meta) :: rest =>
      if String.eqb key source_type
      then (key, with_continuous_write v meta) :: rest
      else (key, meta) :: store_continuous_write source_type v rest
  end.

(** The truth value of a stored choice: [None] is falsy. *)
Definition truthy (o : option bool) : bool :=
  match o with
  | Some b => b
  | None => false
  end.

(** [schema_sources.append({"device": .., "type": .., "flags": ..,
    "command": ..})] *)
Definition append_source (d : source) : M unit :=
  entry <- dict_new d ;;
  modify (fun st => set_schema_sources (schema_sources st ++ [entry]) st).

(** The prompt for the dd flags, shared by the two functions that add a
    source. *)
Definition flags_prompt : string :=
  "Enter dd flags or press Enter for default [" +:+ DEFAULT_DD_FLAGS +:+ "]: ".

(** [add_source_to_schema].  [metadata] is the dict held by the table, so the
    assignment to its "continuous_write" changes the table and what is read
    from [metadata] afterwards; the [return] after "Invalid path." shows as
    [None]. *)
Definition add_source_to_schema : Menu unit :=
  (device <- lift get_device ;;
   match device with
   | None | Some "" => retS tt
   | Some device =>
       lift (print (LF +:+ ESC +:+ "[1mChoose source type:" +:+ ESC +:+ "[0m")) ;;
       items <- (fun s => (Ret (source_types_metadata s), s)) ;;
       print_source_types items ;;
       line <- lift (input "Choose source type: ") ;;
       let source_type_key := lower (strip line) in
       items <- (fun s => (Ret (source_types_metadata s), s)) ;;
       found <- find_source_type source_type_key items ;;
       match found with
       | None | Some ("", _) => lift (print "Invalid source type.")
       | Some (source_type, metadata) =>
           let if_device := meta_if_device metadata in
           chosen <-
             (if requires_input_path metadata
              then
                line <- lift (input "Enter the full path to the source: ") ;;
                let if_device := strip line in
                found <- lift (os_path_exists if_device) ;;
                if negb found
                then lift (print "Invalid path.") ;; retS None
                else
                  line <- lift (input "Write source: (o)nce or (c)ontinuously? ") ;;
                  let write_mode := lower (strip line) in
                  (fun s => (Ret tt,
                             set_source_types_metadata
                               (store_continuous_write source_type
                                  (String.prefix "c" write_mode)
                                  (source_types_metadata s)) s)) ;;
                  retS (Some (Some if_device,
                              with_continuous_write (String.prefix "c" write_mode)
                                                    metadata))
              else retS (Some (if_device, metadata))) ;;
           match chosen with
           | None => retS tt
           | Some (if_device, metadata) =>
               line <- lift (input flags_prompt) ;;
               let flags := str_or (strip line) DEFAULT_DD_FLAGS in
               let command :=
                 build_dd_command (format_opt if_device) device flags
                                  (truthy (meta_continuous_write metadata)) in
               lift (append_source (Source device source_type flags command)) ;;
               lift (print "Source added successfully.")
           end
       end
   end)%menu.

(** The bytes [create_data_file] repeats: [b"\xFF" if not user_input or
    user_input.upper() == "FF" else user_input.encode()]. *)
Definition file_content (user_input : string) : string :=
  if match user_input with "" => true | _ => false end
     || match upper user_input with Some u => String.eqb u "FF" | None => false end
  then String "255"%char ""
  else encode user_input.

(** [sys.maxsize], the largest index: [2^63 - 1] on a 64-bit interpreter. *)
Definition PY_SSIZE_T_MAX : Z := 2 ^ 63 - 1.

(** The first [n] bytes of [s]. *)
Fixpoint str_take (n : nat) (s : string) : string :=
  match n, s with
  | S n', String c r => String c (str_take n' r)
  | _, _ => ""
  end.

(** [content * count] on bytes, as the interpreter evaluates it.  The count
    has to fit an index ([OverflowError] otherwise, for a negative count
    too); a negative count counts as 0; the length of the product has to fit
    an index ([OverflowError]); a product as long as [content] is [content]
    itself; any other product needs a block of its length from the allocator,
    and [MemoryError] is raised when [granted] says the block is refused. *)
Definition bytes_product (granted : Z -> bool) (content : string) (count : Z)
    : result string :=
  if (count <? - PY_SSIZE_T_MAX - 1) || (PY_SSIZE_T_MAX <? count)
  then Exc OverflowError
  else
    let n := Z.max count 0 in
    if (0 <? n) && (PY_SSIZE_T_MAX / n <? str_len content)
    then Exc OverflowError
    else if (str_len content * n =? str_len content)
            || granted (str_len content * n)
         then Ret (bytes_mul content n)
         else Exc MemoryError.

(** What the machine says when [create_data_file] writes its file, at a given
    point of the session: whether [open(path, "wb")] is refused for a reason
    other than the path being a directory (a directory missing on the way, no
    permission); whether the allocator grants a block of so many bytes; how
    many bytes the file takes before the write fails ([None]: all of them). *)
Record io_env : Type := IoEnv {
  open_refused : session -> string -> bool;
  malloc_granted : session -> Z -> bool;
  write_room : session -> string -> option Z;
}.

Section MenuLoop.

(** The process-execution collaborator, as in [Engine], the clock
    ([int(time.time())] at a given point of the session) and the machine the
    file is written on. *)
Variable os_run : list (string * run_outcome) -> string -> run_outcome.
Variable time_time : session -> Z.
Variable io : io_env.

(** [open(filename, "wb")]: a directory cannot be opened for writing, and the
    machine may refuse any other path; [OSError] either way, with nothing
    changed.  Otherwise the file is there and empty: a device keeps its kind,
    any other path is a regular file. *)
Definition open_wb (filename : string) : Menu unit :=
  fun s =>
    match fs (core s) !! filename with
    | Some Directory => (Exc OSError, s)
    | Some BlockDevice =>
        if open_refused io s filename then (Exc OSError, s)
        else (Ret tt, set_file_data (<[filename := ""]> (file_data s)) s)
    | _ =>
        if open_refused io s filename then (Exc OSError, s)
        else
          (Ret tt,
           set_file_data (<[filename := ""]> (file_data s))
             (set_core (set_fs (<[filename := RegularFile]> (fs (core s))) (core s)) s))
    end.

(** [f.write(data)] and the close at the end of the [with] block: all of
    [data] when the file takes it, [OSError] after the bytes there was room
    for otherwise. *)
Definition f_write (filename data : string) : Menu unit :=
  fun s =>
    match write_room io s filename with
    | Some room =>
        if room <? str_len data
        then (Exc OSError,
              set_file_data
                (<[filename := str_take (Z.to_nat room) data]> (file_data s)) s)
        else (Ret tt, set_file_data (<[filename := data]> (file_data s)) s)
    | None => (Ret tt, set_file_data (<[filename := data]> (file_data s)) s)
    end.

(** [create_data_file], from "Add this file to schema?" to its end. *)
Definition offer_to_add (filename : string) : Menu unit :=
  (line <- lift (input (LF +:+ "Add this file to schema? [Y/n]: ")) ;;
   if negb (String.eqb (lower (strip line)) "n")
   then
     device <- lift get_device ;;
     match device with
     | None | Some "" => retS tt
     | Some device =>
         line <- lift (input "Write source: (o)nce or (c)ontinuously? ") ;;
         let write_mode := lower (strip line) in
         let continuous_write := String.prefix "c" write_mode in
         line <- lift (input flags_prompt) ;;
         let flags := str_or (strip line) DEFAULT_DD_FLAGS in
         let command := build_dd_command filename device flags continuous_write in
         lift (append_source (Source device "path" flags command)) ;;
         lift (print "Source added successfully.")
     end
   else retS tt)%menu.

(** [create_data_file], from "# Create the file" to its end.  The file is
    opened before the product [content * repeat_count] is evaluated, so a
    product that fails leaves the file empty; the path is tracked only after
    the write. *)
Definition create_the_file (content : string) (size_mb : Z) (filename : string)
    (cleanup : bool) : Menu unit :=
  (let repeat_count := (size_mb * 1024 * 1024) / str_len content in
   open_wb filename ;;
   data <- (fun s => (bytes_product (malloc_granted io s) content repeat_count, s)) ;;
   f_write filename data ;;
   (if cleanup
    then lift (modify (fun st => set_temp_files (temp_files st ++ [filename]) st))
    else retS tt) ;;
   lift (print (LF +:+ "Created file: " +:+ filename)) ;;
   lift (print ("Size: " +:+ str size_mb +:+ "MB")) ;;
   lift (print ("Cleanup on exit: " +:+ (if cleanup then "Yes" else "No"))) ;;
   offer_to_add filename)%menu.

(** [create_data_file]: the four questions, then [create_the_file].  The
    divisor [len(content)] is never 0, [content] being [file_content] of what
    was typed. *)
Definition create_data_file : Menu unit :=
  (lift (print (LF +:+ ESC +:+ "[1mCreate Custom Data File:" +:+ ESC +:+ "[0m")) ;;
   line <- lift (input "Enter file content (default: All binary ones): ") ;;
   let user_input := strip line in
   let content := file_content user_input in
   line <- lift (input "Enter file size in MB (default: 128MB): ") ;;
   let size_mb := strip line in
   size_mb <-
     try_exceptS
       (match size_mb with
        | "" => retS 128
        | _ => lift (int size_mb)
        end)
       is_ValueError
       (lift (print "Invalid size input. Using default 128MB.") ;; retS 128) ;;
   now <- (fun s => (Ret (time_time s), s)) ;;
   let default_name := "gen_" +:+ str now +:+ ".tmp" in
   line <- lift (input ("Enter filename (default: " +:+ default_name +:+ "): ")) ;;
   let filename := str_or (strip line) default_name in
   line <- lift (input "Remove file after script completion? [Y/n]: ") ;;
   let cleanup := negb (String.eqb (lower (strip line)) "n") in
   create_the_file content size_mb filename cleanup)%menu.

(** [main_menu]: at most [fuel] turns of its [while True] loop; [run_fuel] is
    the allowance handed to [run_schema].  The flag tells whether the turn
    ended in [break]. *)
Fixpoint main_menu (fuel run_fuel : nat) : Menu unit :=
  match fuel with
  | O => fun s => (OutOfFuel, s)
  | S fuel' =>
      (lift (print (LF +:+ ESC +:+ "[1mMain Menu:" +:+ ESC +:+ "[0m")) ;;
       lift (print "(a)dd      - Add source to schema") ;;
       lift (print "(d)elete   - Delete source from schema") ;;
       lift (print "(c)opy     - Duplicate existing source") ;;
       lift (print "(g)enerate - Generate a custom data file") ;;
       lift (print "(r)epeat   - Set whether to repeat the schema") ;;
       lift (print "Type 'done' to execute your schema.") ;;
       line <- lift (input "Choose an option: ") ;;
       let choice := lower (strip line) in
       break <-
         (if String.eqb choice "a" then add_source_to_schema ;; retS false
          else if String.eqb choice "d" then lift delete_source ;; retS false
          else if String.eqb choice "c" then lift copy_source ;; retS false
          else if String.eqb choice "r" then lift set_repeat_count ;; retS false
          else if String.eqb choice "g" then create_data_file ;; retS false
          else if String.eqb choice "done"
               then lift (run_schema os_run run_fuel) ;; retS true
          else lift (print "Invalid choice. Please choose again.") ;; retS false) ;;
       if break then retS tt
       else lift print_schema ;; main_menu fuel' run_fuel)%menu
  end.

(** The [if __name__ == "__main__":] block. *)
Definition main (fuel run_fuel : nat) : Menu unit :=
  (lift (modify (set_schema_repeat_count 1)) ;;
   lift (print (ESC +:+ "[1mMulti-Pass Disk Preparation Script" +:+ ESC +:+ "[0m")) ;;
   main_menu fuel run_fuel)%menu.

End MenuLoop.

(** The session when the script starts: empty schema, no scratch file, the
    metadata table as written. *)
Definition initial_session (files : gmap string file_kind) (typed : list string)
    : session :=
  Session (State [] 1 [] files typed "" [] 0) (metadata_table None) ∅.

(** ** Notions used to state the properties *)

(** [needle] occurs in [hay]: some text, the needle, some text. *)
Definition substring (needle hay : string) : Prop :=
  exists before after, hay = before +:+ needle +:+ after.

(** How one call of the process collaborator ends, seen from [run_schema]:
    the pass went through ([execute_command] returns [True]), the pass failed
    (it returns [False]), or an exception that [except Exception] does not
    catch travels on.  [execute_command_run] below shows that this is what
    [execute_command] computes. *)
Inductive verdict : Type :=
  | Success
  | Failure
  | Propagated (e : exn).

Definition verdict_of (o : run_outcome) : verdict :=
  match o with
  | Exited process =>
      if (returncode process =? 0) || str_in "No space left on device" (stderr process)
      then Success else Failure
  | Raised e => if is_Exception e then Failure else Propagated e
  end.

(** A stretch of the invocation log in which every call went through. *)
Definition clean (log : list (string * run_outcome)) : Prop :=
  Forall (fun x => verdict_of x.2 = Success) log.

(** Between two states only the console output and the invocation log differ:
    what [run_schema] may touch. *)
Definition engine_frame (st st' : state) : Prop :=
  st' = set_invocations (invocations st') (set_stdout (stdout st') st).

(** The two documented shapes of a command, in the words of the design:
    one transfer, or an endless producer piped into one consumer. *)
Definition transfer_template (input_reference target_device options : string) : string :=
  "dd if=" +:+ input_reference +:+ " of=" +:+ target_device +:+ " " +:+ options.

Definition producer_template (input_reference : string) : string :=
  "while :; do cat " +:+ input_reference +:+ "; done".

Definition consumer_template (target_device options : string) : string :=
  "dd of=" +:+ target_device +:+ " " +:+ options.

Definition continuous_template (input_reference target_device options : string) : string :=
  producer_template input_reference +:+ " | " +:+ consumer_template target_device options.

(** The last thing the script wrote is the line [s]. *)
Definition last_printed (s : string) (st : state) : Prop :=
  exists before, stdout st = before +:+ s +:+ LF.

(** The two ways [run_schema] comes back: after the closing message, or right
    after the error message of a failed pass. *)
Definition completed (out : result unit * state) : Prop :=
  out.1 = Ret tt /\ last_printed "Disk preparation completed." out.2.

Definition aborted (out : result unit * state) : Prop :=
  out.1 = Ret tt /\ last_printed "Error during execution." out.2.

(** The commands of a schema, in schema order. *)
Definition commands (sources : list dict_obj) : list string :=
  map (fun d => command (obj_val d)) sources.

(** Every object of the schema was built before the next identity to hand out. *)
Definition well_formed (st : state) : Prop :=
  Forall (fun d => (obj_id d < next_id st)%nat) (schema_sources st).

(** No two entries of the schema are the same object, and each was built
    before the next identity to hand out. *)
Definition distinct_objects (st : state) : Prop :=
  well_formed st /\ NoDup (map obj_id (schema_sources st)).

(** What holds of every entry the script puts in the schema: its target was
    checked to be a block device, its command ends in the [of=] operand and
    the flags recorded beside it, and its type is a key of the metadata
    table. *)
Definition entry_ok (files : gmap string file_kind) (d : dict_obj) : Prop :=
  files !! device (obj_val d) = Some BlockDevice /\
  (exists head, command (obj_val d)
                = head +:+ " of=" +:+ device (obj_val d) +:+ " "
                  +:+ flags (obj_val d)) /\
  type (obj_val d) ∈ ["random"; "zeros"; "path"].

Definition schema_invariant (s : session) : Prop :=
  0 <= schema_repeat_count (core s) /\
  distinct_objects (core s) /\
  Forall (entry_ok (fs (core s))) (schema_sources (core s)) /\
  exists path_choice, source_types_metadata s = metadata_table path_choice.

(** Between two states only the console differs: the text written and the
    lines still to read. *)
Definition console_only (st st' : state) : Prop :=
  st' = set_stdin (stdin st') (set_stdout (stdout st') st).

(** The state after one entry was appended, console apart. *)
Definition appended (src : source) (st st' : state) : Prop :=
  st' = set_schema_sources (schema_sources st ++ [DictObj (next_id st) src])
          (set_next_id (S (next_id st))
             (set_stdin (stdin st') (set_stdout (stdout st') st))).

(** The console after the listing of the source types. *)
Definition types_listed (out : string) : string :=
  ((out +:+ "(r)andom  - random data" +:+ LF)
   +:+ "(z)eros   - zeros" +:+ LF)
  +:+ "(p)ath    - content from system path" +:+ LF.

(** The type chosen by its first letter, in the table as the module builds
    it. *)
Definition chosen_type (path_choice : option bool) (key : string)
    : option (string * source_meta) :=
  if String.eqb key "r"
  then Some ("random", SourceMeta "random data" (Some "/dev/urandom") false (Some false))
  else if String.eqb key "z"
  then Some ("zeros", SourceMeta "zeros" (Some "/dev/zero") false (Some false))
  else if String.eqb key "p"
  then Some ("path", SourceMeta "content from system path" None true path_choice)
  else None.

(** What [add_source_to_schema] may do to a session whose table is the
    module's: nothing beyond the console and the stored choice, or that and
    one entry appended. *)
Definition add_outcome (s : session) (out : result unit * session) : Prop :=
  file_data out.2 = file_data s /\
  (exists v', source_types_metadata out.2 = metadata_table v') /\
  (console_only (core s) (core out.2)
   \/
   exists src,
     appended src (core s) (core out.2) /\
     out.1 = Ret tt /\
     device src <> "" /\
     fs (core s) !! device src = Some BlockDevice /\
     (exists i cw, command src = build_dd_command i (device src) (flags src) cw) /\
     type src ∈ ["random"; "zeros"; "path"]).

(** The size [create_data_file] settles on for what was typed: 128 for an
    empty answer and for one that is not an integer. *)
Definition chosen_size (text : string) : Z :=
  match text with
  | "" => 128
  | _ => match py_int text with Some n => n | None => 128 end
  end.

(** What [offer_to_add] may do: nothing beyond the console, or that and one
    entry of type "path" reading [filename]. *)
Definition offer_outcome (filename : string) (s : session)
    (out : result unit * session) : Prop :=
  file_data out.2 = file_data s /\
  source_types_metadata out.2 = source_types_metadata s /\
  (console_only (core s) (core out.2)
   \/
   exists src,
     appended src (core s) (core out.2) /\
     out.1 = Ret tt /\
     device src <> "" /\
     fs (core s) !! device src = Some BlockDevice /\
     (exists cw, command src = build_dd_command filename (device src) (flags src) cw) /\
     type src = "path").

(** The filesystem after a file was written at [filename]: a device stays a
    device, any other path is a regular file. *)
Definition written_fs (filename : string) (files : gmap string file_kind)
    : gmap string file_kind :=
  match files !! filename with
  | Some BlockDevice => files
  | _ => <[filename := RegularFile]> files
  end.

(** A computation of the prompting layer that keeps the schema invariant,
    however it ends. *)
(** The text is short enough for [int]: interpreters that limit the length
    of a decimal literal (to 4300 digits unless told otherwise) refuse longer
    ones with [ValueError], which [py_int] does not follow. *)
Definition digits_accepted (text : string) : Prop := str_len text <= 4300.

(** [n] fits an index of the interpreter. *)
Definition index_sized (n : Z) : Prop :=
  - PY_SSIZE_T_MAX - 1 <= n <= PY_SSIZE_T_MAX.

(** The machine lets [create_data_file] write [count] copies of [content] to
    [filename]: whenever asked, the path can be opened, the block for the
    product is granted, and the file takes all the bytes. *)
Definition io_allows (io : io_env) (filename content : string) (count : Z) : Prop :=
  forall s' : session,
    open_refused io s' filename = false /\
    malloc_granted io s' (str_len content * Z.max count 0) = true /\
    match write_room io s' filename with
    | Some room => str_len (bytes_mul content count) <= room
    | None => True
    end.

(** The seven lines of the menu and the prompt after them. *)
Definition menu_text : string :=
  (LF +:+ ESC +:+ "[1mMain Menu:" +:+ ESC +:+ "[0m") +:+ LF
  +:+ "(a)dd      - Add source to schema" +:+ LF
  +:+ "(d)elete   - Delete source from schema" +:+ LF
  +:+ "(c)opy     - Duplicate existing source" +:+ LF
  +:+ "(g)enerate - Generate a custom data file" +:+ LF
  +:+ "(r)epeat   - Set whether to repeat the schema" +:+ LF
  +:+ "Type 'done' to execute your schema." +:+ LF
  +:+ "Choose an option: ".

Definition keeps {A} (m : Menu A) : Prop :=
  forall s, schema_invariant s -> schema_invariant (m s).2.

(** The two lines the listing shows for entry number [i]: the number in bold
    and the command, then a blank line. *)
Definition entry_line (i : Z) (d : dict_obj) : string :=
  ESC +:+ "[1m" +:+ str i +:+ "." +:+ ESC +:+ "[0m " +:+ command (obj_val d)
  +:+ LF +:+ LF.

(** ** Sample schemas, states and collaborators *)

Definition source_zeros : source :=
  Source "/dev/sdX" "zeros" DEFAULT_DD_FLAGS
         (build_dd_command "/dev/zero" "/dev/sdX" DEFAULT_DD_FLAGS false).

Definition source_random : source :=
  Source "/dev/sdX" "random" DEFAULT_DD_FLAGS
         (build_dd_command "/dev/urandom" "/dev/sdX" DEFAULT_DD_FLAGS false).

(** The schema [zeros, random] on /dev/sdX, with the given repeat count and
    the given lines waiting on the console. *)
Definition sample_state (repeat_count : Z) (typed : list string) : state :=
  State [DictObj 0 source_zeros; DictObj 1 source_random] repeat_count []
        {[ "/dev/sdX" := BlockDevice ]} typed "" [] 2.

(** The schema with the single entry zeros. *)
Definition single_state (repeat_count : Z) : state :=
  State [DictObj 0 source_zeros] repeat_count []
        {[ "/dev/sdX" := BlockDevice ]} [] "" [] 1.

(** The empty schema. *)
Definition empty_state (typed : list string) : state :=
  State [] 1 [] {[ "/dev/sdX" := BlockDevice ]} typed "" [] 0.

(** Two tracked paths: a generated file, and a device the operator named as
    the file to generate. *)
Definition tracked_state : state :=
  State [] 1 ["gen_1.tmp"; "/dev/sdX"]
        {[ "gen_1.tmp" := RegularFile; "/dev/sdX" := BlockDevice ]} [] "" [] 0.

(** Every command exits with status 0. *)
Definition run_ok (h : list (string * run_outcome)) (c : string) : run_outcome :=
  Exited (Process 0 "").

(** Every command exits with status 1 and an error unrelated to space. *)
Definition run_denied (h : list (string * run_outcome)) (c : string) : run_outcome :=
  Exited (Process 1 "dd: failed to open '/dev/sdX': Permission denied").

(** The shell cannot be started. *)
Definition run_unstartable (h : list (string * run_outcome)) (c : string) : run_outcome :=
  Raised OSError.

(** Zeros fill the device (status 1, device full); random data is refused. *)
Definition run_random_denied (h : list (string * run_outcome)) (c : string) : run_outcome :=
  if String.eqb c (command source_random)
  then Exited (Process 1 "dd: failed to open '/dev/sdX': Permission denied")
  else Exited (Process 1 "dd: error writing '/dev/sdX': No space left on device").

(** A filesystem with a block device, a regular file and a directory; the
    session the script starts in on it; a clock that stands still; a call
    interrupted from the keyboard. *)
Definition sample_files : gmap string file_kind :=
  {[ "/dev/sdX" := BlockDevice; "/tmp/image.bin" := RegularFile;
     "/tmp" := Directory ]}.

Definition sample_session (typed : list string) : session :=
  initial_session sample_files typed.

Definition sample_clock (s : session) : Z := 1700000000.

(** A machine that refuses nothing, and one with little to give: no
    permission under /root, blocks of at most 1 MiB, room for three bytes in
    /tmp/full.bin. *)
Definition sample_io : io_env :=
  IoEnv (fun _ _ => false) (fun _ _ => true) (fun _ _ => None).


Definition run_interrupted (h : list (string * run_outcome)) (c : string)
    : run_outcome :=
  Raised KeyboardInterrupt.

(** ** Strings *)

#[local] Arguments String.append !s1 s2 : simpl nomatch.

Lemma append_assoc (a b c : string) : (a +:+ b) +:+ c = a +:+ (b +:+ c).
Proof. induction a as [|x a IH]; simpl; [reflexivity | now rewrite IH]. Qed.

Lemma append_nil_r (a : string) : a +:+ "" = a.
Proof. induction a as [|x a IH]; simpl; [reflexivity | now rewrite IH]. Qed.

Lemma prefix_iff (p s : string) :
  String.prefix p s = true <-> exists rest, s = p +:+ rest.
Proof.
  revert s. induction p as [|a p IH]; intros s; simpl.
  - destruct s; split; eauto.
  - destruct s as [|b s]; simpl.
    + split; [discriminate | intros [rest H]; discriminate].
    + destruct (ascii_dec a b) as [->|Hne].
      * rewrite IH. split; intros [rest H]; exists rest; congruence.
      * split; [discriminate | intros [rest H]; congruence].
Qed.

Lemma str_in_iff (needle hay : string) :
  str_in needle hay = true <-> substring needle hay.
Proof.
  unfold substring. induction hay as [|c hay IH].
  - change (str_in needle "") with (String.prefix needle "" || false).
    rewrite orb_false_r, prefix_iff. split.
    + intros [rest H]. exists "", rest. exact H.
    + intros ([|x before] & after & H); [eauto | discriminate].
  - change (str_in needle (String c hay))
      with (String.prefix needle (String c hay) || str_in needle hay).
    rewrite orb_true_iff, prefix_iff, IH. split.
    + intros [[rest H] | (before & after & H)].
      * exists "", rest. exact H.
      * exists (String c before), after. simpl. now rewrite H.
    + intros ([|x before] & after & H).
      * left. eauto.
      * right. simpl in H. exists before, after. congruence.
Qed.

(** ** Command synthesis *)

(** C2: for every input reference, target device, flags and continuous-write
    choice, [build_dd_command] yields exactly the documented template: the
    single transfer [dd if=<input> of=<device> <flags>] when the write is not
    continuous, and otherwise the endless producer that streams the input,
    piped into one consumer transfer writing to the device; the consumer ends
    in the same [of=<device> <flags>] text as the single transfer does. *)
Theorem build_dd_command_templates (if_device of_device options : string) (cw : bool) :
  build_dd_command if_device of_device options false
    = transfer_template if_device of_device options /\
  build_dd_command if_device of_device options true
    = continuous_template if_device of_device options /\
  (exists head, build_dd_command if_device of_device options cw
                = head +:+ " of=" +:+ of_device +:+ " " +:+ options) /\
  (continuous_template if_device of_device options
   = "while :; do cat " +:+ if_device +:+ "; done | dd of=" +:+ of_device
     +:+ " " +:+ options).
Proof.
  assert (Hc : continuous_template if_device of_device options
               = "while :; do cat " +:+ if_device +:+ "; done | dd of="
                 +:+ of_device +:+ " " +:+ options).
  { unfold continuous_template, producer_template, consumer_template.
    now rewrite !append_assoc. }
  repeat split.
  - now rewrite Hc.
  - destruct cw; simpl.
    + exists ("while :; do cat " +:+ if_device +:+ "; done | dd").
      now rewrite !append_assoc.
    + exists ("dd if=" +:+ if_device). now rewrite !append_assoc.
  - exact Hc.
Qed.

(** ** One invocation *)

Section EngineProperties.

Variable os_run : list (string * run_outcome) -> string -> run_outcome.

(** What [execute_command] computes, in one equation: the value follows the
    verdict on the collaborator's answer, and the call is logged. *)
Lemma execute_command_run (cmd : string) (st : state) :
  execute_command os_run cmd st =
  (match verdict_of (os_run (invocations st) cmd) with
   | Success => Ret true
   | Failure => Ret false
   | Propagated e => Exc e
   end,
   set_invocations (invocations st ++ [(cmd, os_run (invocations st) cmd)]) st).
Proof.
  unfold execute_command, try_except, bind, subprocess_run, verdict_of.
  destruct (os_run (invocations st) cmd) as [[rc err] | e]; simpl.
  - destruct (rc =? 0); simpl; [reflexivity |].
    destruct (str_in _ err); reflexivity.
  - destruct (is_Exception e); reflexivity.
Qed.

(** C1: [execute_command] returns [True] (Success) when the exit status is
    zero; returns [True] when the exit status is not zero but the captured
    standard error contains "No space left on device"; returns [False]
    (Failure) for every other non-zero exit, and for a call of
    [subprocess.run] that raised instead of starting the command. *)
Theorem execute_command_classification (cmd : string) (st : state) :
  let o := os_run (invocations st) cmd in
  let r := (execute_command os_run cmd st).1 in
  (forall err, o = Exited (Process 0 err) -> r = Ret true) /\
  (forall rc err, rc <> 0 -> o = Exited (Process rc err) ->
     substring "No space left on device" err -> r = Ret true) /\
  (forall rc err, rc <> 0 -> o = Exited (Process rc err) ->
     ~ substring "No space left on device" err -> r = Ret false) /\
  (forall e, is_Exception e = true -> o = Raised e -> r = Ret false).
Proof.
  intros o r. subst o r. rewrite execute_command_run. simpl.
  repeat split.
  - intros err ->. reflexivity.
  - intros rc err _ -> Hsub. apply str_in_iff in Hsub.
    unfold verdict_of. simpl. rewrite Hsub, orb_true_r. reflexivity.
  - intros rc err Hrc -> Hsub. unfold verdict_of. simpl.
    apply Z.eqb_neq in Hrc. rewrite Hrc. simpl.
    destruct (str_in _ err) eqn:E; [| reflexivity].
    apply str_in_iff in E. contradiction.
  - intros e He ->. simpl. rewrite He. reflexivity.
Qed.

(** ** One pass over the schema *)

Lemma engine_frame_refl (st : state) : engine_frame st st.
Proof. destruct st; reflexivity. Qed.

Lemma engine_frame_trans (st1 st2 st3 : state) :
  engine_frame st1 st2 -> engine_frame st2 st3 -> engine_frame st1 st3.
Proof.
  unfold engine_frame. intros H12 H23. rewrite H23, H12. reflexivity.
Qed.

Lemma engine_frame_stdout (st st' : state) (s : string) :
  engine_frame st st' -> engine_frame st (set_stdout s st').
Proof. unfold engine_frame. intros H. rewrite H. reflexivity. Qed.

Lemma engine_frame_invocations (st st' : state) l :
  engine_frame st st' -> engine_frame st (set_invocations l st').
Proof. unfold engine_frame. intros H. rewrite H. reflexivity. Qed.

(** One turn of the [for] loop. *)
Lemma run_pass_cons (i : Z) (s : dict_obj) (rest : list dict_obj) (st : state) :
  run_pass os_run i (s :: rest) st =
  let c := command (obj_val s) in
  let o := os_run (invocations st) c in
  let st1 :=
    set_invocations (invocations st ++ [(c, o)])
      (set_stdout (stdout st +:+ (LF +:+ ESC +:+ "[1m" +:+ str i +:+ "."
                                  +:+ ESC +:+ "[0m " +:+ c +:+ LF) +:+ LF) st) in
  match verdict_of o with
  | Success =>
      run_pass os_run (i + 1) rest
        (set_stdout (stdout st1 +:+ "Pass completed successfully." +:+ LF) st1)
  | Failure =>
      (Ret true, set_stdout (stdout st1 +:+ "Error during execution." +:+ LF) st1)
  | Propagated e => (Exc e, st1)
  end.
Proof.
  cbn [run_pass]. unfold bind at 1. unfold print at 1, modify at 1.
  unfold bind at 1. rewrite execute_command_run. cbn [invocations set_stdout].
  destruct (verdict_of _); reflexivity.
Qed.

(** What a pass leaves in the log: either every source was invoked and went
    through, or the log stops at the first call that did not. *)
Lemma run_pass_shape (sources : list dict_obj) (i : Z) (st : state) :
  exists log : list (string * run_outcome),
    invocations (run_pass os_run i sources st).2 = invocations st ++ log /\
    engine_frame st (run_pass os_run i sources st).2 /\
    (((run_pass os_run i sources st).1 = Ret false /\ clean log /\
      map fst log = commands sources)
     \/
     (exists before c o,
        log = before ++ [(c, o)] /\ clean before /\
        c ∈ commands sources /\
        o = os_run (invocations st ++ before) c /\
        ((verdict_of o = Failure /\
          (run_pass os_run i sources st).1 = Ret true /\
          last_printed "Error during execution." (run_pass os_run i sources st).2)
         \/
         (exists e, verdict_of o = Propagated e /\
                    (run_pass os_run i sources st).1 = Exc e)))).
Proof.
  revert i st. induction sources as [|s rest IH]; intros i st.
  - exists []. simpl. rewrite app_nil_r.
    split; [reflexivity |]. split; [apply engine_frame_refl |].
    left. repeat split. constructor.
  - rewrite run_pass_cons. cbv zeta.
    set (c := command (obj_val s)). set (o := os_run (invocations st) c).
    set (st1 := set_invocations _ _).
    assert (Hf1 : engine_frame st st1).
    { apply engine_frame_invocations, engine_frame_stdout, engine_frame_refl. }
    destruct (verdict_of o) as [| |e] eqn:Hv.
    + set (st2 := set_stdout _ st1).
      destruct (IH (i + 1) st2) as (log & Hlog & Hfr & Hcases).
      exists ((c, o) :: log). split.
      { rewrite Hlog. simpl. rewrite <- app_assoc. reflexivity. }
      split.
      { eapply engine_frame_trans; [| exact Hfr].
        apply engine_frame_stdout. exact Hf1. }
      destruct Hcases as [(Hr & Hclean & Hcmds) | (before & c' & o' & -> & Hclean & Hin & Ho & Hend)].
      * left. split; [exact Hr |]. split.
        { constructor; [exact Hv | exact Hclean]. }
        { simpl. rewrite Hcmds. reflexivity. }
      * right. exists ((c, o) :: before), c', o'.
        split; [reflexivity |]. split.
        { constructor; [exact Hv | exact Hclean]. }
        split. { simpl. right. exact Hin. }
        split. { rewrite Ho. simpl. rewrite <- app_assoc. reflexivity. }
        exact Hend.
    + exists [(c, o)]. split; [reflexivity |]. split.
      { apply engine_frame_stdout. exact Hf1. }
      right. exists [], c, o. split; [reflexivity |]. split; [constructor |].
      split. { simpl. left. }
      split. { rewrite app_nil_r. reflexivity. }
      left. split; [exact Hv |]. split; [reflexivity |].
      eexists. reflexivity.
    + exists [(c, o)]. split; [reflexivity |]. split; [exact Hf1 |].
      right. exists [], c, o. split; [reflexivity |]. split; [constructor |].
      split. { simpl. left. }
      split. { rewrite app_nil_r. reflexivity. }
      right. exists e. split; [exact Hv | reflexivity].
Qed.

(** ** The repeat loop *)

Lemma engine_frame_globals (st st' : state) :
  engine_frame st st' ->
  schema_sources st' = schema_sources st /\
  schema_repeat_count st' = schema_repeat_count st.
Proof. unfold engine_frame. intros ->. split; reflexivity. Qed.

(** One turn of the [while] loop. *)
Lemma run_loop_eq (fuel : nat) (run_count : Z) (st : state) :
  run_loop os_run fuel run_count st =
  if (schema_repeat_count st =? 0) || (run_count <? schema_repeat_count st)
  then
    match fuel with
    | O => (OutOfFuel, st)
    | S fuel' =>
        let st1 :=
          set_stdout (stdout st +:+ (LF +:+ ESC +:+ "[1m --- Starting Schema Run "
                                     +:+ str (run_count + 1) +:+ " ---" +:+ ESC
                                     +:+ "[0m") +:+ LF) st in
        match run_pass os_run 1 (schema_sources st) st1 with
        | (Ret true, st2) => (Ret true, st2)
        | (Ret false, st2) =>
            run_loop os_run fuel' (run_count + 1)
              (if schema_repeat_count st2 >? 0
               then set_stdout (stdout st2 +:+ ("--- Completed run "
                                 +:+ str (run_count + 1) +:+ " of "
                                 +:+ str (schema_repeat_count st2) +:+ " ---")
                                 +:+ LF) st2
               else st2)
        | (Exc e, st2) => (Exc e, st2)
        | (OutOfFuel, st2) => (OutOfFuel, st2)
        end
    end
  else (Ret false, st).
Proof.
  destruct fuel as [|fuel']; cbn [run_loop]; unfold bind at 1, gets at 1;
    destruct ((schema_repeat_count st =? 0) || (run_count <? schema_repeat_count st));
    try reflexivity.
  unfold bind at 1. unfold print at 1, modify at 1.
  unfold bind at 1, gets at 1. cbn [schema_sources set_stdout]. cbv zeta.
  unfold bind at 1.
  destruct (run_pass os_run 1 (schema_sources st) _) as [[[|] | e |] st2];
    try reflexivity.
  unfold bind at 1, gets at 1. unfold bind at 1.
  destruct (schema_repeat_count st2 >? 0); reflexivity.
Qed.

(** What [run_loop] leaves in the log, whatever the fuel: calls that went
    through, ended (if at all) by the one call that did not. *)
Lemma run_loop_shape (fuel : nat) (run_count : Z) (st : state) :
  exists log : list (string * run_outcome),
    invocations (run_loop os_run fuel run_count st).2 = invocations st ++ log /\
    engine_frame st (run_loop os_run fuel run_count st).2 /\
    ((clean log /\
      ((run_loop os_run fuel run_count st).1 = Ret false \/
       (run_loop os_run fuel run_count st).1 = OutOfFuel))
     \/
     (exists before c o,
        log = before ++ [(c, o)] /\ clean before /\
        c ∈ commands (schema_sources st) /\
        o = os_run (invocations st ++ before) c /\
        ((verdict_of o = Failure /\
          (run_loop os_run fuel run_count st).1 = Ret true /\
          last_printed "Error during execution." (run_loop os_run fuel run_count st).2)
         \/
         (exists e, verdict_of o = Propagated e /\
                    (run_loop os_run fuel run_count st).1 = Exc e)))).
Proof.
  revert run_count st. induction fuel as [|fuel' IH]; intros run_count st;
    rewrite run_loop_eq;
    destruct ((schema_repeat_count st =? 0) || (run_count <? schema_repeat_count st)).
  - exists []. rewrite app_nil_r. split; [reflexivity |].
    split; [apply engine_frame_refl |]. left. split; [constructor | now right].
  - exists []. rewrite app_nil_r. split; [reflexivity |].
    split; [apply engine_frame_refl |]. left. split; [constructor | now left].
  - cbv zeta. set (st1 := set_stdout _ st).
    assert (Hf1 : engine_frame st st1)
      by apply engine_frame_stdout, engine_frame_refl.
    destruct (run_pass_shape (schema_sources st) 1 st1)
      as (log1 & Hlog1 & Hfr1 & Hcases).
    destruct (run_pass os_run 1 (schema_sources st) st1) as [r st2].
    simpl in Hlog1, Hfr1, Hcases.
    assert (Hf2 : engine_frame st st2)
      by exact (engine_frame_trans _ _ _ Hf1 Hfr1).
    destruct Hcases as [(-> & Hclean1 & _) | (before & c & o & -> & Hclean & Hin & Ho & Hend)].
    + set (st3 := if schema_repeat_count st2 >? 0 then _ else st2).
      assert (Hf3 : engine_frame st st3).
      { subst st3. destruct (schema_repeat_count st2 >? 0);
          [apply engine_frame_stdout |]; exact Hf2. }
      assert (Hinv3 : invocations st3 = invocations st ++ log1).
      { subst st3. destruct (schema_repeat_count st2 >? 0); exact Hlog1. }
      destruct (IH (run_count + 1) st3) as (log2 & Hlog2 & Hfr2 & Hcases2).
      exists (log1 ++ log2). split.
      { rewrite Hlog2, Hinv3, app_assoc. reflexivity. }
      split. { eapply engine_frame_trans; eauto. }
      destruct Hcases2 as [(Hclean2 & Hr) | (before & c & o & -> & Hclean2 & Hin & Ho & Hend)].
      * left. split; [apply Forall_app; split; assumption | exact Hr].
      * right. exists (log1 ++ before), c, o.
        split. { rewrite app_assoc. reflexivity. }
        split. { apply Forall_app; split; assumption. }
        split. { destruct (engine_frame_globals _ _ Hf3) as [<- _]. exact Hin. }
        split. { rewrite Ho, Hinv3, app_assoc. reflexivity. }
        exact Hend.
    + destruct Hend as [(Hv & -> & Hlast) | (e & Hv & ->)];
        exists (before ++ [(c, o)]); (split; [exact Hlog1 |]);
        (split; [exact Hf2 |]); right; exists before, c, o;
        repeat (split; [first [reflexivity | assumption] |]).
      * left. repeat split; assumption.
      * right. exists e. split; [assumption | reflexivity].
  - exists []. rewrite app_nil_r. split; [reflexivity |].
    split; [apply engine_frame_refl |]. left. split; [constructor | now left].
Qed.

(** Fuel only cuts the loop off: a run that came back comes back the same
    with any larger allowance. *)
Lemma run_loop_fuel_mono (fuel : nat) :
  forall (fuel' : nat) (run_count : Z) (st : state),
    (fuel <= fuel')%nat ->
    (run_loop os_run fuel run_count st).1 <> OutOfFuel ->
    run_loop os_run fuel' run_count st = run_loop os_run fuel run_count st.
Proof.
  induction fuel as [|fuel IH]; intros fuel' run_count st Hle Hdone;
    rewrite run_loop_eq in Hdone; rewrite (run_loop_eq fuel'), (run_loop_eq _ run_count st);
    destruct ((schema_repeat_count st =? 0) || (run_count <? schema_repeat_count st));
    try reflexivity.
  - simpl in Hdone. congruence.
  - destruct fuel' as [|fuel']; [lia |]. cbv zeta in *.
    destruct (run_pass os_run 1 (schema_sources st) _) as [[[|] | e |] st2];
      try reflexivity.
    apply IH; [lia | exact Hdone].
Qed.

(** ** The whole run *)

Lemma run_schema_eq (fuel : nat) (st : state) :
  run_schema os_run fuel st =
  match run_loop os_run fuel 0 st with
  | (Ret true, st') => (Ret tt, st')
  | (Ret false, st') =>
      (Ret tt, set_stdout (stdout st' +:+ "Disk preparation completed." +:+ LF) st')
  | (Exc e, st') => (Exc e, st')
  | (OutOfFuel, st') => (OutOfFuel, st')
  end.
Proof.
  unfold run_schema, bind.
  destruct (run_loop os_run fuel 0 st) as [[[|] | e |] st']; reflexivity.
Qed.

Lemma split_at_last {X} (before after pre : list X) (x y : X) :
  before ++ x :: after = pre ++ [y] -> after = [] \/ x ∈ pre.
Proof.
  destruct after as [|z after' _] using rev_ind; [now left |].
  intros H. right.
  change (before ++ x :: after' ++ [z]) with (before ++ (x :: after') ++ [z]) in H.
  rewrite app_assoc in H. apply app_inj_tail in H as [<- _].
  apply elem_of_app. right. left.
Qed.

Lemma clean_elem (log : list (string * run_outcome)) c o :
  clean log -> (c, o) ∈ log -> verdict_of o = Success.
Proof.
  unfold clean. rewrite Forall_forall. intros H Hin. exact (H _ Hin).
Qed.

(** C3: whatever the schema, the repeat count and the point the run has
    reached, a call classified Failure is the last call [run_schema] makes:
    no later source of the pass runs and no further pass starts, and the
    function returns right after its error message.  In particular, with the
    schema [A, B] and repeat count 2, when A goes through and B fails on the
    first pass, the calls made are exactly A then B. *)
Theorem run_schema_stops_at_first_failure (fuel : nat) (st : state) :
  (exists log : list (string * run_outcome),
     invocations (run_schema os_run fuel st).2 = invocations st ++ log /\
     forall before c o after,
       log = before ++ (c, o) :: after -> verdict_of o = Failure ->
       after = [] /\ aborted (run_schema os_run fuel st)) /\
  (forall A B : dict_obj,
     schema_sources st = [A; B] -> schema_repeat_count st = 2 ->
     (1 <= fuel)%nat ->
     let a := command (obj_val A) in
     let b := command (obj_val B) in
     let oa := os_run (invocations st) a in
     let ob := os_run (invocations st ++ [(a, oa)]) b in
     verdict_of oa = Success -> verdict_of ob = Failure ->
     invocations (run_schema os_run fuel st).2
       = invocations st ++ [(a, oa); (b, ob)] /\
     aborted (run_schema os_run fuel st)).
Proof.
  split.
  - destruct (run_loop_shape fuel 0 st) as (log & Hlog & _ & Hcases).
    exists log. rewrite run_schema_eq.
    destruct (run_loop os_run fuel 0 st) as [r st']. simpl in Hlog, Hcases.
    split.
    { destruct r as [[|] | e |]; exact Hlog. }
    intros before c o after Hsplit Hfail.
    destruct Hcases as [(Hclean & _) | (pre & c' & o' & -> & Hclean & _ & _ & Hend)].
    + assert (Hin : (c, o) ∈ log).
      { rewrite Hsplit. apply elem_of_app. right. left. }
      rewrite (clean_elem _ _ _ Hclean Hin) in Hfail. discriminate.
    + symmetry in Hsplit.
      destruct (split_at_last _ _ _ _ _ Hsplit) as [-> | Hin].
      2: { rewrite (clean_elem _ _ _ Hclean Hin) in Hfail. discriminate. }
      apply app_inj_tail in Hsplit as [_ Heq].
      injection Heq as <- <-.
      destruct Hend as [(_ & -> & Hlast) | (e & Hv & _)].
      * split; [reflexivity |]. split; [reflexivity | exact Hlast].
      * rewrite Hv in Hfail. discriminate.
  - intros A B Hsrc Hcount Hfuel a b oa ob Ha Hb.
    destruct fuel as [|fuel']; [lia |].
    rewrite run_schema_eq, run_loop_eq, Hcount, Hsrc. cbn [Z.eqb Z.ltb Z.compare orb].
    cbv zeta. rewrite run_pass_cons. cbv zeta. cbn [invocations set_stdout].
    fold a. fold oa. rewrite Ha.
    rewrite run_pass_cons. cbv zeta. cbn [invocations set_stdout set_invocations].
    fold b. fold ob. rewrite Hb. cbn [snd invocations set_stdout set_invocations].
    split.
    + rewrite <- app_assoc. reflexivity.
    + split; [reflexivity |]. eexists. reflexivity.
Qed.

(** With a positive repeat count and calls that all go through, the loop
    makes the passes that remain, each over the whole schema in order, and
    falls out of the [while] by its condition. *)
Lemma run_loop_all_success (k : nat) :
  forall (fuel : nat) (run_count : Z) (st : state),
    (forall h c, c ∈ commands (schema_sources st) ->
                 verdict_of (os_run h c) = Success) ->
    0 < schema_repeat_count st ->
    run_count + Z.of_nat k = schema_repeat_count st ->
    (k <= fuel)%nat ->
    exists log : list (string * run_outcome),
      (run_loop os_run fuel run_count st).1 = Ret false /\
      invocations (run_loop os_run fuel run_count st).2 = invocations st ++ log /\
      map fst log = concat (replicate k (commands (schema_sources st))) /\
      clean log /\
      engine_frame st (run_loop os_run fuel run_count st).2.
Proof.
  induction k as [|k IH]; intros fuel run_count st Hok Hpos Hrc Hfuel;
    rewrite run_loop_eq.
  - replace (schema_repeat_count st =? 0) with false by (symmetry; apply Z.eqb_neq; lia).
    replace (run_count <? schema_repeat_count st) with false
      by (symmetry; apply Z.ltb_ge; lia).
    exists []. simpl. rewrite app_nil_r.
    repeat split; [constructor | apply engine_frame_refl].
  - replace (run_count <? schema_repeat_count st) with true
      by (symmetry; apply Z.ltb_lt; lia).
    rewrite orb_true_r.
    destruct fuel as [|fuel']; [lia |].
    cbv zeta. set (st1 := set_stdout _ st).
    assert (Hf1 : engine_frame st st1)
      by apply engine_frame_stdout, engine_frame_refl.
    destruct (run_pass_shape (schema_sources st) 1 st1)
      as (log1 & Hlog1 & Hfr1 & Hcases).
    destruct (run_pass os_run 1 (schema_sources st) st1) as [r st2].
    simpl in Hlog1, Hfr1, Hcases.
    assert (Hf2 : engine_frame st st2)
      by exact (engine_frame_trans _ _ _ Hf1 Hfr1).
    destruct Hcases as [(-> & Hclean1 & Hcmds) | (before & c & o & _ & _ & Hin & Ho & Hend)].
    2: { specialize (Hok (invocations st ++ before) c Hin). rewrite <- Ho in Hok.
         destruct Hend as [(Hv & _) | (e & Hv & _)]; congruence. }
    set (st3 := if schema_repeat_count st2 >? 0 then _ else st2).
    assert (Hf3 : engine_frame st st3).
    { subst st3. destruct (schema_repeat_count st2 >? 0);
        [apply engine_frame_stdout |]; exact Hf2. }
    assert (Hinv3 : invocations st3 = invocations st ++ log1).
    { subst st3. destruct (schema_repeat_count st2 >? 0); exact Hlog1. }
    destruct (engine_frame_globals _ _ Hf3) as [Hsrc3 Hcount3].
    destruct (IH fuel' (run_count + 1) st3) as (log2 & Hr & Hlog2 & Hcmds2 & Hclean2 & Hfr2).
    { rewrite Hsrc3. exact Hok. }
    { rewrite Hcount3. exact Hpos. }
    { rewrite Hcount3. lia. }
    { lia. }
    exists (log1 ++ log2). split; [exact Hr |].
    split. { rewrite Hlog2, Hinv3, app_assoc. reflexivity. }
    split. { rewrite map_app, Hcmds, Hcmds2, Hsrc3. reflexivity. }
    split. { apply Forall_app; split; assumption. }
    eapply engine_frame_trans; eauto.
Qed.

(** C5: with repeat count 3 and a schema whose calls all go through,
    [run_schema] invokes the sources of the schema in schema order, three
    times over (so each source exactly three times), changes neither the
    schema nor the count, and returns after the closing message "Disk
    preparation completed.". *)
Theorem run_schema_three_passes (fuel : nat) (st : state) :
  schema_repeat_count st = 3 ->
  (3 <= fuel)%nat ->
  (forall h c, c ∈ commands (schema_sources st) ->
               verdict_of (os_run h c) = Success) ->
  exists log : list (string * run_outcome),
    invocations (run_schema os_run fuel st).2 = invocations st ++ log /\
    map fst log = commands (schema_sources st) ++ commands (schema_sources st)
                  ++ commands (schema_sources st) /\
    clean log /\
    schema_sources (run_schema os_run fuel st).2 = schema_sources st /\
    completed (run_schema os_run fuel st).
Proof.
  intros Hcount Hfuel Hok.
  destruct (run_loop_all_success 3 fuel 0 st Hok)
    as (log & Hr & Hlog & Hcmds & Hclean & Hfr); [lia | lia | exact Hfuel |].
  exists log. rewrite run_schema_eq.
  destruct (run_loop os_run fuel 0 st) as [r st']. simpl in Hr, Hlog, Hfr.
  subst r. simpl.
  split; [exact Hlog |].
  split. { rewrite Hcmds. simpl. rewrite app_nil_r. reflexivity. }
  split; [exact Hclean |].
  split. { exact (proj1 (engine_frame_globals _ _ Hfr)). }
  split; [reflexivity |]. eexists. reflexivity.
Qed.

(** C6: with repeat count 0 (run forever) and a schema of one source whose
    call always fails, [run_schema] returns, for any fuel that allows one
    turn of the loop, after exactly one call: it stops right after the error
    message and never starts a second pass. *)
Theorem run_schema_forever_single_failing_source
    (fuel : nat) (st : state) (s : dict_obj) :
  schema_sources st = [s] ->
  schema_repeat_count st = 0 ->
  (1 <= fuel)%nat ->
  (forall h, verdict_of (os_run h (command (obj_val s))) = Failure) ->
  invocations (run_schema os_run fuel st).2
    = invocations st
      ++ [(command (obj_val s), os_run (invocations st) (command (obj_val s)))] /\
  aborted (run_schema os_run fuel st).
Proof.
  intros Hsrc Hcount Hfuel Hfail.
  destruct fuel as [|fuel']; [lia |].
  rewrite run_schema_eq, run_loop_eq, Hcount, Hsrc. cbn [Z.eqb orb].
  cbv zeta. rewrite run_pass_cons. cbv zeta. cbn [invocations set_stdout].
  rewrite Hfail. cbn [snd invocations set_stdout set_invocations].
  split; [reflexivity |].
  split; [reflexivity |]. eexists. reflexivity.
Qed.

End EngineProperties.

(** The two ways back from [run_schema] exclude each other. *)
Lemma length_append (a b : string) :
  String.length (a +:+ b) = (String.length a + String.length b)%nat.
Proof. induction a as [|x a IH]; simpl; [reflexivity | now rewrite IH]. Qed.

Lemma append_same_length_suffix (a b x y : string) :
  String.length x = String.length y -> a +:+ x = b +:+ y -> x = y.
Proof.
  revert b. induction a as [|c a IH]; intros [|d b] Hlen H; simpl in H.
  - exact H.
  - apply (f_equal String.length) in H. simpl in H.
    rewrite length_append in H. lia.
  - apply (f_equal String.length) in H. simpl in H.
    rewrite length_append in H. lia.
  - injection H as _ H. exact (IH b Hlen H).
Qed.

Lemma completed_not_aborted (out : result unit * state) :
  completed out -> aborted out -> False.
Proof.
  intros [_ [b1 H1]] [_ [b2 H2]]. rewrite H1 in H2.
  change (b1 +:+ "Disk preparation completed." +:+ LF)
    with (b1 +:+ "Disk" +:+ " preparation completed." +:+ LF) in H2.
  rewrite <- append_assoc in H2.
  apply append_same_length_suffix in H2; [discriminate | reflexivity].
Qed.

(** ** The schema store *)

(** [delete_source], case by case. *)
Lemma delete_source_eq (st : state) :
  delete_source st =
  match schema_sources st with
  | [] => (Ret tt, set_stdout (stdout st +:+ "No sources to delete." +:+ LF) st)
  | _ :: _ =>
      let st1 := set_stdout (stdout st +:+ "Enter source number to delete: ") st in
      match stdin st with
      | [] => (Exc EOFError, st1)
      | line :: rest =>
          let st2 := set_stdin rest st1 in
          match py_int (strip line) with
          | None =>
              (Ret tt, set_stdout (stdout st2 +:+ "Please enter a valid number." +:+ LF) st2)
          | Some n =>
              if (0 <=? n - 1) && (n - 1 <? len (schema_sources st))
              then
                (Ret tt,
                 set_stdout (stdout st2 +:+ "Source deleted." +:+ LF)
                   (set_schema_sources
                      (delete (Z.to_nat (n - 1)) (schema_sources st)) st2))
              else
                (Ret tt, set_stdout (stdout st2 +:+ "Invalid source number." +:+ LF) st2)
          end
      end
  end.
Proof.
  unfold delete_source. unfold bind at 1, gets at 1.
  destruct (schema_sources st) as [|d l] eqn:Hsrc; [reflexivity |].
  unfold try_except, bind at 1, input, bind at 1, modify at 1.
  cbn [stdin set_stdout].
  destruct (stdin st) as [|line rest]; [reflexivity |].
  unfold bind at 1, int.
  destruct (py_int (strip line)) as [n|]; [| reflexivity].
  unfold ret at 1. unfold bind at 1, gets at 1.
  cbn [schema_sources set_stdout set_stdin]. rewrite Hsrc.
  destruct ((0 <=? n - 1) && (n - 1 <? len (d :: l))) eqn:Hrange; [| reflexivity].
  unfold bind at 1, delitem, list_index. rewrite Hrange. reflexivity.
Qed.

(** [copy_source], case by case. *)
Lemma copy_source_eq (st : state) :
  copy_source st =
  match schema_sources st with
  | [] => (Ret tt, set_stdout (stdout st +:+ "No sources to copy." +:+ LF) st)
  | _ :: _ =>
      let st1 := set_stdout (stdout st +:+ "Enter source number to copy: ") st in
      match stdin st with
      | [] => (Exc EOFError, st1)
      | line :: rest =>
          let st2 := set_stdin rest st1 in
          match py_int (strip line) with
          | None =>
              (Ret tt, set_stdout (stdout st2 +:+ "Please enter a valid number." +:+ LF) st2)
          | Some n =>
              if (0 <=? n - 1) && (n - 1 <? len (schema_sources st))
              then
                match schema_sources st !! Z.to_nat (n - 1) with
                | Some d =>
                    (Ret tt,
                     set_stdout (stdout st2 +:+ "Source copied." +:+ LF)
                       (set_schema_sources
                          (schema_sources st ++ [DictObj (next_id st) (obj_val d)])
                          (set_next_id (S (next_id st)) st2)))
                | None => (Exc IndexError, st2)
                end
              else
                (Ret tt, set_stdout (stdout st2 +:+ "Invalid source number." +:+ LF) st2)
          end
      end
  end.
Proof.
  unfold copy_source. unfold bind at 1, gets at 1.
  destruct (schema_sources st) as [|d0 l] eqn:Hsrc; [reflexivity |].
  unfold try_except, bind at 1, input, bind at 1, modify at 1.
  cbn [stdin set_stdout].
  destruct (stdin st) as [|line rest]; [reflexivity |].
  unfold bind at 1, int.
  destruct (py_int (strip line)) as [n|]; [| reflexivity].
  unfold ret at 1. unfold bind at 1, gets at 1.
  cbn [schema_sources set_stdout set_stdin]. rewrite Hsrc.
  destruct ((0 <=? n - 1) && (n - 1 <? len (d0 :: l))) eqn:Hrange; [| reflexivity].
  unfold bind at 1, getitem, list_index. rewrite Hrange.
  destruct ((d0 :: l) !! Z.to_nat (n - 1)) as [d|]; [| reflexivity].
  unfold ret at 1. unfold bind at 1, dict_copy.
  unfold bind at 1, modify at 1.
  cbn [schema_sources set_stdout set_stdin set_next_id next_id]. rewrite Hsrc.
  reflexivity.
Qed.

(** [set_repeat_count], case by case. *)
Lemma set_repeat_count_eq (st : state) :
  set_repeat_count st =
  let st1 :=
    set_stdout (stdout st +:+
                "Enter the number of times to repeat the schema (0 for infinitely): ") st in
  match stdin st with
  | [] => (Exc EOFError, st1)
  | line :: rest =>
      let st2 := set_stdin rest st1 in
      match py_int (strip line) with
      | None =>
          (Ret tt,
           set_schema_repeat_count 1
             (set_stdout (stdout st2 +:+ "Invalid input. Setting repeat count to 1 by default."
                          +:+ LF) st2))
      | Some n =>
          if n <? 0
          then
            (Ret tt,
             set_schema_repeat_count 1
               (set_stdout (stdout st2 +:+ "Invalid input. Setting repeat count to 1 by default."
                            +:+ LF) st2))
          else (Ret tt, set_schema_repeat_count n st2)
      end
  end.
Proof.
  unfold set_repeat_count, try_except, bind at 1, input, bind at 1, modify at 1.
  cbn [stdin set_stdout].
  destruct (stdin st) as [|line rest]; [reflexivity |].
  unfold bind at 1, int.
  destruct (py_int (strip line)) as [n|]; [| reflexivity].
  unfold ret at 1. unfold bind at 1.
  destruct (n <? 0); reflexivity.
Qed.

Lemma in_range_iff (n : Z) {A} (l : list A) :
  (0 <=? n - 1) && (n - 1 <? len l) = true <-> 1 <= n <= len l.
Proof. rewrite andb_true_iff, Z.leb_le, Z.ltb_lt. lia. Qed.

Lemma out_of_range (n : Z) {A} (l : list A) :
  ~ (1 <= n <= len l) -> (0 <=? n - 1) && (n - 1 <? len l) = false.
Proof.
  intros H. destruct ((0 <=? n - 1) && (n - 1 <? len l)) eqn:E; [| reflexivity].
  apply in_range_iff in E. contradiction.
Qed.

(** C7: whatever the schema, when the number typed for [delete_source] or
    [copy_source] is outside 1..len(schema), the function returns normally,
    the schema is exactly what it was (so its length too), nothing else has
    changed either but the console (the repeat count, the scratch files, the
    filesystem are as before), and the error is reported on the console: "Invalid source number.", or, when the schema is
    empty and no number is even asked for, "No sources to delete." / "No
    sources to copy.". *)
Theorem out_of_range_index_is_rejected
    (st : state) (line : string) (rest : list string) (n : Z) :
  stdin st = line :: rest ->
  py_int (strip line) = Some n ->
  ~ (1 <= n <= len (schema_sources st)) ->
  ((delete_source st).1 = Ret tt /\
   schema_sources (delete_source st).2 = schema_sources st /\
   console_only st (delete_source st).2 /\
   last_printed
     (match schema_sources st with
      | [] => "No sources to delete."
      | _ => "Invalid source number."
      end) (delete_source st).2) /\
  ((copy_source st).1 = Ret tt /\
   schema_sources (copy_source st).2 = schema_sources st /\
   console_only st (copy_source st).2 /\
   last_printed
     (match schema_sources st with
      | [] => "No sources to copy."
      | _ => "Invalid source number."
      end) (copy_source st).2).
Proof.
  intros Hin Hparse Hrange. apply out_of_range in Hrange.
  rewrite delete_source_eq, copy_source_eq, Hin. cbv zeta.
  rewrite Hparse, Hrange.
  destruct (schema_sources st) as [|d l] eqn:Hsrc;
    cbn [fst snd schema_sources set_stdout set_stdin]; rewrite ?Hsrc;
    repeat split;
    first [ eexists; reflexivity
          | unfold console_only; destruct st; reflexivity ].
Qed.

(** C10: when the text typed for [delete_source] or [copy_source] is not a
    decimal integer, and likewise whenever the schema is empty (whatever is or
    is not typed), the function returns normally and the schema is exactly what
    it was; nothing else has changed either but the console (the repeat count,
    the scratch files, the filesystem are as before). *)
Theorem unparsable_index_or_empty_schema_is_harmless (st : state) :
  (forall line rest,
     stdin st = line :: rest -> py_int (strip line) = None ->
     (delete_source st).1 = Ret tt /\
     schema_sources (delete_source st).2 = schema_sources st /\
     console_only st (delete_source st).2 /\
     (copy_source st).1 = Ret tt /\
     schema_sources (copy_source st).2 = schema_sources st /\
     console_only st (copy_source st).2) /\
  (schema_sources st = [] ->
     (delete_source st).1 = Ret tt /\
     schema_sources (delete_source st).2 = schema_sources st /\
     console_only st (delete_source st).2 /\
     (copy_source st).1 = Ret tt /\
     schema_sources (copy_source st).2 = schema_sources st /\
     console_only st (copy_source st).2).
Proof.
  split.
  - intros line rest Hin Hparse.
    rewrite delete_source_eq, copy_source_eq, Hin. cbv zeta. rewrite Hparse.
    destruct (schema_sources st) as [|d l] eqn:Hsrc;
      cbn [fst snd schema_sources set_stdout set_stdin]; rewrite ?Hsrc;
      repeat split;
      first [ reflexivity | unfold console_only; destruct st; reflexivity ].
  - intros Hsrc. rewrite delete_source_eq, copy_source_eq, Hsrc.
    repeat split;
      first [ exact Hsrc | unfold console_only; destruct st; reflexivity ].
Qed.

(** C8: for a schema whose objects were all built by the script, and a number
    [n] within 1..len(schema), [copy_source] returns normally with the schema
    grown by exactly one entry, placed at the end after the old entries, which
    stay as they were; the new entry has the contents of entry [n] (its
    command in particular) and is a new object, distinct from every entry the
    schema held. *)
Theorem copy_source_appends_a_copy
    (st : state) (line : string) (rest : list string) (n : Z) :
  well_formed st ->
  stdin st = line :: rest ->
  py_int (strip line) = Some n ->
  1 <= n <= len (schema_sources st) ->
  exists original copy : dict_obj,
    schema_sources st !! Z.to_nat (n - 1) = Some original /\
    (copy_source st).1 = Ret tt /\
    schema_sources (copy_source st).2 = schema_sources st ++ [copy] /\
    len (schema_sources (copy_source st).2) = len (schema_sources st) + 1 /\
    command (obj_val copy) = command (obj_val original) /\
    obj_val copy = obj_val original /\
    (forall d, d ∈ schema_sources st -> obj_id copy <> obj_id d) /\
    well_formed (copy_source st).2.
Proof.
  intros Hwf Hin Hparse Hrange.
  assert (Hlt : (Z.to_nat (n - 1) < length (schema_sources st))%nat)
    by (unfold len in Hrange; lia).
  destruct (lookup_lt_is_Some_2 _ _ Hlt) as [original Hlook].
  exists original, (DictObj (next_id st) (obj_val original)).
  apply in_range_iff in Hrange.
  rewrite copy_source_eq, Hin. cbv zeta. rewrite Hparse, Hrange, Hlook.
  destruct (schema_sources st) as [|d0 l] eqn:Hsrc; [discriminate |].
  cbn [fst snd schema_sources set_stdout set_stdin set_schema_sources obj_val obj_id].
  split; [reflexivity |]. split; [reflexivity |]. split; [reflexivity |].
  split. { unfold len. rewrite length_app. simpl. lia. }
  split; [reflexivity |]. split; [reflexivity |].
  unfold well_formed in *. rewrite Hsrc in Hwf. rewrite Forall_forall in Hwf.
  split.
  - intros d Hd. specialize (Hwf d Hd). lia.
  - cbn [schema_sources next_id set_stdout set_schema_sources set_next_id set_stdin].
    apply Forall_app. split.
    + apply Forall_forall. intros d Hd. specialize (Hwf d Hd). lia.
    + constructor; [simpl; lia | constructor].
Qed.

(** Deleting an entry keeps the schema well formed. *)
Lemma delete_source_well_formed (st : state) :
  well_formed st -> well_formed (delete_source st).2.
Proof.
  unfold well_formed. intros Hwf. rewrite delete_source_eq.
  destruct (schema_sources st) as [|d l] eqn:Hsrc;
    [simpl; rewrite Hsrc; constructor |].
  cbv zeta. destruct (stdin st) as [|line rest];
    [simpl; rewrite ?Hsrc; exact Hwf |].
  destruct (py_int (strip line)) as [n|]; [| simpl; rewrite ?Hsrc; exact Hwf].
  destruct ((0 <=? n - 1) && (n - 1 <? len (d :: l)));
    [| simpl; rewrite ?Hsrc; exact Hwf].
  simpl. rewrite ?Hsrc. apply Forall_delete. exact Hwf.
Qed.

(** C4, as the script has it: a negative number typed for the repeat count
    (such as -1) is not refused; [set_repeat_count] returns normally, reports
    "Invalid input. Setting repeat count to 1 by default." and stores 1,
    whatever count was stored before. *)
Theorem set_repeat_count_negative_falls_back_to_1
    (st : state) (line : string) (rest : list string) (n : Z) :
  stdin st = line :: rest ->
  py_int (strip line) = Some n ->
  n < 0 ->
  (set_repeat_count st).1 = Ret tt /\
  schema_repeat_count (set_repeat_count st).2 = 1 /\
  schema_sources (set_repeat_count st).2 = schema_sources st /\
  last_printed "Invalid input. Setting repeat count to 1 by default."
    (set_repeat_count st).2.
Proof.
  intros Hin Hparse Hneg. apply Z.ltb_lt in Hneg.
  rewrite set_repeat_count_eq, Hin. cbv zeta. rewrite Hparse, Hneg.
  repeat split. eexists. reflexivity.
Qed.

(** ** Scratch files *)

(** The loop of [cleanup] never raises: it unlinks the listed paths that are
    regular files and leaves every other path as it is. *)
Lemma cleanup_loop_spec (files : list string) (st : state) :
  exists m : gmap string file_kind,
    cleanup_loop files st = (Ret tt, set_fs m st) /\
    (forall p, p ∈ files -> fs st !! p = Some RegularFile -> m !! p = None) /\
    (forall p, p ∉ files \/ fs st !! p <> Some RegularFile -> m !! p = fs st !! p).
Proof.
  revert st. induction files as [|f rest IH]; intros st.
  - exists (fs st). split; [destruct st; reflexivity |]. split.
    + intros p Hp. inversion Hp.
    + reflexivity.
  - cbn [cleanup_loop]. unfold bind at 1, os_path_isfile, gets.
    destruct (fs st !! f) as [[| |]|] eqn:Hf.
    1: { unfold bind at 1, os_remove. rewrite Hf.
         destruct (IH (set_fs (delete f (fs st)) st)) as (m & Hrun & Hgone & Hkept).
         cbn [fs set_fs] in Hgone, Hkept.
         exists m. split; [exact Hrun |]. split.
         - intros p Hp Hreg. destruct (decide (p = f)) as [-> | Hne].
           + rewrite Hkept; [apply lookup_delete_eq |].
             right. rewrite lookup_delete_eq. discriminate.
           + apply elem_of_cons in Hp as [? | Hp]; [contradiction |].
             apply Hgone; [exact Hp |]. rewrite lookup_delete_ne; auto.
         - intros p Hp. assert (Hne : p <> f).
           { intros ->. destruct Hp as [Hp | Hp]; [| contradiction].
             apply Hp. left. }
           rewrite Hkept; [apply lookup_delete_ne; auto |].
           rewrite lookup_delete_ne by auto.
           destruct Hp as [Hp | Hp]; [left | right; exact Hp].
           intros Hin. apply Hp. right. exact Hin. }
    all: unfold bind at 1, ret at 1;
      destruct (IH st) as (m & Hrun & Hgone & Hkept);
      exists m; (split; [exact Hrun |]); split;
      [ intros p Hp Hreg; apply elem_of_cons in Hp as [-> | Hp];
        [congruence | apply Hgone; assumption]
      | intros p Hp; apply Hkept; destruct Hp as [Hp | Hp];
        [left; intros Hin; apply Hp; right; exact Hin | right; exact Hp] ].
Qed.

Lemma cleanup_eq (signum : Z) (frame : unit) (st : state) :
  exists m : gmap string file_kind,
    cleanup signum frame st =
      (Exc (SystemExit 0),
       set_stdout (stdout st +:+ (LF +:+ "Process interrupted. Exiting.") +:+ LF)
         (set_fs m st)) /\
    (forall p, p ∈ temp_files st -> fs st !! p = Some RegularFile -> m !! p = None) /\
    (forall p, p ∉ temp_files st \/ fs st !! p <> Some RegularFile ->
               m !! p = fs st !! p).
Proof.
  destruct (cleanup_loop_spec (temp_files st) st) as (m & Hrun & Hgone & Hkept).
  exists m. split; [| split; assumption].
  unfold cleanup. unfold bind at 1, gets at 1. unfold bind at 1. rewrite Hrun.
  reflexivity.
Qed.

(** C9, as the script has it: [cleanup] unlinks every tracked path that is a
    regular file at that moment and touches no other path; it leaves the list
    of tracked paths as it is (the process is about to end); a tracked path
    that is missing raises nothing, the only way out being [sys.exit(0)]; and
    running it again on the state it leaves changes neither the filesystem nor
    the list. *)
Theorem cleanup_unlinks_tracked_regular_files
    (signum : Z) (frame : unit) (st : state) :
  (cleanup signum frame st).1 = Exc (SystemExit 0) /\
  temp_files (cleanup signum frame st).2 = temp_files st /\
  (forall p, p ∈ temp_files st -> fs st !! p = Some RegularFile ->
             fs (cleanup signum frame st).2 !! p = None) /\
  (forall p, p ∉ temp_files st \/ fs st !! p <> Some RegularFile ->
             fs (cleanup signum frame st).2 !! p = fs st !! p) /\
  fs (cleanup signum frame (cleanup signum frame st).2).2
    = fs (cleanup signum frame st).2 /\
  temp_files (cleanup signum frame (cleanup signum frame st).2).2 = temp_files st.
Proof.
  destruct (cleanup_eq signum frame st) as (m & Hrun & Hgone & Hkept).
  rewrite Hrun. cbn [fst snd].
  set (st' := set_stdout _ _).
  destruct (cleanup_eq signum frame st') as (m' & Hrun' & Hgone' & Hkept').
  rewrite Hrun'. cbn [fst snd temp_files fs set_stdout set_fs].
  subst st'. cbn [temp_files fs set_stdout set_fs] in Hgone', Hkept'.
  repeat split; try assumption.
  apply map_eq. intros p. apply Hkept'.
  destruct (decide (p ∈ temp_files st)) as [Hin | Hout]; [| now left].
  right. destruct (fs st !! p) as [[| |]|] eqn:Hp.
  1: rewrite (Hgone p Hin Hp); discriminate.
  all: rewrite Hkept, Hp; [discriminate | right; rewrite Hp; discriminate].
Qed.

(** ** The properties at the sample inputs *)

Lemma execute_command_classification_witness :
  (execute_command run_ok (command source_zeros) (sample_state 2 [])).1 = Ret true /\
  (execute_command run_random_denied (command source_zeros) (sample_state 2 [])).1
    = Ret true /\
  (execute_command run_denied (command source_zeros) (sample_state 2 [])).1
    = Ret false /\
  (execute_command run_unstartable (command source_zeros) (sample_state 2 [])).1
    = Ret false.
Proof.
  split; [| split; [| split]].
  - apply (proj1 (execute_command_classification run_ok (command source_zeros)
                    (sample_state 2 [])) "").
    reflexivity.
  - apply (proj1 (proj2 (execute_command_classification run_random_denied
                           (command source_zeros) (sample_state 2 [])))
             1 "dd: error writing '/dev/sdX': No space left on device").
    + lia.
    + reflexivity.
    + exists "dd: error writing '/dev/sdX': ", "". reflexivity.
  - apply (proj1 (proj2 (proj2 (execute_command_classification run_denied
                                  (command source_zeros) (sample_state 2 []))))
             1 "dd: failed to open '/dev/sdX': Permission denied").
    + lia.
    + reflexivity.
    + intros H. apply str_in_iff in H. vm_compute in H. discriminate.
  - apply (proj2 (proj2 (proj2 (execute_command_classification run_unstartable
                                  (command source_zeros) (sample_state 2 []))))
             OSError); reflexivity.
Defined.

Lemma run_schema_stops_at_first_failure_witness :
  invocations (run_schema run_random_denied 5 (sample_state 2 [])).2
    = [(command source_zeros,
        Exited (Process 1 "dd: error writing '/dev/sdX': No space left on device"));
       (command source_random,
        Exited (Process 1 "dd: failed to open '/dev/sdX': Permission denied"))] /\
  aborted (run_schema run_random_denied 5 (sample_state 2 [])).
Proof.
  apply (proj2 (run_schema_stops_at_first_failure run_random_denied 5
                  (sample_state 2 []))
           (DictObj 0 source_zeros) (DictObj 1 source_random)).
  - reflexivity.
  - reflexivity.
  - lia.
  - vm_compute. reflexivity.
  - vm_compute. reflexivity.
Defined.

Lemma run_schema_three_passes_witness :
  exists log : list (string * run_outcome),
    invocations (run_schema run_ok 3 (sample_state 3 [])).2 = [] ++ log /\
    map fst log = [command source_zeros; command source_random;
                   command source_zeros; command source_random;
                   command source_zeros; command source_random] /\
    clean log /\
    schema_sources (run_schema run_ok 3 (sample_state 3 [])).2
      = schema_sources (sample_state 3 []) /\
    completed (run_schema run_ok 3 (sample_state 3 [])).
Proof.
  apply (run_schema_three_passes run_ok 3 (sample_state 3 [])).
  - reflexivity.
  - lia.
  - intros h c _. reflexivity.
Defined.

Lemma run_schema_forever_single_failing_source_witness :
  invocations (run_schema run_denied 1 (single_state 0)).2
    = [(command source_zeros,
        Exited (Process 1 "dd: failed to open '/dev/sdX': Permission denied"))] /\
  aborted (run_schema run_denied 1 (single_state 0)).
Proof.
  apply (run_schema_forever_single_failing_source run_denied 1 (single_state 0)
           (DictObj 0 source_zeros)).
  - reflexivity.
  - reflexivity.
  - lia.
  - intros h. vm_compute. reflexivity.
Defined.

Lemma out_of_range_index_is_rejected_witness :
  ((delete_source (sample_state 2 ["3"])).1 = Ret tt /\
   schema_sources (delete_source (sample_state 2 ["3"])).2
     = schema_sources (sample_state 2 ["3"]) /\
   console_only (sample_state 2 ["3"]) (delete_source (sample_state 2 ["3"])).2 /\
   last_printed "Invalid source number." (delete_source (sample_state 2 ["3"])).2) /\
  ((copy_source (sample_state 2 ["3"])).1 = Ret tt /\
   schema_sources (copy_source (sample_state 2 ["3"])).2
     = schema_sources (sample_state 2 ["3"]) /\
   console_only (sample_state 2 ["3"]) (copy_source (sample_state 2 ["3"])).2 /\
   last_printed "Invalid source number." (copy_source (sample_state 2 ["3"])).2).
Proof.
  apply (out_of_range_index_is_rejected (sample_state 2 ["3"]) "3" [] 3).
  - reflexivity.
  - reflexivity.
  - vm_compute. intros [_ H]. apply H. reflexivity.
Defined.

Lemma unparsable_index_or_empty_schema_is_harmless_witness :
  ((delete_source (sample_state 2 ["two"])).1 = Ret tt /\
   schema_sources (delete_source (sample_state 2 ["two"])).2
     = schema_sources (sample_state 2 ["two"]) /\
   console_only (sample_state 2 ["two"]) (delete_source (sample_state 2 ["two"])).2 /\
   (copy_source (sample_state 2 ["two"])).1 = Ret tt /\
   schema_sources (copy_source (sample_state 2 ["two"])).2
     = schema_sources (sample_state 2 ["two"]) /\
   console_only (sample_state 2 ["two"]) (copy_source (sample_state 2 ["two"])).2) /\
  ((delete_source (empty_state ["1"])).1 = Ret tt /\
   schema_sources (delete_source (empty_state ["1"])).2
     = schema_sources (empty_state ["1"]) /\
   console_only (empty_state ["1"]) (delete_source (empty_state ["1"])).2 /\
   (copy_source (empty_state ["1"])).1 = Ret tt /\
   schema_sources (copy_source (empty_state ["1"])).2
     = schema_sources (empty_state ["1"]) /\
   console_only (empty_state ["1"]) (copy_source (empty_state ["1"])).2).
Proof.
  split.
  - apply (proj1 (unparsable_index_or_empty_schema_is_harmless
                    (sample_state 2 ["two"])) "two" []); reflexivity.
  - apply (proj2 (unparsable_index_or_empty_schema_is_harmless
                    (empty_state ["1"]))); reflexivity.
Defined.

Lemma copy_source_appends_a_copy_witness :
  exists original copy : dict_obj,
    schema_sources (sample_state 2 ["2"]) !! Z.to_nat (2 - 1) = Some original /\
    (copy_source (sample_state 2 ["2"])).1 = Ret tt /\
    schema_sources (copy_source (sample_state 2 ["2"])).2
      = schema_sources (sample_state 2 ["2"]) ++ [copy] /\
    len (schema_sources (copy_source (sample_state 2 ["2"])).2)
      = len (schema_sources (sample_state 2 ["2"])) + 1 /\
    command (obj_val copy) = command (obj_val original) /\
    obj_val copy = obj_val original /\
    (forall d, d ∈ schema_sources (sample_state 2 ["2"]) -> obj_id copy <> obj_id d) /\
    well_formed (copy_source (sample_state 2 ["2"])).2.
Proof.
  apply (copy_source_appends_a_copy (sample_state 2 ["2"]) "2" [] 2).
  - unfold well_formed. simpl. repeat (constructor; [simpl; lia |]). constructor.
  - reflexivity.
  - reflexivity.
  - vm_compute. split; discriminate.
Defined.

Lemma set_repeat_count_negative_falls_back_to_1_witness :
  (set_repeat_count (sample_state 5 ["-1"])).1 = Ret tt /\
  schema_repeat_count (set_repeat_count (sample_state 5 ["-1"])).2 = 1 /\
  schema_sources (set_repeat_count (sample_state 5 ["-1"])).2
    = schema_sources (sample_state 5 ["-1"]) /\
  last_printed "Invalid input. Setting repeat count to 1 by default."
    (set_repeat_count (sample_state 5 ["-1"])).2.
Proof.
  apply (set_repeat_count_negative_falls_back_to_1 (sample_state 5 ["-1"]) "-1" [] (-1)).
  - reflexivity.
  - reflexivity.
  - lia.
Defined.

(** With 5 stored and -1 typed, [set_repeat_count] raises nothing and the
    stored count does not stay 5. *)
Lemma set_repeat_count_negative_counterexample :
  (forall e, (set_repeat_count (sample_state 5 ["-1"])).1 <> Exc e) /\
  schema_repeat_count (set_repeat_count (sample_state 5 ["-1"])).2
    <> schema_repeat_count (sample_state 5 ["-1"]).
Proof.
  split; [intros e H | intros H]; vm_compute in H; discriminate.
Qed.

Lemma cleanup_unlinks_tracked_regular_files_witness :
  fs (cleanup 2 tt tracked_state).2 !! "gen_1.tmp" = None /\
  fs (cleanup 2 tt tracked_state).2 !! "/dev/sdX" = fs tracked_state !! "/dev/sdX".
Proof.
  split.
  - apply (proj1 (proj2 (proj2 (cleanup_unlinks_tracked_regular_files 2 tt tracked_state)))).
    + left.
    + vm_compute. reflexivity.
  - apply (proj1 (proj2 (proj2 (proj2
             (cleanup_unlinks_tracked_regular_files 2 tt tracked_state))))).
    right. vm_compute. discriminate.
Defined.

(** After [cleanup] the list of tracked paths is not empty, and a tracked path
    that exists without being a regular file is still there. *)
Lemma cleanup_clears_nothing_counterexample :
  temp_files (cleanup 2 tt tracked_state).2 <> [] /\
  "/dev/sdX" ∈ temp_files tracked_state /\
  fs (cleanup 2 tt tracked_state).2 !! "/dev/sdX" <> None.
Proof.
  split; [| split].
  - intros H. vm_compute in H. discriminate.
  - right. left.
  - intros H. vm_compute in H. discriminate.
Qed.

(** ** More on the run loop *)

Section EngineMore.

Variable os_run : list (string * run_outcome) -> string -> run_outcome.

(** X1: with a repeat count [n >= 1], calls that all go through and fuel for
    [n] turns of the loop, [run_schema] invokes the commands of the schema in
    schema order [n] times over (nothing at all for an empty schema) and
    returns after the closing message. *)
Theorem run_schema_n_passes (n fuel : nat) (st : state) :
  schema_repeat_count st = Z.of_nat n ->
  (1 <= n)%nat ->
  (n <= fuel)%nat ->
  (forall h c, c ∈ commands (schema_sources st) ->
               verdict_of (os_run h c) = Success) ->
  exists log : list (string * run_outcome),
    invocations (run_schema os_run fuel st).2 = invocations st ++ log /\
    map fst log = concat (replicate n (commands (schema_sources st))) /\
    length log = (n * length (schema_sources st))%nat /\
    completed (run_schema os_run fuel st).
Proof.
  intros Hcount Hn Hfuel Hok.
  destruct (run_loop_all_success os_run n fuel 0 st Hok)
    as (log & Hr & Hlog & Hcmds & _ & _); [lia | lia | exact Hfuel |].
  exists log. rewrite run_schema_eq.
  destruct (run_loop os_run fuel 0 st) as [r st']. simpl in Hr, Hlog.
  subst r. simpl.
  split; [exact Hlog |]. split; [exact Hcmds |].
  split.
  { rewrite <- (length_map fst log), Hcmds.
    unfold commands. clear. induction n as [|n IH]; simpl; [reflexivity |].
    rewrite length_app, length_map, IH. reflexivity. }
  split; [reflexivity |]. eexists. reflexivity.
Qed.

(** With repeat count 0 and calls that all go through, every turn of the loop
    is followed by another one. *)
Lemma run_loop_forever (fuel : nat) :
  forall (run_count : Z) (st : state),
    schema_repeat_count st = 0 ->
    (forall h c, c ∈ commands (schema_sources st) ->
                 verdict_of (os_run h c) = Success) ->
    exists log : list (string * run_outcome),
      (run_loop os_run fuel run_count st).1 = OutOfFuel /\
      invocations (run_loop os_run fuel run_count st).2 = invocations st ++ log /\
      map fst log = concat (replicate fuel (commands (schema_sources st))).
Proof.
  induction fuel as [|fuel IH]; intros run_count st Hcount Hok;
    rewrite run_loop_eq, Hcount; cbn [Z.eqb orb].
  - exists []. rewrite app_nil_r. repeat split.
  - cbv zeta. set (st1 := set_stdout _ st).
    destruct (run_pass_shape os_run (schema_sources st) 1 st1)
      as (log1 & Hlog1 & Hfr1 & Hcases).
    destruct (run_pass os_run 1 (schema_sources st) st1) as [r st2].
    simpl in Hlog1, Hfr1, Hcases.
    assert (Hf2 : engine_frame st st2).
    { eapply engine_frame_trans; [| exact Hfr1].
      apply engine_frame_stdout, engine_frame_refl. }
    destruct Hcases as [(-> & _ & Hcmds) | (before & c & o & _ & _ & Hin & Ho & Hend)].
    2: { specialize (Hok (invocations st ++ before) c Hin).
         change (invocations st1) with (invocations st) in Ho.
         rewrite <- Ho in Hok.
         destruct Hend as [(Hv & _) | (e & Hv & _)]; congruence. }
    destruct (engine_frame_globals _ _ Hf2) as [Hsrc2 Hcount2].
    rewrite Hcount2, Hcount. cbn [Z.gtb Z.compare].
    destruct (IH (run_count + 1) st2) as (log2 & Hr & Hlog2 & Hcmds2).
    { rewrite Hcount2. exact Hcount. }
    { rewrite Hsrc2. exact Hok. }
    exists (log1 ++ log2). split; [exact Hr |].
    split. { rewrite Hlog2, Hlog1, app_assoc. reflexivity. }
    rewrite map_app, Hcmds, Hcmds2, Hsrc2. reflexivity.
Qed.

(** X2: with repeat count 0 (run forever) and calls that all go through,
    [run_schema] never returns: whatever number of turns it is allowed, it is
    still inside the loop after them, having gone through the whole schema
    once per turn.  This holds for an empty schema too, which then loops
    without ever calling anything. *)
Theorem run_schema_forever_never_returns (fuel : nat) (st : state) :
  schema_repeat_count st = 0 ->
  (forall h c, c ∈ commands (schema_sources st) ->
               verdict_of (os_run h c) = Success) ->
  exists log : list (string * run_outcome),
    (run_schema os_run fuel st).1 = OutOfFuel /\
    invocations (run_schema os_run fuel st).2 = invocations st ++ log /\
    map fst log = concat (replicate fuel (commands (schema_sources st))).
Proof.
  intros Hcount Hok.
  destruct (run_loop_forever fuel 0 st Hcount Hok) as (log & Hr & Hlog & Hcmds).
  exists log. rewrite run_schema_eq.
  destruct (run_loop os_run fuel 0 st) as [r st']. simpl in Hr, Hlog.
  subst r. repeat split; assumption.
Qed.

(** X3: whatever the commands do and however the run ends, [run_schema]
    assigns none of the script's own variables: the schema (the same objects
    in the same order, none created), the repeat count and the list of scratch
    files are as before.  (What the commands themselves do to the disk and
    the terminal is theirs and is not stated here.) *)
Theorem run_schema_keeps_script_variables (fuel : nat) (st : state) :
  schema_sources (run_schema os_run fuel st).2 = schema_sources st /\
  schema_repeat_count (run_schema os_run fuel st).2 = schema_repeat_count st /\
  temp_files (run_schema os_run fuel st).2 = temp_files st /\
  next_id (run_schema os_run fuel st).2 = next_id st.
Proof.
  destruct (run_loop_shape os_run fuel 0 st) as (log & _ & Hfr & _).
  rewrite run_schema_eq.
  destruct (run_loop os_run fuel 0 st) as [r st']. simpl in Hfr.
  assert (Hfr' : engine_frame st
            (set_stdout (stdout st' +:+ "Disk preparation completed." +:+ LF) st'))
    by (apply engine_frame_stdout; exact Hfr).
  destruct r as [[|] | e |]; cbn [snd];
    first [rewrite Hfr' | rewrite Hfr]; repeat split.
Qed.

(** The calls of one pass are an initial stretch of the schema's commands,
    all of them when the pass runs to its end. *)
Lemma run_pass_log_prefix (sources : list dict_obj) (i : Z) (st : state) :
  exists log : list (string * run_outcome),
    invocations (run_pass os_run i sources st).2 = invocations st ++ log /\
    map fst log `prefix_of` commands sources /\
    ((run_pass os_run i sources st).1 = Ret false ->
     map fst log = commands sources).
Proof.
  revert i st. induction sources as [|s rest IH]; intros i st.
  - exists []. simpl. rewrite app_nil_r. repeat split. reflexivity.
  - rewrite run_pass_cons. cbv zeta.
    set (c := command (obj_val s)). set (o := os_run (invocations st) c).
    destruct (verdict_of o).
    + set (st2 := set_stdout _ _).
      destruct (IH (i + 1) st2) as (log & Hlog & Hpre & Hall).
      exists ((c, o) :: log). split.
      { rewrite Hlog. simpl. rewrite <- app_assoc. reflexivity. }
      split.
      { simpl. apply (prefix_app [c]). exact Hpre. }
      intros Hr. simpl. rewrite (Hall Hr). reflexivity.
    + exists [(c, o)]. split; [reflexivity |]. split.
      { simpl. apply (prefix_app [c] []). apply prefix_nil. }
      discriminate.
    + exists [(c, o)]. split; [reflexivity |]. split.
      { simpl. apply (prefix_app [c] []). apply prefix_nil. }
      discriminate.
Qed.

(** X4: in every run, finished or not, failed or not, the commands invoked
    follow the schema order pass after pass: the sequence of calls is an
    initial stretch of the schema's commands repeated once per turn of the
    loop. *)
Theorem run_schema_calls_follow_schema_order (fuel : nat) (st : state) :
  exists log : list (string * run_outcome),
    invocations (run_schema os_run fuel st).2 = invocations st ++ log /\
    map fst log `prefix_of` concat (replicate fuel (commands (schema_sources st))).
Proof.
  assert (Hloop : forall fuel run_count st,
    exists log : list (string * run_outcome),
      invocations (run_loop os_run fuel run_count st).2 = invocations st ++ log /\
      map fst log
        `prefix_of` concat (replicate fuel (commands (schema_sources st)))).
  { clear. intros fuel. induction fuel as [|fuel IH]; intros run_count st;
      rewrite run_loop_eq;
      destruct ((schema_repeat_count st =? 0) || (run_count <? schema_repeat_count st));
      try (exists []; rewrite app_nil_r; split; [reflexivity | apply prefix_nil]).
    cbv zeta. set (st1 := set_stdout _ st).
    destruct (run_pass_log_prefix (schema_sources st) 1 st1)
      as (log1 & Hlog1 & Hpre1 & Hall1).
    destruct (run_pass_shape os_run (schema_sources st) 1 st1) as (_ & _ & Hfr1 & _).
    destruct (run_pass os_run 1 (schema_sources st) st1) as [r st2].
    simpl in Hlog1, Hall1, Hfr1.
    assert (Hf2 : engine_frame st st2).
    { eapply engine_frame_trans; [| exact Hfr1].
      apply engine_frame_stdout, engine_frame_refl. }
    destruct r as [[|] | e |];
      try (exists log1; split; [exact Hlog1 |];
           simpl; apply prefix_app_r; exact Hpre1).
    set (st3 := if schema_repeat_count st2 >? 0 then _ else st2).
    assert (Hf3 : engine_frame st st3).
    { subst st3. destruct (schema_repeat_count st2 >? 0);
        [apply engine_frame_stdout |]; exact Hf2. }
    assert (Hinv3 : invocations st3 = invocations st ++ log1).
    { subst st3. destruct (schema_repeat_count st2 >? 0); exact Hlog1. }
    destruct (IH (run_count + 1) st3) as (log2 & Hlog2 & Hpre2).
    exists (log1 ++ log2). split.
    { rewrite Hlog2, Hinv3, app_assoc. reflexivity. }
    rewrite map_app, (Hall1 eq_refl). simpl. apply prefix_app.
    destruct (engine_frame_globals _ _ Hf3) as [<- _]. exact Hpre2. }
  destruct (Hloop fuel 0 st) as (log & Hlog & Hpre).
  exists log. rewrite run_schema_eq.
  destruct (run_loop os_run fuel 0 st) as [[[|] | e |] st']; simpl in Hlog;
    split; assumption.
Qed.

(** X5: an exception that [except Exception] does not catch (KeyboardInterrupt,
    SystemExit) raised by a call ends [run_schema] at once: that call is the
    last one, and [run_schema] itself ends by that exception. *)
Theorem run_schema_lets_base_exceptions_through
    (fuel : nat) (st : state) (log before after : list (string * run_outcome))
    (c : string) (e : exn) :
  invocations (run_schema os_run fuel st).2 = invocations st ++ log ->
  log = before ++ (c, Raised e) :: after ->
  is_Exception e = false ->
  after = [] /\ (run_schema os_run fuel st).1 = Exc e.
Proof.
  intros Hlog Hsplit He.
  destruct (run_loop_shape os_run fuel 0 st) as (log' & Hlog' & _ & Hcases).
  rewrite run_schema_eq in *.
  destruct (run_loop os_run fuel 0 st) as [r st']. simpl in Hlog', Hcases.
  assert (log' = log).
  { destruct r as [[|] | e' |]; simpl in Hlog; rewrite Hlog' in Hlog;
      exact (app_inv_head _ _ _ Hlog). }
  subst log'.
  assert (Hv : verdict_of (Raised e) = Propagated e) by (simpl; rewrite He; reflexivity).
  destruct Hcases as [(Hclean & _) | (pre & c' & o' & Heq & Hclean & _ & _ & Hend)].
  - assert (Hin : (c, Raised e) ∈ log).
    { rewrite Hsplit. apply elem_of_app. right. left. }
    rewrite (clean_elem _ _ _ Hclean Hin) in Hv. discriminate.
  - rewrite Hsplit in Heq.
    destruct (split_at_last _ _ _ _ _ Heq) as [-> | Hin].
    2: { rewrite (clean_elem _ _ _ Hclean Hin) in Hv. discriminate. }
    split; [reflexivity |].
    apply app_inj_tail in Heq as [_ Heq]. injection Heq as <- <-.
    destruct Hend as [(Hf & _) | (e' & Hv' & ->)]; [congruence |].
    rewrite Hv in Hv'. injection Hv' as <-. reflexivity.
Qed.

End EngineMore.

(** ** More on the schema store *)

(** X6: for a number [n] within 1..len(schema), [delete_source] returns
    normally having removed exactly entry [n]: the entries before it keep
    their places, the entries after it move up by one, the schema is one
    shorter, and "Source deleted." is printed. *)
Theorem delete_source_removes_entry
    (st : state) (line : string) (rest : list string) (n : Z) :
  stdin st = line :: rest ->
  py_int (strip line) = Some n ->
  1 <= n <= len (schema_sources st) ->
  (delete_source st).1 = Ret tt /\
  schema_sources (delete_source st).2
    = take (Z.to_nat (n - 1)) (schema_sources st)
      ++ drop (Z.to_nat n) (schema_sources st) /\
  len (schema_sources (delete_source st).2) = len (schema_sources st) - 1 /\
  (forall j : nat, (j < Z.to_nat (n - 1))%nat ->
     schema_sources (delete_source st).2 !! j = schema_sources st !! j) /\
  (forall j : nat, (Z.to_nat (n - 1) <= j)%nat ->
     schema_sources (delete_source st).2 !! j = schema_sources st !! S j) /\
  last_printed "Source deleted." (delete_source st).2.
Proof.
  intros Hin Hparse Hrange.
  assert (Hlt : (Z.to_nat (n - 1) < length (schema_sources st))%nat)
    by (unfold len in Hrange; lia).
  apply in_range_iff in Hrange as Hcond.
  rewrite delete_source_eq, Hin. cbv zeta. rewrite Hparse, Hcond.
  destruct (schema_sources st) as [|d0 l] eqn:Hsrc; [simpl in Hlt; lia |].
  cbn [fst snd schema_sources set_stdout set_stdin set_schema_sources].
  split; [reflexivity |].
  split.
  { rewrite delete_take_drop. do 2 f_equal. lia. }
  split.
  { unfold len. rewrite length_delete by (apply lookup_lt_is_Some_2; exact Hlt).
    simpl. lia. }
  split. { intros j Hj. apply list_lookup_delete_lt. exact Hj. }
  split. { intros j Hj. apply list_lookup_delete_ge. exact Hj. }
  eexists. reflexivity.
Qed.

(** X7: copying an entry and then deleting the last entry gives the schema
    back: [copy_source] with a number within range, followed by
    [delete_source] with the number of the new last entry, leaves the schema
    exactly as it was before the two. *)
Theorem copy_then_delete_last_restores_schema
    (st : state) (line1 line2 : string) (rest : list string) (n : Z) :
  stdin st = line1 :: line2 :: rest ->
  py_int (strip line1) = Some n ->
  1 <= n <= len (schema_sources st) ->
  py_int (strip line2) = Some (len (schema_sources st) + 1) ->
  (copy_source st).1 = Ret tt /\
  (delete_source (copy_source st).2).1 = Ret tt /\
  schema_sources (delete_source (copy_source st).2).2 = schema_sources st.
Proof.
  intros Hin Hparse1 Hrange Hparse2.
  assert (Hlt : (Z.to_nat (n - 1) < length (schema_sources st))%nat)
    by (unfold len in Hrange; lia).
  destruct (lookup_lt_is_Some_2 _ _ Hlt) as [d Hlook].
  apply in_range_iff in Hrange as Hcond.
  rewrite copy_source_eq, Hin. cbv zeta. rewrite Hparse1, Hcond, Hlook.
  destruct (schema_sources st) as [|d0 l] eqn:Hsrc; [discriminate |].
  cbn [fst snd]. split; [reflexivity |].
  rewrite delete_source_eq.
  cbn [schema_sources stdin set_stdout set_stdin set_schema_sources set_next_id].
  cbv zeta. rewrite Hparse2.
  replace ((0 <=? len (d0 :: l) + 1 - 1)
           && (len (d0 :: l) + 1 - 1
               <? len ((d0 :: l) ++ [DictObj (next_id st) (obj_val d)])))
    with true.
  2: { symmetry. apply andb_true_iff. rewrite Z.leb_le, Z.ltb_lt.
       unfold len. rewrite length_app. simpl. lia. }
  change ((d0 :: l) ++ [DictObj (next_id st) (obj_val d)])
    with (d0 :: (l ++ [DictObj (next_id st) (obj_val d)])).
  cbn [fst snd schema_sources set_stdout set_stdin set_schema_sources].
  split; [reflexivity |].
  replace (Z.to_nat (len (d0 :: l) + 1 - 1)) with (length (d0 :: l))
    by (unfold len; lia).
  change (d0 :: (l ++ [DictObj (next_id st) (obj_val d)]))
    with ((d0 :: l) ++ DictObj (next_id st) (obj_val d) :: []).
  rewrite delete_middle, app_nil_r. reflexivity.
Qed.

(** X8: a non-negative integer typed for the repeat count is stored as it is
    (0 included, which the run loop reads as "forever"), without any message;
    the schema is not touched. *)
Theorem set_repeat_count_stores_valid_count
    (st : state) (line : string) (rest : list string) (n : Z) :
  stdin st = line :: rest ->
  py_int (strip line) = Some n ->
  0 <= n ->
  (set_repeat_count st).1 = Ret tt /\
  schema_repeat_count (set_repeat_count st).2 = n /\
  schema_sources (set_repeat_count st).2 = schema_sources st /\
  stdout (set_repeat_count st).2
    = stdout st
      +:+ "Enter the number of times to repeat the schema (0 for infinitely): ".
Proof.
  intros Hin Hparse Hn. apply Z.ltb_ge in Hn.
  rewrite set_repeat_count_eq, Hin. cbv zeta. rewrite Hparse, Hn.
  repeat split.
Qed.

(** X9: whatever line is typed, [set_repeat_count] returns normally and the
    count it leaves is never negative; it is 1, with the message "Invalid
    input. Setting repeat count to 1 by default.", whenever the line is not an
    integer at all. *)
Theorem set_repeat_count_never_stores_negative
    (st : state) (line : string) (rest : list string) :
  stdin st = line :: rest ->
  (set_repeat_count st).1 = Ret tt /\
  0 <= schema_repeat_count (set_repeat_count st).2 /\
  (py_int (strip line) = None ->
   schema_repeat_count (set_repeat_count st).2 = 1 /\
   last_printed "Invalid input. Setting repeat count to 1 by default."
     (set_repeat_count st).2).
Proof.
  intros Hin. rewrite set_repeat_count_eq, Hin. cbv zeta.
  destruct (py_int (strip line)) as [n|].
  - destruct (n <? 0) eqn:Hn; cbn [fst snd schema_repeat_count set_schema_repeat_count].
    + split; [reflexivity |]. split; [lia | discriminate].
    + apply Z.ltb_ge in Hn. split; [reflexivity |]. split; [exact Hn | discriminate].
  - cbn [fst snd schema_repeat_count set_schema_repeat_count].
    split; [reflexivity |]. split; [lia |]. intros _.
    split; [reflexivity |]. eexists. reflexivity.
Qed.

(** X10: when the operator's input has ended, the three prompting functions
    do not return: [EOFError], which none of them catches, leaves the
    function ([delete_source] and [copy_source] ask only when the schema is
    not empty).  The schema and the repeat count are as before. *)
Theorem end_of_input_raises_EOFError (st : state) :
  stdin st = [] ->
  ((set_repeat_count st).1 = Exc EOFError /\
   schema_repeat_count (set_repeat_count st).2 = schema_repeat_count st) /\
  (schema_sources st <> [] ->
   (delete_source st).1 = Exc EOFError /\
   schema_sources (delete_source st).2 = schema_sources st /\
   (copy_source st).1 = Exc EOFError /\
   schema_sources (copy_source st).2 = schema_sources st).
Proof.
  intros Hin. split.
  - rewrite set_repeat_count_eq, Hin. split; reflexivity.
  - intros Hne. rewrite delete_source_eq, copy_source_eq, Hin.
    destruct (schema_sources st) as [|d l] eqn:Hsrc; [contradiction |].
    cbn [fst snd schema_sources set_stdout]. rewrite Hsrc. repeat split.
Qed.

(** [copy_source] keeps the entries distinct objects, whatever is typed. *)
Lemma copy_source_distinct_objects (st : state) :
  distinct_objects st -> distinct_objects (copy_source st).2.
Proof.
  unfold distinct_objects, well_formed. intros [Hwf Hnd].
  rewrite copy_source_eq.
  destruct (schema_sources st) as [|d0 l] eqn:Hsrc;
    [simpl; rewrite Hsrc; split; assumption |].
  cbv zeta. destruct (stdin st) as [|line rest];
    [simpl; rewrite ?Hsrc; split; assumption |].
  destruct (py_int (strip line)) as [n|];
    [| simpl; rewrite ?Hsrc; split; assumption].
  destruct ((0 <=? n - 1) && (n - 1 <? len (d0 :: l)));
    [| simpl; rewrite ?Hsrc; split; assumption].
  destruct ((d0 :: l) !! Z.to_nat (n - 1)) as [d|];
    [| simpl; rewrite ?Hsrc; split; assumption].
  cbn [snd schema_sources next_id set_stdout set_stdin set_schema_sources set_next_id].
  split.
  - apply Forall_app. split.
    + eapply Forall_impl; [exact Hwf |]. simpl. intros; lia.
    + constructor; [simpl; lia | constructor].
  - rewrite map_app. apply NoDup_app. split; [exact Hnd |]. split.
    + intros x Hx [Heq | Hnil]%elem_of_cons; [| inversion Hnil].
      simpl in Heq. subst x.
      apply list_elem_of_fmap in Hx as (d' & Hid & Hd').
      rewrite Forall_forall in Hwf. specialize (Hwf d' Hd'). lia.
    + apply NoDup_singleton.
Qed.

(** [delete_source] keeps the entries distinct objects, whatever is typed. *)
Lemma delete_source_distinct_objects (st : state) :
  distinct_objects st -> distinct_objects (delete_source st).2.
Proof.
  intros [Hwf Hnd]. split; [apply delete_source_well_formed; exact Hwf |].
  rewrite delete_source_eq.
  destruct (schema_sources st) as [|d0 l] eqn:Hsrc;
    [simpl; rewrite Hsrc; assumption |].
  cbv zeta. destruct (stdin st) as [|line rest];
    [simpl; rewrite ?Hsrc; assumption |].
  destruct (py_int (strip line)) as [n|];
    [| simpl; rewrite ?Hsrc; assumption].
  destruct ((0 <=? n - 1) && (n - 1 <? len (d0 :: l)));
    [| simpl; rewrite ?Hsrc; assumption].
  cbn [snd schema_sources set_stdout set_stdin set_schema_sources].
  rewrite delete_take_drop, map_app.
  rewrite <- (take_drop (Z.to_nat (n - 1)) (d0 :: l)) in Hnd at 1.
  rewrite <- (take_drop 1 (drop (Z.to_nat (n - 1)) (d0 :: l))) in Hnd.
  rewrite drop_drop in Hnd. rewrite !map_app in Hnd.
  apply NoDup_app in Hnd as (H1 & H2 & H3).
  apply NoDup_app in H3 as (_ & _ & H3).
  replace (S (Z.to_nat (n - 1))) with (Z.to_nat (n - 1) + 1)%nat by lia.
  apply NoDup_app. split; [exact H1 |]. split; [| exact H3].
  intros x Hx Hx'. apply (H2 x Hx). apply elem_of_app. right. exact Hx'.
Qed.

(** ** The prompting layer, step by step *)

Lemma bind_ret {A B} (a : A) (k : A -> M B) (st : state) :
  bind (ret a) k st = k a st.
Proof. reflexivity. Qed.

Lemma bind_gets {A B} (f : state -> A) (k : A -> M B) (st : state) :
  bind (gets f) k st = k (f st) st.
Proof. reflexivity. Qed.

Lemma bind_print {B} (x : string) (k : unit -> M B) (st : state) :
  bind (print x) k st = k tt (set_stdout (stdout st +:+ x +:+ LF) st).
Proof. reflexivity. Qed.

Lemma bind_input {B} (prompt : string) (k : string -> M B) (st : state) :
  bind (input prompt) k st =
  match stdin st with
  | [] => (Exc EOFError, set_stdout (stdout st +:+ prompt) st)
  | line :: rest => k line (set_stdin rest (set_stdout (stdout st +:+ prompt) st))
  end.
Proof.
  unfold bind at 1, input, bind at 1, modify. cbn [stdin set_stdout].
  destruct (stdin st); reflexivity.
Qed.

(** [get_device], case by case. *)
Lemma get_device_eq (st : state) :
  get_device st =
  match stdin st with
  | [] => (Exc EOFError,
           set_stdout (stdout st +:+ "Enter target drive (e.g., /dev/sdb): ") st)
  | line :: rest =>
      let st1 :=
        set_stdin rest
          (set_stdout (stdout st +:+ "Enter target drive (e.g., /dev/sdb): ") st) in
      match fs st !! strip line with
      | Some BlockDevice => (Ret (Some (strip line)), st1)
      | _ =>
          (Ret None,
           set_stdout
             (stdout st1
              +:+ "Invalid device path. Ensure it is a valid block device in /dev/."
              +:+ LF) st1)
      end
  end.
Proof.
  unfold get_device. rewrite bind_input.
  destruct (stdin st) as [|line rest]; [reflexivity |].
  unfold is_block_device, os_path_exists, S_ISBLK_stat, gets, print, modify, ret, bind.
  cbv beta zeta. cbn [fs set_stdin set_stdout].
  destruct (fs st !! strip line) as [[| |]|] eqn:E;
    cbv beta iota; cbn [fs set_stdin set_stdout]; rewrite ?E; reflexivity.
Qed.

Lemma append_source_eq (d : source) (st : state) :
  append_source d st =
  (Ret tt,
   set_schema_sources (schema_sources st ++ [DictObj (next_id st) d])
     (set_next_id (S (next_id st)) st)).
Proof. reflexivity. Qed.

Lemma bindS_retS {A B} (a : A) (k : A -> Menu B) (s : session) :
  bindS (retS a) k s = k a s.
Proof. reflexivity. Qed.

Lemma bindS_lift {A B} (m : M A) (k : A -> Menu B) (s : session) :
  bindS (lift m) k s =
  match m (core s) with
  | (Ret a, st') => k a (set_core st' s)
  | (Exc e, st') => (Exc e, set_core st' s)
  | (OutOfFuel, st') => (OutOfFuel, set_core st' s)
  end.
Proof.
  unfold bindS, lift. destruct (m (core s)) as [[a | e |] st']; reflexivity.
Qed.

Lemma bindS_lift_print {B} (x : string) (k : unit -> Menu B) (s : session) :
  bindS (lift (print x)) k s
  = k tt (set_core (set_stdout (stdout (core s) +:+ x +:+ LF) (core s)) s).
Proof. reflexivity. Qed.

Lemma bindS_lift_input {B} (prompt : string) (k : string -> Menu B) (s : session) :
  bindS (lift (input prompt)) k s =
  match stdin (core s) with
  | [] =>
      (Exc EOFError,
       set_core (set_stdout (stdout (core s) +:+ prompt) (core s)) s)
  | line :: rest =>
      k line
        (set_core (set_stdin rest (set_stdout (stdout (core s) +:+ prompt) (core s))) s)
  end.
Proof.
  unfold bindS, lift, input, bind, modify. cbn [stdin set_stdout].
  destruct (stdin (core s)); reflexivity.
Qed.
Ltac menu_simpl :=
  cbv beta zeta;
  cbn [core set_core source_types_metadata set_source_types_metadata file_data
       set_file_data stdin stdout set_stdin set_stdout fst snd
       schema_sources schema_repeat_count temp_files fs invocations next_id
       set_schema_sources set_schema_repeat_count set_temp_files set_fs
       set_invocations set_next_id].

Ltac menu_input l r :=
  rewrite bindS_lift_input; menu_simpl;
  match goal with
  | |- context [match ?x with [] => _ | _ :: _ => _ end] => destruct x as [|l r]
  end.

Lemma bindS_print_source_types {B} (path_choice : option bool)
    (k : unit -> Menu B) (s : session) :
  bindS (print_source_types (metadata_table path_choice)) k s
  = k tt (set_core (set_stdout (types_listed (stdout (core s))) (core s)) s).
Proof.
  unfold metadata_table. cbn [print_source_types first_char].
  unfold bindS at 1.
  rewrite bindS_retS, bindS_lift_print, bindS_retS, bindS_lift_print,
    bindS_retS, bindS_lift_print.
  unfold retS. reflexivity.
Qed.

Lemma bindS_find_source_type {B} (path_choice : option bool) (key : string)
    (k : option (string * source_meta) -> Menu B) (s : session) :
  bindS (find_source_type key (metadata_table path_choice)) k s
  = k (chosen_type path_choice key) s.
Proof.
  unfold bindS at 1.
  unfold metadata_table, chosen_type. cbn [find_source_type first_char].
  rewrite !bindS_retS.
  destruct (String.eqb key "r"); [reflexivity |]. rewrite !bindS_retS.
  destruct (String.eqb key "z"); [reflexivity |]. rewrite !bindS_retS.
  destruct (String.eqb key "p"); reflexivity.
Qed.

Lemma bindS_get_table {B} (k : list (string * source_meta) -> Menu B) (s : session) :
  bindS (fun s => (Ret (source_types_metadata s), s)) k s
  = k (source_types_metadata s) s.
Proof. reflexivity. Qed.

Lemma bindS_update {B} (f : session -> session) (k : unit -> Menu B) (s : session) :
  bindS (fun s => (Ret tt, f s)) k s = k tt (f s).
Proof. reflexivity. Qed.

Lemma bindS_lift_os_path_exists {B} (p : string) (k : bool -> Menu B) (s : session) :
  bindS (lift (os_path_exists p)) k s
  = k (match fs (core s) !! p with Some _ => true | None => false end) s.
Proof. unfold bindS, lift, os_path_exists, gets. destruct s; reflexivity. Qed.

Lemma bindS_lift_append_source {B} (d : source) (k : unit -> Menu B) (s : session) :
  bindS (lift (append_source d)) k s
  = k tt (set_core
            (set_schema_sources
               (schema_sources (core s) ++ [DictObj (next_id (core s)) d])
               (set_next_id (S (next_id (core s))) (core s))) s).
Proof. reflexivity. Qed.

Lemma bindS_assoc {A B C} (m : Menu A) (f : A -> Menu B) (g : B -> Menu C)
    (s : session) :
  bindS (bindS m f) g s = bindS m (fun a => bindS (f a) g) s.
Proof.
  unfold bindS. destruct (m s) as [[a | e |] s']; reflexivity.
Qed.

Lemma lift_print_run (x : string) (s : session) :
  lift (print x) s
  = (Ret tt, set_core (set_stdout (stdout (core s) +:+ x +:+ LF) (core s)) s).
Proof. reflexivity. Qed.

Lemma store_continuous_write_path (b : bool) (v : option bool) :
  store_continuous_write "path" b (metadata_table v) = metadata_table (Some b).
Proof. reflexivity. Qed.

Lemma build_dd_command_tail (i o f : string) (cw : bool) :
  exists head, build_dd_command i o f cw = head +:+ " of=" +:+ o +:+ " " +:+ f.
Proof.
  destruct cw; simpl.
  - exists ("while :; do cat " +:+ i +:+ "; done | dd"). now rewrite !append_assoc.
  - exists ("dd if=" +:+ i). now rewrite !append_assoc.
Qed.

Ltac leaf_console :=
  unfold add_outcome, retS; menu_simpl;
  split; [reflexivity |]; split; [eauto |]; left; reflexivity.

Ltac leaf_append :=
  unfold add_outcome, retS; menu_simpl;
  split; [reflexivity |]; split; [eauto |]; right;
  eexists (Source _ _ _ _); split; [reflexivity |];
  split; [reflexivity |]; cbn [device type flags command];
  split; [discriminate |]; split; [eassumption |];
  split; [eexists _, _; reflexivity |].

Lemma add_source_to_schema_cases (s : session) (v : option bool) :
  source_types_metadata s = metadata_table v ->
  add_outcome s (add_source_to_schema s).
Proof.
  intros Htable.
  unfold add_source_to_schema.
  rewrite bindS_lift, get_device_eq.
  destruct (stdin (core s)) as [|l1 r1] eqn:Hin; [leaf_console |].
  cbv zeta.
  destruct (fs (core s) !! strip l1) as [[| |]|] eqn:Hdev; try leaf_console.
  destruct (strip l1) as [|c0 dev0] eqn:Hstrip; [leaf_console |].
  rewrite bindS_lift_print, bindS_get_table. menu_simpl. rewrite Htable.
  rewrite bindS_print_source_types. menu_simpl.
  menu_input l2 r2; [leaf_console |].
  rewrite bindS_get_table. menu_simpl. rewrite Htable.
  rewrite bindS_find_source_type. unfold chosen_type.
  destruct (String.eqb (lower (strip l2)) "r").
  { cbn [requires_input_path meta_if_device meta_continuous_write].
    rewrite bindS_retS. menu_input l3 r3; [leaf_console |].
    rewrite bindS_lift_append_source, lift_print_run.
    leaf_append. set_solver. }
  destruct (String.eqb (lower (strip l2)) "z").
  { cbn [requires_input_path meta_if_device meta_continuous_write].
    rewrite bindS_retS. menu_input l3 r3; [leaf_console |].
    rewrite bindS_lift_append_source, lift_print_run.
    leaf_append. set_solver. }
  destruct (String.eqb (lower (strip l2)) "p").
  2: { rewrite lift_print_run. leaf_console. }
  cbn [requires_input_path meta_if_device meta_continuous_write].
  rewrite bindS_assoc. menu_input l3 r3; [leaf_console |].
  rewrite bindS_assoc, bindS_lift_os_path_exists. menu_simpl.
  destruct (fs (core s) !! strip l3) as [k3|] eqn:Hpath; cbn [negb].
  2: { rewrite bindS_assoc, bindS_lift_print, !bindS_retS. leaf_console. }
  rewrite bindS_assoc. menu_input l4 r4; [leaf_console |].
  rewrite bindS_assoc, bindS_update. menu_simpl.
  rewrite Htable, store_continuous_write_path, !bindS_retS.
  cbn [with_continuous_write meta_continuous_write truthy].
  menu_input l5 r5.
  { unfold add_outcome. menu_simpl. split; [reflexivity |]. split; [eauto |].
    left. reflexivity. }
  rewrite bindS_lift_append_source, lift_print_run.
  unfold add_outcome, retS; menu_simpl.
  split; [reflexivity |]. split; [eauto |]. right.
  eexists (Source _ _ _ _). split; [reflexivity |].
  split; [reflexivity |]. cbn [device type flags command].
  split; [discriminate |]. split; [eassumption |].
  split; [eexists _, _; reflexivity |]. set_solver.
Qed.
(** ** The schema invariant *)

Lemma schema_invariant_console_only (s s' : session) :
  schema_invariant s ->
  console_only (core s) (core s') ->
  (exists v, source_types_metadata s' = metadata_table v) ->
  schema_invariant s'.
Proof.
  unfold schema_invariant, distinct_objects, well_formed, console_only.
  intros (Hcount & [Hwf Hnd] & Hentries & _) Hcore Htable.
  rewrite Hcore. menu_simpl. repeat split; assumption.
Qed.

Lemma schema_invariant_appended (s s' : session) (src : source) :
  schema_invariant s ->
  appended src (core s) (core s') ->
  (exists v, source_types_metadata s' = metadata_table v) ->
  fs (core s) !! device src = Some BlockDevice ->
  (exists i cw, command src = build_dd_command i (device src) (flags src) cw) ->
  type src ∈ ["random"; "zeros"; "path"] ->
  schema_invariant s'.
Proof.
  unfold schema_invariant, distinct_objects, well_formed, appended.
  intros (Hcount & [Hwf Hnd] & Hentries & _) Hcore Htable Hdev (i & cw & Hcmd) Hty.
  rewrite Hcore. menu_simpl.
  split; [exact Hcount |]. split; [split |]; [| | split; [| exact Htable]].
  - apply Forall_app. split.
    + eapply Forall_impl; [exact Hwf |]. simpl. intros; lia.
    + constructor; [simpl; lia | constructor].
  - rewrite map_app. apply NoDup_app. split; [exact Hnd |]. split.
    + intros x Hx [Heq | Hnil]%elem_of_cons; [| inversion Hnil].
      simpl in Heq. subst x.
      apply list_elem_of_fmap in Hx as (d' & Hid & Hd').
      rewrite Forall_forall in Hwf. specialize (Hwf d' Hd'). lia.
    + apply NoDup_singleton.
  - apply Forall_app. split; [exact Hentries |].
    constructor; [| constructor].
    split; [exact Hdev |]. split; [| exact Hty].
    cbn [obj_val]. rewrite Hcmd. apply build_dd_command_tail.
Qed.

Lemma add_source_to_schema_invariant (s : session) :
  schema_invariant s -> schema_invariant (add_source_to_schema s).2.
Proof.
  intros Hinv. pose proof Hinv as (_ & _ & _ & v & Htable).
  destruct (add_source_to_schema_cases s v Htable)
    as (_ & Htable' & [Hconsole | (src & Happ & _ & _ & Hdev & Hcmd & Hty)]).
  - eapply schema_invariant_console_only; eassumption.
  - eapply schema_invariant_appended; eassumption.
Qed.

(** ** Adding a source *)

(** X11: a source of the type "random" or "zeros".  With a valid block device
    typed first and [r] or [z] (in either case, blanks around) typed for the
    type, [add_source_to_schema] reads one more line, the flags, and appends
    one entry: the device, the type, the flags typed or, for a blank line, the
    default flags, and the single-transfer command from /dev/urandom or
    /dev/zero; the choice stored for "path" by an earlier call plays no part
    and stays as it was. *)
Theorem add_source_to_schema_fixed_input
    (s : session) (v : option bool) (l1 l2 l3 : string) (rest : list string)
    (key name input_device : string) :
  source_types_metadata s = metadata_table v ->
  stdin (core s) = l1 :: l2 :: l3 :: rest ->
  fs (core s) !! strip l1 = Some BlockDevice ->
  strip l1 <> "" ->
  lower (strip l2) = key ->
  (key, name, input_device) ∈ [("r", "random", "/dev/urandom");
                               ("z", "zeros", "/dev/zero")] ->
  (add_source_to_schema s).1 = Ret tt /\
  schema_sources (core (add_source_to_schema s).2)
    = schema_sources (core s)
      ++ [DictObj (next_id (core s))
            (Source (strip l1) name (str_or (strip l3) DEFAULT_DD_FLAGS)
               ("dd if=" +:+ input_device +:+ " of=" +:+ strip l1 +:+ " "
                +:+ str_or (strip l3) DEFAULT_DD_FLAGS))] /\
  stdin (core (add_source_to_schema s).2) = rest /\
  source_types_metadata (add_source_to_schema s).2 = metadata_table v /\
  last_printed "Source added successfully." (core (add_source_to_schema s).2).
Proof.
  intros Htable Hin Hdev Hne Hkey Hsel.
  unfold add_source_to_schema.
  rewrite bindS_lift, get_device_eq, Hin. cbv zeta. rewrite Hdev.
  destruct (strip l1) as [|c0 dev0] eqn:Hstrip; [contradiction |].
  rewrite bindS_lift_print, bindS_get_table. menu_simpl. rewrite Htable.
  rewrite bindS_print_source_types. menu_simpl.
  rewrite bindS_lift_input. menu_simpl.
  rewrite bindS_get_table. menu_simpl. rewrite Htable.
  rewrite bindS_find_source_type. unfold chosen_type. rewrite Hkey.
  apply elem_of_cons in Hsel as [Hsel | Hsel].
  - injection Hsel as -> -> ->. cbn [String.eqb Ascii.eqb Bool.eqb].
    cbn [requires_input_path meta_if_device meta_continuous_write].
    rewrite bindS_retS, bindS_lift_input. menu_simpl.
    rewrite bindS_lift_append_source, lift_print_run. menu_simpl.
    repeat split; [exact Htable | eexists; reflexivity].
  - apply elem_of_cons in Hsel as [Hsel | Hsel]; [| inversion Hsel].
    injection Hsel as -> -> ->. cbn [String.eqb Ascii.eqb Bool.eqb].
    cbn [requires_input_path meta_if_device meta_continuous_write].
    rewrite bindS_retS, bindS_lift_input. menu_simpl.
    rewrite bindS_lift_append_source, lift_print_run. menu_simpl.
    repeat split; [exact Htable | eexists; reflexivity].
Qed.

(** X12: a source of the type "path".  With a valid block device, [p], a path
    that exists, an answer for once-or-continuously and the flags,
    [add_source_to_schema] appends one entry of type "path" whose command
    reads the path typed: the endless [cat] piped into [dd] when the answer
    starts with [c] (in either case), the single transfer otherwise.  The
    answer of this call alone decides, whatever choice an earlier call left
    in the table, and it is what the table holds afterwards. *)
Theorem add_source_to_schema_path_input
    (s : session) (v : option bool) (l1 l2 l3 l4 l5 : string) (rest : list string) :
  source_types_metadata s = metadata_table v ->
  stdin (core s) = l1 :: l2 :: l3 :: l4 :: l5 :: rest ->
  fs (core s) !! strip l1 = Some BlockDevice ->
  strip l1 <> "" ->
  lower (strip l2) = "p" ->
  is_Some (fs (core s) !! strip l3) ->
  (add_source_to_schema s).1 = Ret tt /\
  schema_sources (core (add_source_to_schema s).2)
    = schema_sources (core s)
      ++ [DictObj (next_id (core s))
            (Source (strip l1) "path" (str_or (strip l5) DEFAULT_DD_FLAGS)
               (build_dd_command (strip l3) (strip l1)
                  (str_or (strip l5) DEFAULT_DD_FLAGS)
                  (String.prefix "c" (lower (strip l4)))))] /\
  stdin (core (add_source_to_schema s).2) = rest /\
  source_types_metadata (add_source_to_schema s).2
    = metadata_table (Some (String.prefix "c" (lower (strip l4)))) /\
  last_printed "Source added successfully." (core (add_source_to_schema s).2).
Proof.
  intros Htable Hin Hdev Hne Hkey [k3 Hpath].
  unfold add_source_to_schema.
  rewrite bindS_lift, get_device_eq, Hin. cbv zeta. rewrite Hdev.
  destruct (strip l1) as [|c0 dev0] eqn:Hstrip; [contradiction |].
  rewrite bindS_lift_print, bindS_get_table. menu_simpl. rewrite Htable.
  rewrite bindS_print_source_types. menu_simpl.
  rewrite bindS_lift_input. menu_simpl.
  rewrite bindS_get_table. menu_simpl. rewrite Htable.
  rewrite bindS_find_source_type. unfold chosen_type. rewrite Hkey.
  cbn [String.eqb Ascii.eqb Bool.eqb].
  cbn [requires_input_path meta_if_device meta_continuous_write].
  rewrite bindS_assoc, bindS_lift_input. menu_simpl.
  rewrite bindS_assoc, bindS_lift_os_path_exists. menu_simpl.
  rewrite Hpath. cbn [negb].
  rewrite bindS_assoc, bindS_lift_input. menu_simpl.
  rewrite bindS_assoc, bindS_update. menu_simpl.
  rewrite Htable, store_continuous_write_path, !bindS_retS.
  cbn [with_continuous_write meta_continuous_write truthy format_opt].
  rewrite bindS_lift_input. menu_simpl.
  rewrite bindS_lift_append_source, lift_print_run. menu_simpl.
  repeat split. eexists. reflexivity.
Qed.

(** X13: what [add_source_to_schema] refuses.  A first line that does not
    name a block device, a type letter other than r, z and p, or, for the type
    "path", a path that does not exist: each time the function prints its
    message and returns normally without reading further, and the schema is
    left exactly as it was. *)
Theorem add_source_to_schema_refusals (s : session) (v : option bool) :
  source_types_metadata s = metadata_table v ->
  (forall l1 rest,
     stdin (core s) = l1 :: rest ->
     fs (core s) !! strip l1 <> Some BlockDevice ->
     (add_source_to_schema s).1 = Ret tt /\
     schema_sources (core (add_source_to_schema s).2) = schema_sources (core s) /\
     stdin (core (add_source_to_schema s).2) = rest /\
     last_printed "Invalid device path. Ensure it is a valid block device in /dev/."
       (core (add_source_to_schema s).2)) /\
  (forall l1 l2 rest,
     stdin (core s) = l1 :: l2 :: rest ->
     fs (core s) !! strip l1 = Some BlockDevice ->
     strip l1 <> "" ->
     lower (strip l2) ∉ ["r"; "z"; "p"] ->
     (add_source_to_schema s).1 = Ret tt /\
     schema_sources (core (add_source_to_schema s).2) = schema_sources (core s) /\
     stdin (core (add_source_to_schema s).2) = rest /\
     last_printed "Invalid source type." (core (add_source_to_schema s).2)) /\
  (forall l1 l2 l3 rest,
     stdin (core s) = l1 :: l2 :: l3 :: rest ->
     fs (core s) !! strip l1 = Some BlockDevice ->
     strip l1 <> "" ->
     lower (strip l2) = "p" ->
     fs (core s) !! strip l3 = None ->
     (add_source_to_schema s).1 = Ret tt /\
     schema_sources (core (add_source_to_schema s).2) = schema_sources (core s) /\
     stdin (core (add_source_to_schema s).2) = rest /\
     source_types_metadata (add_source_to_schema s).2 = metadata_table v /\
     last_printed "Invalid path." (core (add_source_to_schema s).2)).
Proof.
  intros Htable. split; [| split].
  - intros l1 rest Hin Hdev.
    unfold add_source_to_schema.
    rewrite bindS_lift, get_device_eq, Hin. cbv zeta.
    destruct (fs (core s) !! strip l1) as [[| |]|]; try contradiction;
      unfold retS; menu_simpl; repeat split; eexists; reflexivity.
  - intros l1 l2 rest Hin Hdev Hne Hkey.
    unfold add_source_to_schema.
    rewrite bindS_lift, get_device_eq, Hin. cbv zeta. rewrite Hdev.
    destruct (strip l1) as [|c0 dev0] eqn:Hstrip; [contradiction |].
    rewrite bindS_lift_print, bindS_get_table. menu_simpl. rewrite Htable.
    rewrite bindS_print_source_types. menu_simpl.
    rewrite bindS_lift_input. menu_simpl.
    rewrite bindS_get_table. menu_simpl. rewrite Htable.
    rewrite bindS_find_source_type. unfold chosen_type.
    destruct (String.eqb_spec (lower (strip l2)) "r") as [E | _];
      [exfalso; apply Hkey; rewrite E; set_solver |].
    destruct (String.eqb_spec (lower (strip l2)) "z") as [E | _];
      [exfalso; apply Hkey; rewrite E; set_solver |].
    destruct (String.eqb_spec (lower (strip l2)) "p") as [E | _];
      [exfalso; apply Hkey; rewrite E; set_solver |].
    rewrite lift_print_run. menu_simpl. repeat split. eexists. reflexivity.
  - intros l1 l2 l3 rest Hin Hdev Hne Hkey Hpath.
    unfold add_source_to_schema.
    rewrite bindS_lift, get_device_eq, Hin. cbv zeta. rewrite Hdev.
    destruct (strip l1) as [|c0 dev0] eqn:Hstrip; [contradiction |].
    rewrite bindS_lift_print, bindS_get_table. menu_simpl. rewrite Htable.
    rewrite bindS_print_source_types. menu_simpl.
    rewrite bindS_lift_input. menu_simpl.
    rewrite bindS_get_table. menu_simpl. rewrite Htable.
    rewrite bindS_find_source_type. unfold chosen_type. rewrite Hkey.
    cbn [String.eqb Ascii.eqb Bool.eqb].
    cbn [requires_input_path meta_if_device meta_continuous_write].
    rewrite bindS_assoc, bindS_lift_input. menu_simpl.
    rewrite bindS_assoc, bindS_lift_os_path_exists. menu_simpl.
    rewrite Hpath. cbn [negb].
    rewrite bindS_assoc, bindS_lift_print, !bindS_retS. unfold retS. menu_simpl.
    repeat split; [exact Htable |]. eexists. reflexivity.
Qed.

(** ** Generating a data file *)

Lemma offer_to_add_cases (filename : string) (s : session) :
  offer_outcome filename s (offer_to_add filename s).
Proof.
  unfold offer_to_add, offer_outcome.
  menu_input l1 r1; [menu_simpl; repeat split; left; reflexivity |].
  destruct (String.eqb (lower (strip l1)) "n"); cbn [negb].
  2: { rewrite bindS_lift, get_device_eq. menu_simpl.
       destruct r1 as [|l2 r2]; [menu_simpl; repeat split; left; reflexivity |].
       destruct (fs (core s) !! strip l2) as [[| |]|] eqn:Hdev;
         try (unfold retS; menu_simpl; repeat split; left; reflexivity).
       destruct (strip l2) as [|c0 dev0] eqn:Hstrip;
         [unfold retS; menu_simpl; repeat split; left; reflexivity |].
       menu_input l3 r3; [menu_simpl; repeat split; left; reflexivity |].
       menu_input l4 r4; [menu_simpl; repeat split; left; reflexivity |].
       rewrite bindS_lift_append_source, lift_print_run. menu_simpl.
       split; [reflexivity |]. split; [reflexivity |]. right.
       eexists (Source _ _ _ _). split; [reflexivity |].
       split; [reflexivity |]. cbn [device type flags command].
       split; [discriminate |]. split; [exact Hdev |].
       split; [eexists; reflexivity | reflexivity]. }
  unfold retS. menu_simpl. repeat split. left. reflexivity.
Qed.

Lemma length_bytes_repeat (content : string) (n : nat) :
  String.length (bytes_repeat content n) = (n * String.length content)%nat.
Proof.
  induction n as [|n IH]; simpl; [reflexivity |].
  rewrite length_append, IH. reflexivity.
Qed.

Lemma encode_not_empty (u : string) : u <> "" -> encode u <> "".
Proof.
  destruct u as [|c r]; [contradiction |]. intros _. simpl.
  destruct (nat_of_ascii c <? 128)%nat; discriminate.
Qed.

Lemma file_content_not_empty (user_input : string) : file_content user_input <> "".
Proof.
  unfold file_content. destruct user_input as [|c r]; [discriminate |].
  cbn [orb].
  destruct (match upper (String c r) with
            | Some u => String.eqb u "FF"
            | None => false
            end); [discriminate |].
  apply encode_not_empty. discriminate.
Qed.

Lemma file_content_len_pos (user_input : string) : 0 < str_len (file_content user_input).
Proof.
  pose proof (file_content_not_empty user_input) as H. unfold str_len.
  destruct (file_content user_input); [contradiction | simpl; lia].
Qed.

(** What [bytes_mul] gives for the count [create_data_file] computes. *)
Lemma bytes_mul_size (user_input : string) (size_mb : Z) :
  let content := file_content user_input in
  let data := bytes_mul content ((size_mb * 1024 * 1024) / str_len content) in
  0 < str_len content /\
  (0 <= size_mb ->
   size_mb * 1024 * 1024 - str_len content < str_len data <= size_mb * 1024 * 1024) /\
  (0 <= size_mb -> (size_mb * 1024 * 1024) mod str_len content = 0 ->
   str_len data = size_mb * 1024 * 1024) /\
  (match user_input with "" => True | _ => upper user_input = Some "FF" end ->
   content = String "255"%char "" /\ (0 <= size_mb -> str_len data = size_mb * 1024 * 1024)) /\
  (size_mb < 0 -> data = "").
Proof.
  intros content data.
  pose proof (file_content_len_pos user_input) as Hpos. fold content in Hpos.
  assert (Hlen : str_len data
                 = Z.max 0 ((size_mb * 1024 * 1024) / str_len content) * str_len content).
  { unfold data, bytes_mul, str_len. rewrite length_bytes_repeat. lia. }
  split; [exact Hpos |].
  split; [| split; [| split]].
  - intros Hsize. rewrite Hlen.
    assert (0 <= (size_mb * 1024 * 1024) / str_len content)
      by (apply Z.div_pos; lia).
    rewrite Z.max_r by assumption.
    pose proof (Z.div_mod (size_mb * 1024 * 1024) (str_len content) ltac:(lia)).
    pose proof (Z.mod_pos_bound (size_mb * 1024 * 1024) (str_len content) Hpos).
    lia.
  - intros Hsize Hmod. rewrite Hlen.
    assert (0 <= (size_mb * 1024 * 1024) / str_len content)
      by (apply Z.div_pos; lia).
    rewrite Z.max_r by assumption.
    pose proof (Z.div_mod (size_mb * 1024 * 1024) (str_len content) ltac:(lia)).
    lia.
  - intros Hdefault.
    assert (Hc : content = String "255"%char "").
    { unfold content, file_content. destruct user_input as [|c r]; [reflexivity |].
      rewrite Hdefault. reflexivity. }
    split; [exact Hc |]. intros Hsize. rewrite Hlen, Hc.
    change (str_len (String "255"%char "")) with 1.
    rewrite Z.div_1_r. lia.
  - intros Hneg. unfold data, bytes_mul.
    replace (Z.to_nat ((size_mb * 1024 * 1024) / str_len content)) with O;
      [reflexivity |].
    assert ((size_mb * 1024 * 1024) / str_len content < 0)
      by (apply Z.div_lt_upper_bound; lia).
    lia.
Qed.

Lemma bytes_mul_max (content : string) (count : Z) :
  bytes_mul content (Z.max count 0) = bytes_mul content count.
Proof.
  unfold bytes_mul. f_equal. lia.
Qed.

Lemma count_index_sized (size len : Z) :
  0 < len -> index_sized size ->
  index_sized (size / len) /\ len * Z.max (size / len) 0 <= PY_SSIZE_T_MAX.
Proof.
  unfold index_sized. intros Hlen [Hlo Hhi].
  pose proof (Z.div_mod size len ltac:(lia)) as Hdm.
  pose proof (Z.mod_pos_bound size len Hlen) as Hmod.
  assert (Hmax : 0 < PY_SSIZE_T_MAX) by reflexivity.
  destruct (Z.le_gt_cases 0 size) as [Hpos | Hneg].
  - assert (0 <= size / len) by (apply Z.div_pos; lia).
    rewrite Z.max_l by lia. nia.
  - assert (size / len < 0) by (apply Z.div_lt_upper_bound; lia).
    rewrite Z.max_r by lia. nia.
Qed.

(** The product goes through when the size asked for fits an index and the
    allocator grants the block. *)
Lemma bytes_product_ok (granted : Z -> bool) (content : string) (size : Z) :
  0 < str_len content ->
  index_sized size ->
  granted (str_len content * Z.max (size / str_len content) 0) = true ->
  bytes_product granted content (size / str_len content)
  = Ret (bytes_mul content (size / str_len content)).
Proof.
  intros Hlen Hsize Hgrant.
  destruct (count_index_sized size (str_len content) Hlen Hsize) as [[Hlo Hhi] Hprod].
  unfold bytes_product.
  replace (size / str_len content <? - PY_SSIZE_T_MAX - 1) with false
    by (symmetry; apply Z.ltb_ge; lia).
  replace (PY_SSIZE_T_MAX <? size / str_len content) with false
    by (symmetry; apply Z.ltb_ge; lia).
  cbn [orb]. cbv zeta.
  assert (Hsecond : (0 <? Z.max (size / str_len content) 0)
                    && (PY_SSIZE_T_MAX / Z.max (size / str_len content) 0
                        <? str_len content) = false).
  { destruct (0 <? Z.max (size / str_len content) 0) eqn:Hn; [| reflexivity].
    apply Z.ltb_lt in Hn. cbn [andb]. apply Z.ltb_ge.
    apply Z.div_le_lower_bound; [exact Hn | lia]. }
  rewrite Hsecond, Hgrant, orb_true_r, bytes_mul_max. reflexivity.
Qed.

(** X14: the product [content * repeat_count] of [create_data_file].  The
    content is never empty, so the division by its length cannot fail.  When
    the size in bytes fits an index and the allocator grants the block, the
    product is there: for a size of [size_mb] >= 0 the content repeated a
    whole number of times, never more than [size_mb] MiB and less than one
    content short of it, hence exactly [size_mb] MiB when the length of the
    content divides a MiB; for a negative size, nothing.  A count that does
    not fit an index ends in [OverflowError], a block the allocator refuses
    in [MemoryError].  A blank content or the hex FF stands for the single
    byte 0xFF. *)
Theorem file_data_size (granted : Z -> bool) (user_input : string) (size_mb : Z) :
  let content := file_content user_input in
  let count := (size_mb * 1024 * 1024) / str_len content in
  0 < str_len content /\
  (index_sized (size_mb * 1024 * 1024) ->
   granted (str_len content * Z.max count 0) = true ->
   exists data,
     bytes_product granted content count = Ret data /\
     (0 <= size_mb ->
      size_mb * 1024 * 1024 - str_len content < str_len data
      <= size_mb * 1024 * 1024) /\
     (0 <= size_mb -> (size_mb * 1024 * 1024) mod str_len content = 0 ->
      str_len data = size_mb * 1024 * 1024) /\
     (size_mb < 0 -> data = "")) /\
  (~ index_sized count ->
   bytes_product granted content count = Exc OverflowError) /\
  (index_sized (size_mb * 1024 * 1024) ->
   str_len content * Z.max count 0 <> str_len content ->
   granted (str_len content * Z.max count 0) = false ->
   bytes_product granted content count = Exc MemoryError) /\
  (match user_input with "" => True | _ => upper user_input = Some "FF" end ->
   content = String "255"%char "").
Proof.
  intros content count.
  destruct (bytes_mul_size user_input size_mb) as (Hpos & Hsize & Hexact & Hff & Hneg).
  fold content in Hpos, Hsize, Hexact, Hff, Hneg.
  split; [exact Hpos |]. split; [| split; [| split]].
  - intros Hidx Hgrant. exists (bytes_mul content count). split.
    + apply bytes_product_ok; assumption.
    + split; [exact Hsize |]. split; [exact Hexact | exact Hneg].
  - intros Hnot. unfold bytes_product, index_sized in *.
    destruct (count <? - PY_SSIZE_T_MAX - 1) eqn:Hlo; [reflexivity |].
    destruct (PY_SSIZE_T_MAX <? count) eqn:Hhi; [reflexivity |].
    apply Z.ltb_ge in Hlo, Hhi. lia.
  - intros Hidx Hne Hgrant.
    destruct (count_index_sized (size_mb * 1024 * 1024) (str_len content) Hpos Hidx)
      as [[Hlo Hhi] Hprod].
    fold count in Hlo, Hhi, Hprod.
    unfold bytes_product.
    replace (count <? - PY_SSIZE_T_MAX - 1) with false
      by (symmetry; apply Z.ltb_ge; lia).
    replace (PY_SSIZE_T_MAX <? count) with false
      by (symmetry; apply Z.ltb_ge; lia).
    cbn [orb]. cbv zeta.
    replace ((0 <? Z.max count 0) && (PY_SSIZE_T_MAX / Z.max count 0 <? str_len content))
      with false.
    2: { symmetry. destruct (0 <? Z.max count 0) eqn:Hn; [| reflexivity].
         apply Z.ltb_lt in Hn. cbn [andb]. apply Z.ltb_ge.
         apply Z.div_le_lower_bound; [exact Hn | lia]. }
    rewrite Hgrant.
    replace (str_len content * Z.max count 0 =? str_len content) with false
      by (symmetry; apply Z.eqb_neq; exact Hne).
    reflexivity.
  - intros Hdefault. apply Hff. exact Hdefault.
Qed.

Section CreateDataFile.

Variable time_time : session -> Z.
Variable io : io_env.

Lemma bindS_clock {B} (k : Z -> Menu B) (s : session) :
  bindS (fun s => (Ret (time_time s), s)) k s = k (time_time s) s.
Proof. reflexivity. Qed.

Lemma bindS_try_size {B} (text : string) (k : Z -> Menu B) (s : session) :
  bindS
    (try_exceptS
       (match text with
        | "" => retS 128
        | _ => lift (int text)
        end)
       is_ValueError
       (bindS (lift (print "Invalid size input. Using default 128MB."))
              (fun _ => retS 128)))
    k s
  = k (chosen_size text)
      (match text with
       | "" => s
       | _ =>
           match py_int text with
           | Some _ => s
           | None =>
               set_core
                 (set_stdout
                    (stdout (core s) +:+ "Invalid size input. Using default 128MB."
                     +:+ LF) (core s)) s
           end
       end).
Proof.
  unfold bindS at 1, try_exceptS, chosen_size.
  destruct text as [|c r]; [reflexivity |].
  unfold lift, int. destruct (py_int (String c r)) as [n|]; destruct s; reflexivity.
Qed.

Lemma bindS_open_wb {B} (filename : string) (k : unit -> Menu B) (s : session) :
  bindS (open_wb io filename) k s =
  match fs (core s) !! filename with
  | Some Directory => (Exc OSError, s)
  | _ =>
      if open_refused io s filename then (Exc OSError, s)
      else
        k tt (set_file_data (<[filename := ""]> (file_data s))
                (set_core (set_fs (written_fs filename (fs (core s))) (core s)) s))
  end.
Proof.
  unfold bindS, open_wb, written_fs.
  destruct (fs (core s) !! filename) as [[| |]|] eqn:E;
    destruct (open_refused io s filename); try reflexivity.
  destruct s as [[] ? ?]; reflexivity.
Qed.

Lemma bindS_product {B} (content : string) (count : Z) (k : string -> Menu B)
    (s : session) :
  bindS (fun s => (bytes_product (malloc_granted io s) content count, s)) k s =
  match bytes_product (malloc_granted io s) content count with
  | Ret data => k data s
  | Exc e => (Exc e, s)
  | OutOfFuel => (OutOfFuel, s)
  end.
Proof.
  unfold bindS. destruct (bytes_product (malloc_granted io s) content count);
    reflexivity.
Qed.

Lemma bindS_f_write {B} (filename data : string) (k : unit -> Menu B) (s : session) :
  bindS (f_write io filename data) k s =
  match write_room io s filename with
  | Some room =>
      if room <? str_len data
      then (Exc OSError,
            set_file_data
              (<[filename := str_take (Z.to_nat room) data]> (file_data s)) s)
      else k tt (set_file_data (<[filename := data]> (file_data s)) s)
  | None => k tt (set_file_data (<[filename := data]> (file_data s)) s)
  end.
Proof.
  unfold bindS, f_write.
  destruct (write_room io s filename) as [room|]; [| reflexivity].
  destruct (room <? str_len data); reflexivity.
Qed.

Lemma bindS_lift_modify {B} (f : state -> state) (k : unit -> Menu B) (s : session) :
  bindS (lift (modify f)) k s = k tt (set_core (f (core s)) s).
Proof. reflexivity. Qed.

(** [create_data_file] up to "# Create the file": the four answers are read
    and nothing but the console has changed. *)
Lemma create_data_file_asks
    (s : session) (l1 l2 l3 l4 : string) (rest : list string) (now : Z) :
  (forall s', time_time s' = now) ->
  stdin (core s) = l1 :: l2 :: l3 :: l4 :: rest ->
  exists s2,
    create_data_file time_time io s
    = create_the_file io (file_content (strip l1)) (chosen_size (strip l2))
        (str_or (strip l3) ("gen_" +:+ str now +:+ ".tmp"))
        (negb (String.eqb (lower (strip l4)) "n")) s2 /\
    stdin (core s2) = rest /\
    fs (core s2) = fs (core s) /\
    file_data s2 = file_data s /\
    temp_files (core s2) = temp_files (core s) /\
    schema_repeat_count (core s2) = schema_repeat_count (core s) /\
    source_types_metadata s2 = source_types_metadata s /\
    next_id (core s2) = next_id (core s) /\
    schema_sources (core s2) = schema_sources (core s).
Proof.
  intros Hclock Hin.
  unfold create_data_file.
  rewrite bindS_lift_print, bindS_lift_input. menu_simpl. rewrite Hin.
  rewrite bindS_lift_input. menu_simpl.
  rewrite bindS_try_size, bindS_clock, Hclock.
  match goal with
  | |- context [bindS (lift (input ?p)) ?k ?s0] => set (s2 := s0)
  end.
  assert (H2 : stdin (core s2) = l3 :: l4 :: rest
               /\ fs (core s2) = fs (core s)
               /\ file_data s2 = file_data s
               /\ temp_files (core s2) = temp_files (core s)
               /\ schema_repeat_count (core s2) = schema_repeat_count (core s)
               /\ source_types_metadata s2 = source_types_metadata s
               /\ next_id (core s2) = next_id (core s)
               /\ schema_sources (core s2) = schema_sources (core s)).
  { subst s2. destruct (strip l2) as [|c r]; [repeat split |].
    destruct (py_int (String c r)); repeat split. }
  destruct H2 as (Hin2 & Hfs2 & Hfd2 & Htf2 & Hrc2 & Htab2 & Hid2 & Hsrc2).
  clearbody s2.
  rewrite bindS_lift_input, Hin2. menu_simpl.
  rewrite bindS_lift_input. menu_simpl.
  eexists. split; [reflexivity |]. menu_simpl.
  repeat split; assumption.
Qed.

(** [create_the_file] when the machine allows the write: the file is written
    and tracked, and what is left to do is the offer to add it. *)
Lemma create_the_file_run
    (s : session) (content : string) (size_mb : Z) (filename : string)
    (cleanup : bool) :
  0 < str_len content ->
  let count := (size_mb * 1024 * 1024) / str_len content in
  fs (core s) !! filename <> Some Directory ->
  index_sized (size_mb * 1024 * 1024) ->
  io_allows io filename content count ->
  exists s4,
    create_the_file io content size_mb filename cleanup s
    = offer_to_add filename s4 /\
    file_data s4 = <[filename := bytes_mul content count]> (file_data s) /\
    fs (core s4) = written_fs filename (fs (core s)) /\
    temp_files (core s4)
      = temp_files (core s) ++ (if cleanup then [filename] else []) /\
    schema_repeat_count (core s4) = schema_repeat_count (core s) /\
    source_types_metadata s4 = source_types_metadata s /\
    stdin (core s4) = stdin (core s) /\
    next_id (core s4) = next_id (core s) /\
    schema_sources (core s4) = schema_sources (core s).
Proof.
  intros Hlen count Hnotdir Hidx Hio.
  unfold create_the_file. cbv zeta. fold count.
  rewrite bindS_open_wb.
  replace (open_refused io s filename) with false by (symmetry; apply Hio).
  match goal with
  | |- context [bindS _ _ ?s0] => set (s3 := s0)
  end.
  assert (Hstep : exists s4 : session,
            bindS (fun s => (bytes_product (malloc_granted io s) content count, s))
              (fun data =>
                 bindS (f_write io filename data)
                   (fun _ =>
                      bindS (if cleanup
                             then lift (modify (fun st =>
                                    set_temp_files (temp_files st ++ [filename]) st))
                             else retS tt)
                        (fun _ =>
                           bindS (lift (print (LF +:+ "Created file: " +:+ filename)))
                             (fun _ =>
                                bindS (lift (print ("Size: " +:+ str size_mb +:+ "MB")))
                                  (fun _ =>
                                     bindS (lift (print ("Cleanup on exit: "
                                                         +:+ (if cleanup then "Yes"
                                                              else "No"))))
                                       (fun _ => offer_to_add filename)))))) s3
            = offer_to_add filename s4 /\
            file_data s4 = <[filename := bytes_mul content count]> (file_data s) /\
            fs (core s4) = written_fs filename (fs (core s)) /\
            temp_files (core s4)
              = temp_files (core s) ++ (if cleanup then [filename] else []) /\
            schema_repeat_count (core s4) = schema_repeat_count (core s) /\
            source_types_metadata s4 = source_types_metadata s /\
            stdin (core s4) = stdin (core s) /\
            next_id (core s4) = next_id (core s) /\
            schema_sources (core s4) = schema_sources (core s)).
  { unfold count. rewrite bindS_product.
    rewrite (bytes_product_ok (malloc_granted io s3) content (size_mb * 1024 * 1024)
               Hlen Hidx) by apply Hio.
    fold count. rewrite bindS_f_write.
    assert (Hwrite : match write_room io s3 filename with
                     | Some room => (room <? str_len (bytes_mul content count)) = false
                     | None => True
                     end).
    { destruct (Hio s3) as (_ & _ & Hroom).
      destruct (write_room io s3 filename); [apply Z.ltb_ge; exact Hroom | exact I]. }
    assert (Hdata : <[filename := bytes_mul content count]> (file_data s3)
                    = <[filename := bytes_mul content count]> (file_data s)).
    { subst s3. menu_simpl. apply insert_insert_eq. }
    destruct (write_room io s3 filename) as [room|]; rewrite ?Hwrite, Hdata;
      subst s3; destruct cleanup;
      rewrite ?bindS_lift_modify, ?bindS_retS; menu_simpl;
      rewrite !bindS_lift_print; menu_simpl;
      (eexists; split; [reflexivity |]); menu_simpl;
      rewrite ?app_nil_r; repeat split. }
  destruct (fs (core s) !! filename) as [[| |]|] eqn:Hkind;
    try contradiction; exact Hstep.
Qed.

(** [create_data_file] when the machine allows the write. *)
Lemma create_data_file_run
    (s : session) (l1 l2 l3 l4 : string) (rest : list string) (now : Z) :
  (forall s', time_time s' = now) ->
  stdin (core s) = l1 :: l2 :: l3 :: l4 :: rest ->
  let content := file_content (strip l1) in
  let size_mb := chosen_size (strip l2) in
  let filename := str_or (strip l3) ("gen_" +:+ str now +:+ ".tmp") in
  let count := (size_mb * 1024 * 1024) / str_len content in
  let data := bytes_mul content count in
  fs (core s) !! filename <> Some Directory ->
  index_sized (size_mb * 1024 * 1024) ->
  io_allows io filename content count ->
  exists s4,
    create_data_file time_time io s = offer_to_add filename s4 /\
    file_data s4 = <[filename := data]> (file_data s) /\
    fs (core s4) = written_fs filename (fs (core s)) /\
    temp_files (core s4)
      = temp_files (core s)
        ++ (if String.eqb (lower (strip l4)) "n" then [] else [filename]) /\
    schema_repeat_count (core s4) = schema_repeat_count (core s) /\
    source_types_metadata s4 = source_types_metadata s /\
    stdin (core s4) = rest /\
    next_id (core s4) = next_id (core s) /\
    schema_sources (core s4) = schema_sources (core s).
Proof.
  intros Hclock Hin content size_mb filename count data Hnotdir Hidx Hio.
  destruct (create_data_file_asks s l1 l2 l3 l4 rest now Hclock Hin)
    as (s2 & -> & Hin2 & Hfs2 & Hfd2 & Htf2 & Hrc2 & Htab2 & Hid2 & Hsrc2).
  fold content size_mb filename.
  destruct (create_the_file_run s2 content size_mb filename
              (negb (String.eqb (lower (strip l4)) "n"))
              (file_content_len_pos (strip l1)))
    as (s4 & -> & Hfd4 & Hfs4 & Htf4 & Hrc4 & Htab4 & Hin4 & Hid4 & Hsrc4);
    [rewrite Hfs2; exact Hnotdir | exact Hidx | exact Hio |].
  exists s4. split; [reflexivity |].
  rewrite Hfd4, Hfs4, Htf4, Hrc4, Htab4, Hin4, Hid4, Hsrc4.
  rewrite Hfd2, Hfs2, Htf2, Hrc2, Htab2, Hin2, Hid2, Hsrc2.
  fold count data.
  destruct (String.eqb (lower (strip l4)) "n"); repeat split.
Qed.

(** X15: where [create_data_file] writes and what it tracks.  When the size
    typed is within the length [int] accepts, the size in bytes fits an index
    and the machine allows the write (the path can be
    opened, the block for the product is granted, the file takes all the
    bytes), then after the four answers (content, size, name, removal) the
    file named, or [gen_<time>.tmp] for a blank name, holds the content
    repeated to the size chosen (128 when the size typed is blank or not an
    integer); the path is added to the list of scratch files unless the answer
    to "Remove file after script completion?" is [n] (in either case);
    whatever is typed afterwards, this is what the function leaves.  A path
    that was a block device is written too, and stays a device. *)
Theorem create_data_file_writes
    (s : session) (l1 l2 l3 l4 : string) (rest : list string) (now : Z) :
  (forall s', time_time s' = now) ->
  stdin (core s) = l1 :: l2 :: l3 :: l4 :: rest ->
  digits_accepted (strip l2) ->
  let content := file_content (strip l1) in
  let size_mb := chosen_size (strip l2) in
  let filename := str_or (strip l3) ("gen_" +:+ str now +:+ ".tmp") in
  let count := (size_mb * 1024 * 1024) / str_len content in
  let data := bytes_mul content count in
  fs (core s) !! filename <> Some Directory ->
  index_sized (size_mb * 1024 * 1024) ->
  io_allows io filename content count ->
  file_data (create_data_file time_time io s).2 = <[filename := data]> (file_data s) /\
  fs (core (create_data_file time_time io s).2) = written_fs filename (fs (core s)) /\
  temp_files (core (create_data_file time_time io s).2)
    = temp_files (core s)
      ++ (if String.eqb (lower (strip l4)) "n" then [] else [filename]) /\
  schema_repeat_count (core (create_data_file time_time io s).2)
    = schema_repeat_count (core s) /\
  source_types_metadata (create_data_file time_time io s).2 = source_types_metadata s.
Proof.
  intros Hclock Hin _ content size_mb filename count data Hnotdir Hidx Hio.
  destruct (create_data_file_run s l1 l2 l3 l4 rest now Hclock Hin Hnotdir Hidx Hio)
    as (s4 & -> & Hfd4 & Hfs4 & Htf4 & Hrc4 & Htab4 & _).
  fold content size_mb filename count data in Hfd4, Hfs4, Htf4.
  fold filename.
  destruct (offer_to_add_cases filename s4)
    as (Hfd & Htab & [Hcore | (src & Hcore & _)]);
    rewrite Hfd, Htab, Hcore; menu_simpl;
    rewrite Hfd4, Hfs4, Htf4, Hrc4, Htab4; repeat split.
Qed.

(** X16: a directory named as the file to generate.  [open] fails there:
    [create_data_file] ends by [OSError] after its four questions, with nothing
    written, nothing tracked and the schema as it was. *)
Theorem create_data_file_on_directory
    (s : session) (l1 l2 l3 l4 : string) (rest : list string) (now : Z) :
  (forall s', time_time s' = now) ->
  stdin (core s) = l1 :: l2 :: l3 :: l4 :: rest ->
  fs (core s) !! str_or (strip l3) ("gen_" +:+ str now +:+ ".tmp") = Some Directory ->
  (create_data_file time_time io s).1 = Exc OSError /\
  file_data (create_data_file time_time io s).2 = file_data s /\
  fs (core (create_data_file time_time io s).2) = fs (core s) /\
  temp_files (core (create_data_file time_time io s).2) = temp_files (core s) /\
  schema_sources (core (create_data_file time_time io s).2) = schema_sources (core s) /\
  stdin (core (create_data_file time_time io s).2) = rest.
Proof.
  intros Hclock Hin Hdir.
  destruct (create_data_file_asks s l1 l2 l3 l4 rest now Hclock Hin)
    as (s2 & -> & Hin2 & Hfs2 & Hfd2 & Htf2 & _ & _ & _ & Hsrc2).
  unfold create_the_file. cbv zeta.
  rewrite bindS_open_wb, Hfs2, Hdir. menu_simpl. repeat split; assumption.
Qed.

(** X17: the offer that ends [create_data_file].  When the file was written
    and the answer to "Add this file to schema?" is not [n], a valid block
    device, an answer for once-or-continuously and the flags append one entry
    of type "path" whose command reads the file just generated; the answer [n]
    (in either case) leaves the schema as it was.  Either way the function
    returns normally.  This is for a size typed within the length [int]
    accepts, that fits an index, and a machine that allows the write. *)
Theorem create_data_file_offer
    (s : session) (l1 l2 l3 l4 l5 : string) (rest : list string) (now : Z) :
  (forall s', time_time s' = now) ->
  stdin (core s) = l1 :: l2 :: l3 :: l4 :: l5 :: rest ->
  digits_accepted (strip l2) ->
  let filename := str_or (strip l3) ("gen_" +:+ str now +:+ ".tmp") in
  fs (core s) !! filename <> Some Directory ->
  index_sized (chosen_size (strip l2) * 1024 * 1024) ->
  io_allows io filename (file_content (strip l1))
    ((chosen_size (strip l2) * 1024 * 1024) / str_len (file_content (strip l1))) ->
  (lower (strip l5) = "n" ->
   (create_data_file time_time io s).1 = Ret tt /\
   schema_sources (core (create_data_file time_time io s).2) = schema_sources (core s) /\
   stdin (core (create_data_file time_time io s).2) = rest) /\
  (forall l6 l7 l8 rest',
     rest = l6 :: l7 :: l8 :: rest' ->
     lower (strip l5) <> "n" ->
     written_fs filename (fs (core s)) !! strip l6 = Some BlockDevice ->
     strip l6 <> "" ->
     (create_data_file time_time io s).1 = Ret tt /\
     schema_sources (core (create_data_file time_time io s).2)
       = schema_sources (core s)
         ++ [DictObj (next_id (core s))
               (Source (strip l6) "path" (str_or (strip l8) DEFAULT_DD_FLAGS)
                  (build_dd_command filename (strip l6)
                     (str_or (strip l8) DEFAULT_DD_FLAGS)
                     (String.prefix "c" (lower (strip l7)))))] /\
     stdin (core (create_data_file time_time io s).2) = rest').
Proof.
  intros Hclock Hin _ filename Hnotdir Hidx Hio.
  destruct (create_data_file_run s l1 l2 l3 l4 (l5 :: rest) now Hclock Hin
              Hnotdir Hidx Hio)
    as (s4 & -> & _ & Hfs4 & _ & _ & _ & Hin4 & Hid4 & Hsrc4).
  fold filename in Hfs4 |- *.
  unfold offer_to_add. rewrite bindS_lift_input. menu_simpl. rewrite Hin4.
  split.
  - intros Hn. rewrite Hn. cbn [String.eqb Ascii.eqb Bool.eqb negb]. unfold retS.
    menu_simpl. repeat split. exact Hsrc4.
  - intros l6 l7 l8 rest' -> Hy Hdev Hne.
    apply String.eqb_neq in Hy. rewrite Hy. cbn [negb].
    rewrite bindS_lift, get_device_eq. menu_simpl. rewrite Hfs4, Hdev.
    destruct (strip l6) as [|c0 dev0] eqn:Hstrip; [contradiction |].
    rewrite bindS_lift_input. menu_simpl.
    rewrite bindS_lift_input. menu_simpl.
    rewrite bindS_lift_append_source, lift_print_run. menu_simpl.
    rewrite Hsrc4, Hid4. repeat split.
Qed.


End CreateDataFile.

(** ** The menu loop keeps the schema invariant *)

Lemma schema_invariant_fields (s s' : session) :
  schema_invariant s ->
  schema_sources (core s') = schema_sources (core s) ->
  schema_repeat_count (core s') = schema_repeat_count (core s) ->
  next_id (core s') = next_id (core s) ->
  (forall d, fs (core s) !! d = Some BlockDevice ->
             fs (core s') !! d = Some BlockDevice) ->
  source_types_metadata s' = source_types_metadata s ->
  schema_invariant s'.
Proof.
  unfold schema_invariant, distinct_objects, well_formed.
  intros (Hcount & [Hwf Hnd] & Hentries & Htable) Hsrc Hrc Hid Hfs Htab.
  rewrite Hsrc, Hrc, Hid, Htab. repeat split; try assumption.
  eapply Forall_impl; [exact Hentries |].
  intros d (Hdev & Hcmd & Hty). repeat split; auto.
Qed.

Lemma keeps_retS {A} (a : A) : keeps (retS a).
Proof. intros s H. exact H. Qed.

Lemma keeps_bindS {A B} (m : Menu A) (k : A -> Menu B) :
  keeps m -> (forall a, keeps (k a)) -> keeps (bindS m k).
Proof.
  intros Hm Hk s Hs. specialize (Hm s Hs). unfold bindS.
  destruct (m s) as [[a | e |] s']; simpl in Hm; [| exact Hm | exact Hm].
  apply Hk. exact Hm.
Qed.

Lemma keeps_lift_console {A} (m : M A) :
  (forall st, console_only st (m st).2) -> keeps (lift m).
Proof.
  intros Hm s Hs. unfold lift. specialize (Hm (core s)).
  destruct (m (core s)) as [r st']. simpl in Hm. cbn [snd].
  eapply schema_invariant_console_only; [exact Hs | exact Hm |].
  destruct Hs as (_ & _ & _ & Htable). exact Htable.
Qed.

Lemma print_console (x : string) (st : state) : console_only st (print x st).2.
Proof. reflexivity. Qed.

Lemma input_console (prompt : string) (st : state) :
  console_only st (input prompt st).2.
Proof.
  unfold input, bind, modify. cbn [stdin set_stdout].
  destruct (stdin st); reflexivity.
Qed.

Lemma console_only_trans (st1 st2 st3 : state) :
  console_only st1 st2 -> console_only st2 st3 -> console_only st1 st3.
Proof.
  unfold console_only. intros H12 H23. rewrite H23, H12. reflexivity.
Qed.

Lemma print_schema_loop_console (sources : list dict_obj) (i : Z) (st : state) :
  (print_schema_loop i sources st).1 = Ret tt /\
  console_only st (print_schema_loop i sources st).2.
Proof.
  revert i st. induction sources as [|d rest IH]; intros i st.
  - split; [reflexivity | destruct st; reflexivity].
  - cbn [print_schema_loop]. rewrite !bind_print.
    destruct (IH (i + 1)
                (set_stdout
                   (stdout (set_stdout
                              (stdout st +:+ (ESC +:+ "[1m" +:+ str i +:+ "."
                                              +:+ ESC +:+ "[0m "
                                              +:+ command (obj_val d)) +:+ LF) st)
                    +:+ "" +:+ LF)
                   (set_stdout
                      (stdout st +:+ (ESC +:+ "[1m" +:+ str i +:+ "." +:+ ESC
                                      +:+ "[0m " +:+ command (obj_val d)) +:+ LF)
                      st))) as [Hr Hc].
    split; [exact Hr |].
    eapply console_only_trans; [| exact Hc]. reflexivity.
Qed.

Lemma print_schema_console (st : state) :
  (print_schema st).1 = Ret tt /\ console_only st (print_schema st).2.
Proof.
  unfold print_schema. rewrite bind_print, bind_gets, !bind_print, bind_gets.
  cbn [schema_sources schema_repeat_count set_stdout].
  destruct (schema_sources st) as [|d l] eqn:Hsrc.
  - split; reflexivity.
  - match goal with
    | |- context [print_schema_loop 1 (d :: l) ?st0] =>
        destruct (print_schema_loop_console (d :: l) 1 st0) as [Hr Hc]
    end.
    split; [exact Hr |].
    eapply console_only_trans; [| exact Hc]. reflexivity.
Qed.

Lemma keeps_lift_delete_source : keeps (lift delete_source).
Proof.
  intros s Hs. unfold lift.
  pose proof (delete_source_distinct_objects (core s)) as Hdist.
  rewrite delete_source_eq in *.
  destruct Hs as (Hcount & Hobj & Hentries & Htable). specialize (Hdist Hobj).
  destruct (schema_sources (core s)) as [|d0 l] eqn:Hsrc.
  { cbn [snd] in *. unfold schema_invariant. menu_simpl.
    rewrite Hsrc. repeat split; try assumption; apply Hdist. }
  cbv zeta in *. destruct (stdin (core s)) as [|line rest].
  { cbn [snd] in *. unfold schema_invariant. menu_simpl.
    rewrite Hsrc. repeat split; try assumption; apply Hdist. }
  destruct (py_int (strip line)) as [n|].
  2: { cbn [snd] in *. unfold schema_invariant. menu_simpl.
       rewrite Hsrc. repeat split; try assumption; apply Hdist. }
  destruct ((0 <=? n - 1) && (n - 1 <? len (d0 :: l))).
  2: { cbn [snd] in *. unfold schema_invariant. menu_simpl.
       rewrite Hsrc. repeat split; try assumption; apply Hdist. }
  cbn [snd] in *. unfold schema_invariant. menu_simpl.
  split; [exact Hcount |]. split; [exact Hdist |]. split; [| exact Htable].
  apply Forall_delete. exact Hentries.
Qed.

Lemma keeps_lift_copy_source : keeps (lift copy_source).
Proof.
  intros s Hs. unfold lift.
  pose proof (copy_source_distinct_objects (core s)) as Hdist.
  rewrite copy_source_eq in *.
  destruct Hs as (Hcount & Hobj & Hentries & Htable). specialize (Hdist Hobj).
  destruct (schema_sources (core s)) as [|d0 l] eqn:Hsrc.
  { cbn [snd] in *. unfold schema_invariant. menu_simpl.
    rewrite Hsrc. repeat split; try assumption; apply Hdist. }
  cbv zeta in *. destruct (stdin (core s)) as [|line rest].
  { cbn [snd] in *. unfold schema_invariant. menu_simpl.
    rewrite Hsrc. repeat split; try assumption; apply Hdist. }
  destruct (py_int (strip line)) as [n|].
  2: { cbn [snd] in *. unfold schema_invariant. menu_simpl.
       rewrite Hsrc. repeat split; try assumption; apply Hdist. }
  destruct ((0 <=? n - 1) && (n - 1 <? len (d0 :: l))).
  2: { cbn [snd] in *. unfold schema_invariant. menu_simpl.
       rewrite Hsrc. repeat split; try assumption; apply Hdist. }
  destruct ((d0 :: l) !! Z.to_nat (n - 1)) as [d|] eqn:Hlook.
  2: { cbn [snd] in *. unfold schema_invariant. menu_simpl.
       rewrite Hsrc. repeat split; try assumption; apply Hdist. }
  cbn [snd] in *. unfold schema_invariant. menu_simpl.
  split; [exact Hcount |]. split; [exact Hdist |]. split; [| exact Htable].
  apply Forall_app. split; [exact Hentries |].
  constructor; [| constructor].
  rewrite Forall_forall in Hentries.
  apply (Hentries d). eapply list_elem_of_lookup_2. exact Hlook.
Qed.

Lemma keeps_lift_set_repeat_count : keeps (lift set_repeat_count).
Proof.
  intros s Hs. unfold lift. rewrite set_repeat_count_eq.
  destruct Hs as (Hcount & Hobj & Hentries & Htable).
  cbv zeta. destruct (stdin (core s)) as [|line rest].
  { unfold schema_invariant. menu_simpl. repeat split; assumption || apply Hobj. }
  destruct (py_int (strip line)) as [n|].
  - destruct (n <? 0) eqn:Hn; unfold schema_invariant; menu_simpl.
    + repeat split; try assumption; try apply Hobj; lia.
    + apply Z.ltb_ge in Hn. repeat split; try assumption; apply Hobj.
  - unfold schema_invariant. menu_simpl.
    repeat split; try assumption; try apply Hobj; lia.
Qed.

Lemma keeps_lift_run_schema os_run (run_fuel : nat) :
  keeps (lift (run_schema os_run run_fuel)).
Proof.
  intros s Hs. unfold lift.
  destruct (run_loop_shape os_run run_fuel 0 (core s)) as (log & _ & Hfr & _).
  rewrite run_schema_eq.
  destruct (run_loop os_run run_fuel 0 (core s)) as [r st']. simpl in Hfr.
  assert (Hfr' : engine_frame (core s)
            (set_stdout (stdout st' +:+ "Disk preparation completed." +:+ LF) st'))
    by (apply engine_frame_stdout; exact Hfr).
  destruct r as [[|] | e |]; cbn [snd];
    (eapply schema_invariant_fields; [exact Hs | ..]); menu_simpl;
    try first [rewrite Hfr' | rewrite Hfr]; menu_simpl; auto.
Qed.

Lemma written_fs_block (filename : string) (files : gmap string file_kind) (d : string) :
  files !! d = Some BlockDevice -> written_fs filename files !! d = Some BlockDevice.
Proof.
  intros Hd. unfold written_fs.
  destruct (files !! filename) as [[| |]|] eqn:Hf; try exact Hd.
  all: rewrite lookup_insert_ne; [exact Hd | intros ->; congruence].
Qed.

Lemma keeps_add_source_to_schema : keeps add_source_to_schema.
Proof. intros s Hs. apply add_source_to_schema_invariant. exact Hs. Qed.

Lemma keeps_offer_to_add (filename : string) : keeps (offer_to_add filename).
Proof.
  intros s Hs.
  destruct (offer_to_add_cases filename s)
    as (_ & Htab & [Hconsole | (src & Happ & _ & _ & Hdev & (cw & Hcmd) & Hty)]).
  - eapply schema_invariant_console_only; [exact Hs | exact Hconsole |].
    rewrite Htab. destruct Hs as (_ & _ & _ & Htable). exact Htable.
  - eapply schema_invariant_appended; [exact Hs | exact Happ | | exact Hdev | |].
    + rewrite Htab. destruct Hs as (_ & _ & _ & Htable). exact Htable.
    + eexists _, _. exact Hcmd.
    + rewrite Hty. set_solver.
Qed.

Section MenuInvariant.

Variable os_run : list (string * run_outcome) -> string -> run_outcome.
Variable time_time : session -> Z.
Variable io : io_env.

Lemma keeps_open_wb (filename : string) : keeps (open_wb io filename).
Proof.
  intros s Hs. unfold open_wb.
  destruct (fs (core s) !! filename) as [[| |]|] eqn:Hf;
    destruct (open_refused io s filename); cbn [snd];
    try exact Hs;
    (eapply schema_invariant_fields; [exact Hs | ..]); menu_simpl;
    try reflexivity; try (intros d Hd; exact Hd).
  all: intros d Hd; rewrite lookup_insert_ne; [exact Hd | intros ->; congruence].
Qed.

Lemma keeps_f_write (filename data : string) : keeps (f_write io filename data).
Proof.
  intros s Hs. unfold f_write.
  destruct (write_room io s filename) as [room|];
    [destruct (room <? str_len data) |]; cbn [snd]; exact Hs.
Qed.

Lemma keeps_product (content : string) (count : Z) :
  keeps (fun s => (bytes_product (malloc_granted io s) content count, s)).
Proof. intros s Hs. exact Hs. Qed.

Lemma keeps_create_data_file : keeps (create_data_file time_time io).
Proof.
  unfold create_data_file, create_the_file.
  repeat first
    [ apply keeps_offer_to_add
    | apply keeps_open_wb
    | apply keeps_f_write
    | apply keeps_product
    | apply keeps_lift_console; intros; first [apply print_console | apply input_console]
    | apply keeps_bindS; [| intros ?] ].
  - intros s Hs. unfold try_exceptS.
    match goal with
    | |- context [match strip ?x with "" => _ | String _ _ => _ end] =>
        destruct (strip x) as [|c r]
    end; [exact Hs |].
    unfold lift, int. destruct (py_int (String c r)); cbn [snd is_ValueError].
    + destruct s; exact Hs.
    + unfold bindS, lift, print, modify, retS. cbn [fst snd].
      eapply schema_invariant_fields; [exact Hs | ..]; menu_simpl; auto.
  - intros s Hs. exact Hs.
  - match goal with
    | |- keeps (if ?c then _ else _) => destruct c
    end; [| apply keeps_retS].
    intros s Hs. unfold lift, modify. cbn [snd].
    eapply schema_invariant_fields; [exact Hs | ..]; menu_simpl; auto.
Qed.

Lemma keeps_main_menu (fuel run_fuel : nat) :
  keeps (main_menu os_run time_time io fuel run_fuel).
Proof.
  induction fuel as [|fuel IH]; [intros s Hs; exact Hs |].
  cbn [main_menu].
  repeat first
    [ apply keeps_bindS; [| intros ?]
    | apply keeps_lift_console; intros; first [apply print_console | apply input_console] ].
  - repeat match goal with
           | |- keeps (if ?c then _ else _) => destruct c
           end;
      (apply keeps_bindS; [| intros ?; apply keeps_retS]).
    + apply keeps_add_source_to_schema.
    + apply keeps_lift_delete_source.
    + apply keeps_lift_copy_source.
    + apply keeps_lift_set_repeat_count.
    + apply keeps_create_data_file.
    + apply keeps_lift_run_schema.
    + apply keeps_lift_console. intros. apply print_console.
  - match goal with
    | |- keeps (if ?c then _ else _) => destruct c
    end; [apply keeps_retS |].
    apply keeps_bindS; [| intros ?; exact IH].
    apply keeps_lift_console. intros. apply print_schema_console.
Qed.

Lemma initial_session_invariant (files : gmap string file_kind) (typed : list string) :
  schema_invariant (initial_session files typed).
Proof.
  unfold schema_invariant, distinct_objects, well_formed, initial_session.
  menu_simpl. split; [lia |]. split; [split; constructor |].
  split; [constructor |]. eexists. reflexivity.
Qed.

(** X18: what holds of the schema at every point the script can stop (after
    the run, on an uncaught exception, or still in the menu), whatever was
    typed and whatever the commands and the clock did: the repeat count is not
    negative; the entries are distinct objects; each entry targets a path that
    is a block device, carries a command ending in [of=<that device>
    <its flags>], and has one of the three known types. *)
Theorem script_keeps_schema_invariant
    (fuel run_fuel : nat) (files : gmap string file_kind) (typed : list string) :
  schema_invariant (main os_run time_time io fuel run_fuel (initial_session files typed)).2.
Proof.
  assert (Hmain : keeps (main os_run time_time io fuel run_fuel)).
  { unfold main. apply keeps_bindS; [| intros ?; apply keeps_bindS].
    - intros s Hs. unfold lift, modify. cbn [snd].
      destruct Hs as (Hcount & Hobj & Hentries & Htable).
      unfold schema_invariant. menu_simpl.
      repeat split; try assumption; try apply Hobj; lia.
    - apply keeps_lift_console. intros. apply print_console.
    - intros ?. apply keeps_main_menu. }
  apply Hmain. apply initial_session_invariant.
Qed.

End MenuInvariant.

(** ** The device check *)

(** X23: [is_block_device] never raises and changes nothing: the [stat] is
    only taken of a path that exists.  It answers [True] exactly for a block
    device. *)
Theorem is_block_device_never_raises (path : string) (st : state) :
  exists b : bool,
    is_block_device path st = (Ret b, st) /\
    (b = true <-> fs st !! path = Some BlockDevice).
Proof.
  unfold is_block_device, os_path_exists, S_ISBLK_stat, gets, ret, bind.
  destruct (fs st !! path) as [[| |]|] eqn:E; cbv beta iota; rewrite ?E;
    eexists; (split; [reflexivity |]); split; congruence.
Qed.

(** X24: [get_device] returns a path only when the line typed, stripped, names
    a block device, and then it returns that stripped line; for anything else
    it returns [None].  Either way it returns, and only the console has
    changed. *)
Theorem get_device_returns_only_block_devices
    (st : state) (line : string) (rest : list string) :
  stdin st = line :: rest ->
  (exists r, (get_device st).1 = Ret r /\
             (r = Some (strip line) \/ r = None) /\
             (r = Some (strip line) <-> fs st !! strip line = Some BlockDevice)) /\
  console_only st (get_device st).2 /\
  stdin (get_device st).2 = rest.
Proof.
  intros Hin. rewrite get_device_eq, Hin. cbv zeta.
  destruct (fs st !! strip line) as [[| |]|] eqn:E; cbn [fst snd].
  1-2, 4: (split; [exists None; split; [reflexivity |]; split;
                     [right; reflexivity | split; congruence] |]);
          (split; [unfold console_only; destruct st; reflexivity | reflexivity]).
  split; [exists (Some (strip line)); split; [reflexivity |]; split;
            [left; reflexivity | split; congruence] |].
  split; [unfold console_only; destruct st; reflexivity | reflexivity].
Qed.

(** ** The listing of the schema *)

Lemma substring_append_l (needle hay p : string) :
  substring needle hay -> substring needle (p +:+ hay).
Proof.
  intros (before & after & ->). exists (p +:+ before), after.
  rewrite append_assoc. reflexivity.
Qed.

Lemma substring_append_r (needle hay p : string) :
  substring needle hay -> substring needle (hay +:+ p).
Proof.
  intros (before & after & ->). exists before, (after +:+ p).
  rewrite !append_assoc. reflexivity.
Qed.

Lemma substring_here (needle after : string) : substring needle (needle +:+ after).
Proof. exists "", after. reflexivity. Qed.

Lemma set_stdout_twice (a b : string) (st : state) :
  set_stdout a (set_stdout b st) = set_stdout a st.
Proof. reflexivity. Qed.

Ltac console_eq :=
  unfold print, modify; menu_simpl; rewrite ?set_stdout_twice; do 2 f_equal;
  rewrite !append_assoc; reflexivity.

Lemma print_schema_loop_listing (sources : list dict_obj) (i : Z) (st : state) :
  exists text,
    print_schema_loop i sources st
    = (Ret tt, set_stdout (stdout st +:+ text) st) /\
    forall (k : nat) (d : dict_obj),
      sources !! k = Some d -> substring (entry_line (i + Z.of_nat k) d) text.
Proof.
  revert i st. induction sources as [|d rest IH]; intros i st.
  - exists "". split.
    + cbn [print_schema_loop]. rewrite append_nil_r. destruct st; reflexivity.
    + intros k d Hk. destruct k; discriminate Hk.
  - cbn [print_schema_loop]. rewrite !bind_print.
    match goal with
    | |- context [print_schema_loop (i + 1) rest ?st0] =>
        destruct (IH (i + 1) st0) as (text & Heq & Hsub); rewrite Heq
    end.
    exists (entry_line i d +:+ text). split.
    + unfold entry_line. console_eq.
    + intros [|k] d0 Hk.
      * cbn in Hk. injection Hk as <-. rewrite Z.add_0_r. apply substring_here.
      * cbn in Hk. apply substring_append_l.
        replace (i + Z.of_nat (S k)) with (i + 1 + Z.of_nat k) by lia.
        apply Hsub, Hk.
Qed.

Ltac find_substring :=
  first
    [ assumption
    | solve [ exists "", ""; rewrite append_nil_r; reflexivity ]
    | solve [ exists ""; eexists; rewrite ?append_assoc; reflexivity ]
    | apply substring_append_l; find_substring ].

Lemma print_schema_run (st : state) :
  exists text, print_schema st = (Ret tt, set_stdout (stdout st +:+ text) st).
Proof.
  unfold print_schema. rewrite bind_print, bind_gets, !bind_print, bind_gets.
  cbn [schema_sources schema_repeat_count set_stdout].
  destruct (schema_sources st) as [|d l] eqn:Hsrc.
  - eexists. unfold print. console_eq.
  - match goal with
    | |- context [print_schema_loop 1 (d :: l) ?st0] =>
        destruct (print_schema_loop_listing (d :: l) 1 st0) as (text & Heq & _);
        rewrite Heq
    end.
    eexists. console_eq.
Qed.

(** X21: [print_schema] returns and changes nothing but the text written.  The
    text shows the repeat count, as "infinite" when it is not positive; for
    every entry, in the numbering from 1, the line with its number and its
    command followed by a blank line; and, when there is no entry, the line
    saying so. *)
Theorem print_schema_lists_every_entry (st : state) :
  exists text,
    print_schema st = (Ret tt, set_stdout (stdout st +:+ text) st) /\
    substring ("Repeat count: "
               +:+ (if schema_repeat_count st >? 0
                    then str (schema_repeat_count st) else "infinite") +:+ LF)
              text /\
    (forall (k : nat) (d : dict_obj),
       schema_sources st !! k = Some d ->
       substring (entry_line (Z.of_nat k + 1) d) text) /\
    (schema_sources st = [] ->
     substring ("  (No sources added yet)" +:+ LF) text).
Proof.
  unfold print_schema. rewrite bind_print, bind_gets, !bind_print, bind_gets.
  cbn [schema_sources schema_repeat_count set_stdout].
  destruct (schema_sources st) as [|d l] eqn:Hsrc.
  - eexists. split; [| split; [| split]].
    + unfold print. console_eq.
    + find_substring.
    + intros k d Hk. destruct k; discriminate Hk.
    + intros _. find_substring.
  - match goal with
    | |- context [print_schema_loop 1 (d :: l) ?st0] =>
        destruct (print_schema_loop_listing (d :: l) 1 st0) as (text & Heq & Hsub);
        rewrite Heq
    end.
    eexists. split; [| split; [| split]].
    + console_eq.
    + find_substring.
    + intros k d0 Hk. rewrite Z.add_comm. specialize (Hsub k d0 Hk).
      find_substring.
    + discriminate.
Qed.

(** ** The menu loop, one turn *)

Section MenuTurn.

Variable os_run : list (string * run_outcome) -> string -> run_outcome.
Variable time_time : session -> Z.
Variable io : io_env.

Lemma main_menu_turn (fuel run_fuel : nat) (s : session) (line : string)
    (rest : list string) :
  stdin (core s) = line :: rest ->
  exists st1,
    console_only (core s) st1 /\ stdin st1 = rest /\
    stdout st1 = stdout (core s) +:+ menu_text /\
    main_menu os_run time_time io (S fuel) run_fuel s =
    bindS
      (let choice := lower (strip line) in
       if String.eqb choice "a" then add_source_to_schema ;; retS false
       else if String.eqb choice "d" then lift delete_source ;; retS false
       else if String.eqb choice "c" then lift copy_source ;; retS false
       else if String.eqb choice "r" then lift set_repeat_count ;; retS false
       else if String.eqb choice "g" then create_data_file time_time io ;; retS false
       else if String.eqb choice "done"
            then lift (run_schema os_run run_fuel) ;; retS true
       else lift (print "Invalid choice. Please choose again.") ;; retS false)%menu
      (fun break : bool =>
         if break then retS tt
         else lift print_schema ;; main_menu os_run time_time io fuel run_fuel)%menu
      (set_core st1 s).
Proof.
  intros Hin. cbn [main_menu].
  rewrite !bindS_lift_print. menu_simpl.
  rewrite bindS_lift_input. menu_simpl. rewrite Hin.
  eexists. split; [| split; [| split; [| reflexivity]]].
  - unfold console_only. destruct s as [st ? ?], st. reflexivity.
  - reflexivity.
  - menu_simpl. unfold menu_text. rewrite !append_assoc. reflexivity.
Qed.

(** X19: an unknown choice changes nothing but the console.  After the menu
    and the prompt the line is consumed and "Invalid choice. Please choose
    again." is printed; from the state [st1] this leaves, the schema is
    listed by [print_schema], and the loop goes on from the state [st'] the
    listing leaves. *)
Theorem main_menu_invalid_choice (fuel run_fuel : nat) (s : session)
    (line : string) (rest : list string) :
  stdin (core s) = line :: rest ->
  lower (strip line) ∉ ["a"; "d"; "c"; "r"; "g"; "done"] ->
  exists st1 st',
    console_only (core s) st1 /\ stdin st1 = rest /\
    stdout st1
    = stdout (core s) +:+ menu_text
      +:+ "Invalid choice. Please choose again." +:+ LF /\
    print_schema st1 = (Ret tt, st') /\
    main_menu os_run time_time io (S fuel) run_fuel s
    = main_menu os_run time_time io fuel run_fuel (set_core st' s).
Proof.
  intros Hin Hnot.
  destruct (main_menu_turn fuel run_fuel s line rest Hin)
    as (st0 & Hc0 & Hrest & Hout & ->).
  cbv zeta.
  repeat match goal with
  | |- context [String.eqb (lower (strip line)) ?c] =>
      let E := fresh "E" in
      destruct (String.eqb (lower (strip line)) c) eqn:E;
      [ apply String.eqb_eq in E; exfalso; apply Hnot; rewrite E; set_solver |]
  end.
  rewrite bindS_assoc, bindS_lift_print, bindS_retS. menu_simpl.
  rewrite bindS_lift. menu_simpl.
  match goal with
  | |- context [print_schema ?st] =>
      destruct (print_schema_run st) as [text Hps]; exists st
  end.
  eexists.
  split; [| split; [| split; [| split; [exact Hps | rewrite Hps; reflexivity]]]].
  - eapply console_only_trans; [exact Hc0 |].
    unfold console_only. destruct st0. reflexivity.
  - cbn [stdin set_stdout]. exact Hrest.
  - cbn [stdout set_stdout]. rewrite Hout, !append_assoc. reflexivity.
Qed.

(** X20: the choice "done", in any case and with blanks around it, runs the
    schema once and ends the menu with whatever the run ended with: no listing
    is shown and no further line is read, also when a pass failed. *)
Theorem main_menu_done_runs_schema_once (fuel run_fuel : nat) (s : session)
    (line : string) (rest : list string) :
  stdin (core s) = line :: rest ->
  lower (strip line) = "done" ->
  exists st1,
    console_only (core s) st1 /\ stdin st1 = rest /\
    main_menu os_run time_time io (S fuel) run_fuel s
    = ((run_schema os_run run_fuel st1).1,
       set_core (run_schema os_run run_fuel st1).2 s).
Proof.
  intros Hin Hdone.
  destruct (main_menu_turn fuel run_fuel s line rest Hin)
    as (st1 & Hc1 & Hrest & _ & ->).
  cbv zeta. rewrite Hdone. cbn [String.eqb Ascii.eqb Bool.eqb andb].
  exists st1. split; [exact Hc1 |]. split; [exact Hrest |].
  rewrite bindS_assoc, bindS_lift. menu_simpl.
  destruct (run_schema os_run run_fuel st1) as [[[] | e |] st2]; reflexivity.
Qed.

(** X22: at the end of the operator's input the menu does not return: the
    [EOFError] of [input], which nothing catches, ends the script after the
    menu and the prompt were shown; nothing but the console has changed. *)
Theorem main_menu_end_of_input (fuel run_fuel : nat) (s : session) :
  stdin (core s) = [] ->
  exists st1,
    console_only (core s) st1 /\
    main_menu os_run time_time io (S fuel) run_fuel s
    = (Exc EOFError, set_core st1 s).
Proof.
  intros Hin. cbn [main_menu].
  rewrite !bindS_lift_print. menu_simpl.
  rewrite bindS_lift_input. menu_simpl. rewrite Hin.
  eexists. split; [| reflexivity].
  unfold console_only. destruct s as [st ? ?], st. reflexivity.
Qed.

End MenuTurn.

(** ** The further properties on the samples *)

Ltac not_in_list :=
  let H := fresh "H" in
  intros H;
  repeat (apply elem_of_cons in H as [H | H]; [vm_compute in H; discriminate H |]);
  inversion H.

Lemma run_schema_n_passes_witness :
  exists log : list (string * run_outcome),
    invocations (run_schema run_ok 2 (sample_state 2 [])).2
      = invocations (sample_state 2 []) ++ log /\
    map fst log = concat (replicate 2 (commands (schema_sources (sample_state 2 [])))) /\
    length log = (2 * length (schema_sources (sample_state 2 [])))%nat /\
    completed (run_schema run_ok 2 (sample_state 2 [])).
Proof.
  apply (run_schema_n_passes run_ok 2 2 (sample_state 2 [])).
  - reflexivity.
  - lia.
  - lia.
  - intros h c _. reflexivity.
Defined.

Lemma run_schema_forever_never_returns_witness :
  exists log : list (string * run_outcome),
    (run_schema run_ok 3 (single_state 0)).1 = OutOfFuel /\
    invocations (run_schema run_ok 3 (single_state 0)).2
      = invocations (single_state 0) ++ log /\
    map fst log = concat (replicate 3 (commands (schema_sources (single_state 0)))).
Proof.
  apply (run_schema_forever_never_returns run_ok 3 (single_state 0)).
  - reflexivity.
  - intros h c _. reflexivity.
Defined.

Lemma run_schema_lets_base_exceptions_through_witness :
  @nil (string * run_outcome) = [] /\
  (run_schema run_interrupted 1 (single_state 1)).1 = Exc KeyboardInterrupt.
Proof.
  apply (run_schema_lets_base_exceptions_through run_interrupted 1 (single_state 1)
           [(command source_zeros, Raised KeyboardInterrupt)] [] []
           (command source_zeros) KeyboardInterrupt).
  - vm_compute. reflexivity.
  - reflexivity.
  - reflexivity.
Defined.

Lemma delete_source_removes_entry_witness :
  (delete_source (sample_state 2 ["1"])).1 = Ret tt /\
  schema_sources (delete_source (sample_state 2 ["1"])).2
    = take (Z.to_nat (1 - 1)) (schema_sources (sample_state 2 ["1"]))
      ++ drop (Z.to_nat 1) (schema_sources (sample_state 2 ["1"])).
Proof.
  assert (H : 1 <= 1 <= len (schema_sources (sample_state 2 ["1"])))
    by (vm_compute; split; discriminate).
  destruct (delete_source_removes_entry (sample_state 2 ["1"]) "1" [] 1
              eq_refl eq_refl H) as (Hr & Hs & _).
  split; [exact Hr | exact Hs].
Defined.

Lemma copy_then_delete_last_restores_schema_witness :
  (copy_source (sample_state 2 ["1"; "3"])).1 = Ret tt /\
  (delete_source (copy_source (sample_state 2 ["1"; "3"])).2).1 = Ret tt /\
  schema_sources (delete_source (copy_source (sample_state 2 ["1"; "3"])).2).2
    = schema_sources (sample_state 2 ["1"; "3"]).
Proof.
  apply (copy_then_delete_last_restores_schema (sample_state 2 ["1"; "3"])
           "1" "3" [] 1).
  - reflexivity.
  - reflexivity.
  - vm_compute. split; discriminate.
  - reflexivity.
Defined.

Lemma set_repeat_count_stores_valid_count_witness :
  (set_repeat_count (sample_state 1 ["0"])).1 = Ret tt /\
  schema_repeat_count (set_repeat_count (sample_state 1 ["0"])).2 = 0 /\
  schema_sources (set_repeat_count (sample_state 1 ["0"])).2
    = schema_sources (sample_state 1 ["0"]) /\
  stdout (set_repeat_count (sample_state 1 ["0"])).2
    = stdout (sample_state 1 ["0"])
      +:+ "Enter the number of times to repeat the schema (0 for infinitely): ".
Proof.
  apply (set_repeat_count_stores_valid_count (sample_state 1 ["0"]) "0" [] 0).
  - reflexivity.
  - reflexivity.
  - lia.
Defined.

Lemma set_repeat_count_never_stores_negative_witness :
  (set_repeat_count (sample_state 5 ["many"])).1 = Ret tt /\
  0 <= schema_repeat_count (set_repeat_count (sample_state 5 ["many"])).2 /\
  schema_repeat_count (set_repeat_count (sample_state 5 ["many"])).2 = 1.
Proof.
  destruct (set_repeat_count_never_stores_negative (sample_state 5 ["many"])
              "many" [] eq_refl) as (Hr & Hpos & Hbad).
  destruct (Hbad eq_refl) as [Hone _].
  split; [exact Hr |]. split; [exact Hpos | exact Hone].
Defined.

Lemma end_of_input_raises_EOFError_witness :
  (set_repeat_count (sample_state 2 [])).1 = Exc EOFError /\
  (delete_source (sample_state 2 [])).1 = Exc EOFError /\
  (copy_source (sample_state 2 [])).1 = Exc EOFError.
Proof.
  destruct (end_of_input_raises_EOFError (sample_state 2 []) eq_refl)
    as [[Hset _] Hrest].
  assert (Hne : schema_sources (sample_state 2 []) <> []) by discriminate.
  destruct (Hrest Hne) as (Hdel & _ & Hcopy & _).
  split; [exact Hset |]. split; [exact Hdel | exact Hcopy].
Defined.

Lemma add_source_to_schema_fixed_input_witness :
  (add_source_to_schema (sample_session ["/dev/sdX"; " Z "; ""])).1 = Ret tt /\
  schema_sources (core (add_source_to_schema (sample_session ["/dev/sdX"; " Z "; ""])).2)
    = schema_sources (core (sample_session ["/dev/sdX"; " Z "; ""]))
      ++ [DictObj (next_id (core (sample_session ["/dev/sdX"; " Z "; ""])))
            (Source (strip "/dev/sdX") "zeros" (str_or (strip "") DEFAULT_DD_FLAGS)
               ("dd if=" +:+ "/dev/zero" +:+ " of=" +:+ strip "/dev/sdX" +:+ " "
                +:+ str_or (strip "") DEFAULT_DD_FLAGS))].
Proof.
  assert (Hdev : strip "/dev/sdX" <> "") by (vm_compute; discriminate).
  assert (Hkey : ("z", "zeros", "/dev/zero")
                 ∈ [("r", "random", "/dev/urandom"); ("z", "zeros", "/dev/zero")])
    by (constructor 2; constructor 1).
  destruct (add_source_to_schema_fixed_input
              (sample_session ["/dev/sdX"; " Z "; ""]) None
              "/dev/sdX" " Z " "" [] "z" "zeros" "/dev/zero"
              eq_refl eq_refl eq_refl Hdev eq_refl Hkey) as (Hr & Hs & _).
  split; [exact Hr | exact Hs].
Defined.

Lemma add_source_to_schema_path_input_witness :
  (add_source_to_schema
     (sample_session ["/dev/sdX"; "p"; "/tmp/image.bin"; "Continuous"; "bs=1M"])).1
    = Ret tt /\
  source_types_metadata
    (add_source_to_schema
       (sample_session ["/dev/sdX"; "p"; "/tmp/image.bin"; "Continuous"; "bs=1M"])).2
    = metadata_table (Some (String.prefix "c" (lower (strip "Continuous")))).
Proof.
  assert (Hdev : strip "/dev/sdX" <> "") by (vm_compute; discriminate).
  assert (Hpath : is_Some (fs (core (sample_session
                    ["/dev/sdX"; "p"; "/tmp/image.bin"; "Continuous"; "bs=1M"]))
                           !! strip "/tmp/image.bin"))
    by (exists RegularFile; reflexivity).
  destruct (add_source_to_schema_path_input
              (sample_session ["/dev/sdX"; "p"; "/tmp/image.bin"; "Continuous"; "bs=1M"])
              None "/dev/sdX" "p" "/tmp/image.bin" "Continuous" "bs=1M" []
              eq_refl eq_refl eq_refl Hdev eq_refl Hpath) as (Hr & _ & _ & Ht & _).
  split; [exact Hr | exact Ht].
Defined.

Lemma add_source_to_schema_refusals_witness :
  ((add_source_to_schema (sample_session ["/tmp/image.bin"])).1 = Ret tt /\
   schema_sources (core (add_source_to_schema (sample_session ["/tmp/image.bin"])).2)
     = schema_sources (core (sample_session ["/tmp/image.bin"]))) /\
  ((add_source_to_schema (sample_session ["/dev/sdX"; "q"])).1 = Ret tt /\
   schema_sources (core (add_source_to_schema (sample_session ["/dev/sdX"; "q"])).2)
     = schema_sources (core (sample_session ["/dev/sdX"; "q"]))) /\
  ((add_source_to_schema (sample_session ["/dev/sdX"; "p"; "/tmp/none"])).1 = Ret tt /\
   schema_sources
     (core (add_source_to_schema (sample_session ["/dev/sdX"; "p"; "/tmp/none"])).2)
     = schema_sources (core (sample_session ["/dev/sdX"; "p"; "/tmp/none"]))).
Proof.
  assert (Hdev : strip "/dev/sdX" <> "") by (vm_compute; discriminate).
  split; [| split].
  - destruct (add_source_to_schema_refusals (sample_session ["/tmp/image.bin"])
                None eq_refl) as (Hfirst & _ & _).
    assert (Hno : fs (core (sample_session ["/tmp/image.bin"])) !! strip "/tmp/image.bin"
                  <> Some BlockDevice) by (vm_compute; discriminate).
    destruct (Hfirst "/tmp/image.bin" [] eq_refl Hno) as (Hr & Hs & _).
    split; [exact Hr | exact Hs].
  - destruct (add_source_to_schema_refusals (sample_session ["/dev/sdX"; "q"])
                None eq_refl) as (_ & Hsecond & _).
    assert (Hno : lower (strip "q") ∉ ["r"; "z"; "p"])
      by not_in_list.
    destruct (Hsecond "/dev/sdX" "q" [] eq_refl eq_refl Hdev Hno) as (Hr & Hs & _).
    split; [exact Hr | exact Hs].
  - destruct (add_source_to_schema_refusals
                (sample_session ["/dev/sdX"; "p"; "/tmp/none"]) None eq_refl)
      as (_ & _ & Hthird).
    destruct (Hthird "/dev/sdX" "p" "/tmp/none" [] eq_refl eq_refl Hdev eq_refl eq_refl)
      as (Hr & Hs & _).
    split; [exact Hr | exact Hs].
Defined.

Lemma file_data_size_witness :
  (exists data,
     bytes_product (fun _ => true) (file_content "ab")
       ((1 * 1024 * 1024) / str_len (file_content "ab")) = Ret data /\
     (0 <= 1 ->
      1 * 1024 * 1024 - str_len (file_content "ab") < str_len data
      <= 1 * 1024 * 1024) /\
     (0 <= 1 -> (1 * 1024 * 1024) mod str_len (file_content "ab") = 0 ->
      str_len data = 1 * 1024 * 1024) /\
     (1 < 0 -> data = "")) /\
  bytes_product (fun _ => true) (file_content "")
    ((10000000000000 * 1024 * 1024) / str_len (file_content ""))
  = Exc OverflowError /\
  bytes_product (fun _ => false) (file_content "ab")
    ((1 * 1024 * 1024) / str_len (file_content "ab"))
  = Exc MemoryError /\
  file_content "" = String "255"%char "".
Proof.
  split; [| split; [| split]].
  - apply (proj1 (proj2 (file_data_size (fun _ => true) "ab" 1))).
    + vm_compute. split; discriminate.
    + reflexivity.
  - apply (proj1 (proj2 (proj2 (file_data_size (fun _ => true) "" 10000000000000)))).
    vm_compute. intros [_ H]. apply H. reflexivity.
  - apply (proj1 (proj2 (proj2 (proj2 (file_data_size (fun _ => false) "ab" 1))))).
    + vm_compute. split; discriminate.
    + vm_compute. discriminate.
    + reflexivity.
  - apply (proj2 (proj2 (proj2 (proj2 (file_data_size (fun _ => true) "" 0))))).
    exact I.
Defined.

Lemma sample_io_allows (filename content : string) (count : Z) :
  io_allows sample_io filename content count.
Proof. intros s'. repeat split. Qed.

Lemma create_data_file_writes_witness :
  temp_files (core (create_data_file sample_clock sample_io
                      (sample_session ["ab"; "0"; ""; "y"; "n"])).2)
    = temp_files (core (sample_session ["ab"; "0"; ""; "y"; "n"]))
      ++ (if String.eqb (lower (strip "y")) "n" then []
          else [str_or (strip "") ("gen_" +:+ str 1700000000 +:+ ".tmp")]) /\
  fs (core (create_data_file sample_clock sample_io
              (sample_session ["ab"; "0"; ""; "y"; "n"])).2)
    = written_fs (str_or (strip "") ("gen_" +:+ str 1700000000 +:+ ".tmp"))
        (fs (core (sample_session ["ab"; "0"; ""; "y"; "n"]))).
Proof.
  assert (Hclock : forall s', sample_clock s' = 1700000000) by reflexivity.
  assert (Hdig : digits_accepted (strip "0")) by (vm_compute; discriminate).
  assert (Hfile : fs (core (sample_session ["ab"; "0"; ""; "y"; "n"]))
                    !! str_or (strip "") ("gen_" +:+ str 1700000000 +:+ ".tmp")
                  <> Some Directory) by (vm_compute; discriminate).
  assert (Hidx : index_sized (chosen_size (strip "0") * 1024 * 1024))
    by (vm_compute; split; discriminate).
  destruct (create_data_file_writes sample_clock sample_io
              (sample_session ["ab"; "0"; ""; "y"; "n"]) "ab" "0" "" "y" ["n"]
              1700000000 Hclock eq_refl Hdig Hfile Hidx (sample_io_allows _ _ _))
    as (_ & Hfs & Htemp & _).
  split; [exact Htemp | exact Hfs].
Defined.

Lemma create_data_file_on_directory_witness :
  (create_data_file sample_clock sample_io
     (sample_session ["ab"; "1"; "/tmp"; "n"])).1
    = Exc OSError /\
  fs (core (create_data_file sample_clock sample_io
              (sample_session ["ab"; "1"; "/tmp"; "n"])).2)
    = fs (core (sample_session ["ab"; "1"; "/tmp"; "n"])).
Proof.
  assert (Hclock : forall s', sample_clock s' = 1700000000) by reflexivity.
  destruct (create_data_file_on_directory sample_clock sample_io
              (sample_session ["ab"; "1"; "/tmp"; "n"]) "ab" "1" "/tmp" "n" []
              1700000000 Hclock eq_refl eq_refl) as (Hr & _ & Hfs & _).
  split; [exact Hr | exact Hfs].
Defined.

Lemma create_data_file_offer_witness :
  ((create_data_file sample_clock sample_io
      (sample_session ["ab"; "0"; "/tmp/out.bin"; "n"; "N"])).1 = Ret tt /\
   schema_sources
     (core (create_data_file sample_clock sample_io
              (sample_session ["ab"; "0"; "/tmp/out.bin"; "n"; "N"])).2)
     = schema_sources (core (sample_session ["ab"; "0"; "/tmp/out.bin"; "n"; "N"]))) /\
  ((create_data_file sample_clock sample_io
      (sample_session ["ab"; "0"; "/tmp/out.bin"; "n"; ""; "/dev/sdX"; "c"; ""])).1
     = Ret tt /\
   stdin
     (core (create_data_file sample_clock sample_io
              (sample_session ["ab"; "0"; "/tmp/out.bin"; "n"; ""; "/dev/sdX"; "c"; ""])).2)
     = []).
Proof.
  assert (Hclock : forall s', sample_clock s' = 1700000000) by reflexivity.
  assert (Hdig : digits_accepted (strip "0")) by (vm_compute; discriminate).
  assert (Hdev : strip "/dev/sdX" <> "") by (vm_compute; discriminate).
  assert (Hidx : index_sized (chosen_size (strip "0") * 1024 * 1024))
    by (vm_compute; split; discriminate).
  split.
  - assert (Hfile : fs (core (sample_session ["ab"; "0"; "/tmp/out.bin"; "n"; "N"]))
                      !! str_or (strip "/tmp/out.bin")
                           ("gen_" +:+ str 1700000000 +:+ ".tmp")
                    <> Some Directory) by (vm_compute; discriminate).
    destruct (create_data_file_offer sample_clock sample_io
                (sample_session ["ab"; "0"; "/tmp/out.bin"; "n"; "N"])
                "ab" "0" "/tmp/out.bin" "n" "N" [] 1700000000
                Hclock eq_refl Hdig Hfile Hidx (sample_io_allows _ _ _)) as [Hno _].
    destruct (Hno eq_refl) as (Hr & Hs & _).
    split; [exact Hr | exact Hs].
  - assert (Hfile : fs (core (sample_session
                       ["ab"; "0"; "/tmp/out.bin"; "n"; ""; "/dev/sdX"; "c"; ""]))
                      !! str_or (strip "/tmp/out.bin")
                           ("gen_" +:+ str 1700000000 +:+ ".tmp")
                    <> Some Directory) by (vm_compute; discriminate).
    destruct (create_data_file_offer sample_clock sample_io
                (sample_session ["ab"; "0"; "/tmp/out.bin"; "n"; ""; "/dev/sdX"; "c"; ""])
                "ab" "0" "/tmp/out.bin" "n" "" ["/dev/sdX"; "c"; ""] 1700000000
                Hclock eq_refl Hdig Hfile Hidx (sample_io_allows _ _ _)) as [_ Hyes].
    assert (Hans : lower (strip "") <> "n") by (vm_compute; discriminate).
    assert (Hblk : written_fs (str_or (strip "/tmp/out.bin")
                                 ("gen_" +:+ str 1700000000 +:+ ".tmp"))
                     (fs (core (sample_session
                        ["ab"; "0"; "/tmp/out.bin"; "n"; ""; "/dev/sdX"; "c"; ""])))
                     !! strip "/dev/sdX" = Some BlockDevice)
      by (vm_compute; reflexivity).
    destruct (Hyes "/dev/sdX" "c" "" [] eq_refl Hans Hblk Hdev) as (Hr & _ & Hin).
    split; [exact Hr | exact Hin].
Defined.


Lemma main_menu_invalid_choice_witness :
  exists st1 st',
    console_only (core (sample_session ["x"])) st1 /\ stdin st1 = [] /\
    stdout st1
    = stdout (core (sample_session ["x"])) +:+ menu_text
      +:+ "Invalid choice. Please choose again." +:+ LF /\
    print_schema st1 = (Ret tt, st') /\
    main_menu run_ok sample_clock sample_io 1 0 (sample_session ["x"])
    = main_menu run_ok sample_clock sample_io 0 0 (set_core st' (sample_session ["x"])).
Proof.
  apply (main_menu_invalid_choice run_ok sample_clock sample_io 0 0 (sample_session ["x"]) "x" []).
  - reflexivity.
  - not_in_list.
Defined.

Lemma main_menu_done_runs_schema_once_witness :
  exists st1,
    console_only (core (sample_session [" Done "])) st1 /\ stdin st1 = [] /\
    main_menu run_ok sample_clock sample_io 1 1 (sample_session [" Done "])
    = ((run_schema run_ok 1 st1).1,
       set_core (run_schema run_ok 1 st1).2 (sample_session [" Done "])).
Proof.
  apply (main_menu_done_runs_schema_once run_ok sample_clock sample_io 0 1
           (sample_session [" Done "]) " Done " []).
  - reflexivity.
  - reflexivity.
Defined.

Lemma main_menu_end_of_input_witness :
  exists st1,
    console_only (core (sample_session [])) st1 /\
    main_menu run_ok sample_clock sample_io 1 0 (sample_session [])
    = (Exc EOFError, set_core st1 (sample_session [])).
Proof.
  apply (main_menu_end_of_input run_ok sample_clock sample_io 0 0 (sample_session [])).
  reflexivity.
Defined.

Lemma get_device_returns_only_block_devices_witness :
  (exists r, (get_device (empty_state [" /dev/sdX "])).1 = Ret r /\
             (r = Some (strip " /dev/sdX ") \/ r = None) /\
             (r = Some (strip " /dev/sdX ")
              <-> fs (empty_state [" /dev/sdX "]) !! strip " /dev/sdX "
                  = Some BlockDevice)) /\
  console_only (empty_state [" /dev/sdX "]) (get_device (empty_state [" /dev/sdX "])).2 /\
  stdin (get_device (empty_state [" /dev/sdX "])).2 = [].
Proof.
  apply (get_device_returns_only_block_devices (empty_state [" /dev/sdX "])
           " /dev/sdX " []).
  reflexivity.
Defined.

Lemma print_schema_lists_every_entry_witness :
  exists text,
    print_schema (sample_state 2 [])
    = (Ret tt, set_stdout (stdout (sample_state 2 []) +:+ text) (sample_state 2 [])) /\
    substring (entry_line (Z.of_nat 1 + 1) (DictObj 1 source_random)) text.
Proof.
  destruct (print_schema_lists_every_entry (sample_state 2 []))
    as (text & Heq & _ & Hentry & _).
  exists text. split; [exact Heq |].
  apply (Hentry 1%nat (DictObj 1 source_random)). reflexivity.
Defined.
